(** * Operyx Kitchen Pro front end: API client, workflow handlers, UK formatting

    A shallow embedding of the TypeScript sources

      - [src/api/client.ts]            (module [Client])
      - [src/utils/format.ts]          (module [Format], [parseUKDate])
      - [src/pages/BudgetWorkflowPage.tsx], [LabourWorkflowPage.tsx],
        [CashWorkflowPage.tsx], [EvidenceWorkflowPage.tsx]
      - [src/components/Layout.tsx]    (module [Layout], [loadVenues])

    together with the part of the JavaScript run time these functions call
    (module [JS]): strings as sequences of UTF-16 code units, JSON values,
    property access, [ToString], [trim], [split], [parseInt] and the
    ECMAScript date arithmetic behind [Date.UTC].

    Asynchronous functions are written in a small monad that threads the
    sequence of observable events (network requests issued through [fetch],
    console lines) and, for page handlers, the page's React state.  An
    [await]ed promise that rejects is an exception of that monad. *)

From Stdlib Require Import ZArith NArith List String Ascii Bool Lia.
From Stdlib Require Import DecimalString.
From Stdlib Require Decimal DecimalPos DecimalZ.
Import ListNotations.

Set Implicit Arguments.
Set Warnings "-register-all".

(* ====================================================================== *)
(** * Part I.  Definitions                                                  *)
(* ====================================================================== *)

(** ** The JavaScript run time *)

Module JS.

(** A JavaScript string is a sequence of UTF-16 code units. *)
Definition jsstring := list N.

(** Source literals are ASCII; [lit] reads one as code units. *)
Fixpoint lit (s : string) : jsstring :=
  match s with
  | EmptyString => []
  | String a r => N_of_ascii a :: lit r
  end.

(** Strict equality [===] of two strings. *)
Fixpoint str_eqb (a b : jsstring) : bool :=
  match a, b with
  | [], [] => true
  | x :: a', y :: b' => N.eqb x y && str_eqb a' b'
  | _, _ => false
  end.

(** [prefix.isPrefixOf(s)], used by [includes]. *)
Fixpoint starts_with (p s : jsstring) : bool :=
  match p, s with
  | [], _ => true
  | x :: p', y :: s' => N.eqb x y && starts_with p' s'
  | _ :: _, [] => false
  end.

(** [String.prototype.includes]. *)
Fixpoint includes (s needle : jsstring) : bool :=
  starts_with needle s ||
  match s with
  | [] => false
  | _ :: s' => includes s' needle
  end.

(** [String.prototype.substring(0, n)]. *)
Definition substring0 (n : nat) (s : jsstring) : jsstring := firstn n s.

(** ECMAScript [WhiteSpace] and [LineTerminator] code points, the characters
    removed by [trim] and skipped by [parseInt]. *)
Definition is_white_space (c : N) : bool :=
  (N.eqb c 9 || N.eqb c 10 || N.eqb c 11 || N.eqb c 12 || N.eqb c 13 ||
   N.eqb c 32 || N.eqb c 160 || N.eqb c 5760 ||
   (N.leb 8192 c && N.leb c 8202) ||
   N.eqb c 8232 || N.eqb c 8233 || N.eqb c 8239 || N.eqb c 8287 ||
   N.eqb c 12288 || N.eqb c 65279)%bool.

Fixpoint trimStart (s : jsstring) : jsstring :=
  match s with
  | c :: r => if is_white_space c then trimStart r else s
  | [] => []
  end.

Definition trimEnd (s : jsstring) : jsstring := rev (trimStart (rev s)).

(** [String.prototype.trim]. *)
Definition trim (s : jsstring) : jsstring := trimEnd (trimStart s).

(** [String.prototype.split] for a separator of one code unit: always at
    least one segment. *)
Fixpoint split (sep : N) (s : jsstring) : list jsstring :=
  match s with
  | [] => [[]]
  | c :: r =>
      if N.eqb c sep then [] :: split sep r
      else match split sep r with
           | p :: ps => (c :: p) :: ps
           | [] => [[c]]
           end
  end.

(** The integer that [parseInt(s, 10)] reads: leading white space is skipped,
    one sign is read, then the longest run of decimal digits.  [parseInt10]
    is that integer with its sign, in full; [None] (no digit) is where
    [parseInt] returns NaN.  The Number that [parseInt] returns is
    [parseInt] below. *)
Definition is_digit (c : N) : bool := (N.leb 48 c && N.leb c 57)%bool.

Fixpoint digits_prefix (s : jsstring) : jsstring :=
  match s with
  | c :: r => if is_digit c then c :: digits_prefix r else []
  | [] => []
  end.

Definition digits_value (ds : jsstring) : Z :=
  fold_left (fun acc c => (10 * acc + (Z.of_N c - 48))%Z) ds 0%Z.

Definition parseInt10 (s : jsstring) : option Z :=
  let S := trimStart s in
  let '(sign, S') :=
    match S with
    | c :: r => if N.eqb c 45 then ((-1)%Z, r)
                else if N.eqb c 43 then (1%Z, r)
                else (1%Z, S)
    | [] => (1%Z, S)
    end in
  match digits_prefix S' with
  | [] => None
  | ds => Some (sign * digits_value ds)%Z
  end.

(** An integral Number other than NaN: an integer that binary64 holds, or an
    infinity.  The two zeros are one value here: nothing that follows tells
    them apart. *)
Inductive integer64 : Type :=
| Finite (z : Z)
| Infinite (negative : bool).

(** The Number value of an integer: the nearest binary64, a tie going to the
    even significand, and an infinity once that would be 2^1024.  Up to 2^53
    in magnitude every integer is its own Number. *)
Definition binary64 (z : Z) : integer64 :=
  let a := Z.abs z in
  if (a <=? 9007199254740992)%Z then Finite z
  else
    let e := (Z.log2 a - 52)%Z in
    let q := (a / 2 ^ e)%Z in                 (* 53 bits *)
    let r := (a mod 2 ^ e)%Z in
    let q' := if (2 * r <? 2 ^ e)%Z then q
              else if (2 ^ e <? 2 * r)%Z then (q + 1)%Z
              else if Z.even q then q else (q + 1)%Z in
    if (2 ^ 1024 <=? q' * 2 ^ e)%Z then Infinite (z <? 0)%Z
    else Finite (Z.sgn z * (q' * 2 ^ e))%Z.

(** [parseInt(s, 10)]; [None] is NaN.  (Past twenty significant digits an
    engine may read the further digits as zeros; they are kept here.) *)
Definition parseInt (s : jsstring) : option integer64 :=
  option_map binary64 (parseInt10 s).

(** [x - 1] on an integral Number. *)
Definition minus_one (x : integer64) : integer64 :=
  match x with
  | Finite z => binary64 (z - 1)
  | Infinite negative => Infinite negative
  end.

(** Decimal rendering of an integer, as [Number::toString] gives for an
    integral Number below 10^21 (a status code, for instance). *)
Definition Z_toString (z : Z) : jsstring :=
  lit (NilZero.string_of_int (Z.to_int z)).

(** The Number type is IEEE binary64; this development never computes with
    the numbers carried inside JSON payloads, so it takes the type and the
    three run-time operations used on it as an interface. *)
Class Number := {
  number : Type;
  number_zero : number;                    (* the literal 0 *)
  number_truthy : number -> bool;          (* ToBoolean: false on 0 and NaN *)
  Number_toString : number -> jsstring     (* Number::toString *)
}.

(** Integral numbers are one implementation. *)
Definition Z_Number : Number :=
  {| number := Z; number_zero := 0%Z;
     number_truthy := fun z => negb (Z.eqb z 0);
     Number_toString := Z_toString |}.

Section Values.
Context {Num : Number}.

(** Run-time values that [JSON.parse] yields, plus [undefined]. *)
Inductive value : Type :=
| VUndefined
| VNull
| VBool (b : bool)
| VNum (n : number)
| VStr (s : jsstring)
| VArr (items : list value)
| VObj (fields : list (jsstring * value)).

(** ToBoolean. *)
Definition truthy (v : value) : bool :=
  match v with
  | VUndefined | VNull => false
  | VBool b => b
  | VNum n => number_truthy n
  | VStr s => match s with [] => false | _ => true end
  | VArr _ | VObj _ => true
  end.

Definition str_truthy (s : jsstring) : bool :=
  match s with [] => false | _ => true end.

(** [a || b]. *)
Definition or_else (a b : value) : value := if truthy a then a else b.

Fixpoint lookup (k : jsstring) (fields : list (jsstring * value)) : value :=
  match fields with
  | [] => VUndefined
  | (k', v) :: r => if str_eqb k k' then v else lookup k r
  end.

(** ToString, as a template literal or [new Error(x)] applies it. *)
Fixpoint ToString (v : value) : jsstring :=
  match v with
  | VUndefined => lit "undefined"
  | VNull => lit "null"
  | VBool true => lit "true"
  | VBool false => lit "false"
  | VNum n => Number_toString n
  | VStr s => s
  | VArr items =>
      (fix join (l : list value) : jsstring :=
         match l with
         | [] => []
         | x :: r =>
             let e := match x with
                      | VUndefined | VNull => []
                      | _ => ToString x
                      end in
             match r with
             | [] => e
             | _ :: _ => e ++ lit "," ++ join r
             end
         end) items
  | VObj _ => lit "[object Object]"
  end.

(** [v === s] for a string literal [s]. *)
Definition strict_eq_str (v : value) (s : jsstring) : bool :=
  match v with
  | VStr t => str_eqb t s
  | _ => false
  end.

(** What a [throw] carries: an [Error] object (of any subclass) with its
    [name] and [message], or some other value. *)
Inductive thrown : Type :=
| ErrorObject (name : jsstring) (message : jsstring)
| ThrownValue (v : value).

Definition Error (message : jsstring) : thrown :=
  ErrorObject (lit "Error") message.
Definition TypeError (message : jsstring) : thrown :=
  ErrorObject (lit "TypeError") message.
Definition SyntaxError (message : jsstring) : thrown :=
  ErrorObject (lit "SyntaxError") message.

(** [new Error(x)]: the message is [ToString x]. *)
Definition new_Error (x : value) : thrown := Error (ToString x).

(** Completion of an evaluation: a value, or an exception. *)
Inductive result (A : Type) : Type :=
| Ok (a : A)
| Throw (e : thrown).
Arguments Ok {A} a.
Arguments Throw {A} e.

(** Property read [v.k].  Reading a property of [null] or [undefined]
    throws a TypeError (the message text is the engine's); the keys read in
    this program name no built-in property of a primitive or an array. *)
Definition get (v : value) (k : jsstring) : result value :=
  match v with
  | VUndefined =>
      Throw (TypeError (lit "Cannot read properties of undefined (reading '"
                          ++ k ++ lit "')"))
  | VNull =>
      Throw (TypeError (lit "Cannot read properties of null (reading '"
                          ++ k ++ lit "')"))
  | VObj fields => Ok (lookup k fields)
  | _ => Ok VUndefined
  end.

(** [err instanceof Error ? err.message : fallback]. *)
Definition message_or (err : thrown) (fallback : jsstring) : jsstring :=
  match err with
  | ErrorObject _ message => message
  | ThrownValue _ => fallback
  end.

(** A caught exception as a console argument. *)
Definition thrown_value (err : thrown) : value :=
  match err with
  | ErrorObject name message =>
      VObj [(lit "name", VStr name); (lit "message", VStr message)]
  | ThrownValue v => v
  end.

(** Iteration of a string is by code point: a surrogate pair is one item. *)
Definition is_lead (c : N) : bool := (N.leb 55296 c && N.leb c 56319)%bool.
Definition is_trail (c : N) : bool := (N.leb 56320 c && N.leb c 57343)%bool.

Fixpoint code_points (s : jsstring) : list jsstring :=
  match s with
  | [] => []
  | c :: r =>
      match r with
      | d :: r' =>
          if (is_lead c && is_trail d)%bool then [c; d] :: code_points r'
          else [c] :: code_points r
      | [] => [[c]]
      end
  end.

(** The items a spread [...v] contributes to an array literal.  Arrays and
    strings are iterable; nothing else among these values is. *)
Definition spread (v : value) : result (list value) :=
  match v with
  | VArr items => Ok items
  | VStr s => Ok (map VStr (code_points s))
  | _ => Throw (TypeError (ToString v ++ lit " is not iterable"))
  end.

End Values.

Arguments Ok {Num A} a.
Arguments Throw {Num A} e.

End JS.

(** ** Network, events and the monad of asynchronous functions *)

Module Net.
Import JS.

Section Net.
Context {Num : Number}.

(** A [File] chosen in a file input. *)
Record File := { file_name : jsstring; file_type : jsstring; file_bytes : list N }.

Inductive form_value : Type :=
| FormText (s : jsstring)
| FormFile (f : File).

(** A request body: the text [JSON.stringify(v)], kept as the value that
    was serialised, or a multipart [FormData] with its appended entries. *)
Inductive Body : Type :=
| JSON_stringify (v : value)
| FormData (entries : list (jsstring * form_value)).

Record Request := {
  url : jsstring;
  method : jsstring;
  headers : list (jsstring * jsstring);
  body : option Body
}.

(** [fetch(url)] with no options is a GET. *)
Definition GET (u : jsstring) : Request :=
  {| url := u; method := lit "GET"; headers := []; body := None |}.

(** A received response.  [content_type] is [headers.get("content-type")]
    ([None] for [null]); [body_json] is what [response.json()] resolves to,
    or the message of the SyntaxError it rejects with. *)
Record Response := {
  status : Z;
  statusText : jsstring;
  content_type : option jsstring;
  body_text : jsstring;
  body_json : jsstring + value
}.

(** [response.ok]. *)
Definition ok (r : Response) : bool :=
  (Z.leb 200 (status r) && Z.leb (status r) 299)%bool.

(** Observable events, in order of occurrence. *)
Inductive event : Type :=
| Fetch (req : Request)
| Console (level : jsstring) (args : list value).

Definition trace := list event.

(** The requests issued in a trace. *)
Definition requests (t : trace) : list Request :=
  flat_map (fun e => match e with Fetch r => [r] | Console _ _ => [] end) t.

(** The backend and the network between: what a request issued after the
    events [t] resolves to, or the exception [fetch] rejects with. *)
Definition Server := trace -> Request -> result Response.

(** Computations over a state [S] and the event trace, with exceptions. *)
Definition M (S A : Type) : Type := S -> trace -> result A * S * trace.

Definition ret {S A} (a : A) : M S A := fun s t => (Ok a, s, t).

Definition throw {S A} (e : thrown) : M S A := fun s t => (Throw e, s, t).

Definition bind {S A B} (c : M S A) (k : A -> M S B) : M S B :=
  fun s t =>
    match c s t with
    | (Ok a, s', t') => k a s' t'
    | (Throw e, s', t') => (Throw e, s', t')
    end.

(** A pure evaluation that may throw. *)
Definition eval {S A} (r : result A) : M S A := fun s t => (r, s, t).

(** [try { body } catch (err) { handler }]. *)
Definition try_catch {S A} (body : M S A) (handler : thrown -> M S A) : M S A :=
  fun s t =>
    match body s t with
    | (Ok a, s', t') => (Ok a, s', t')
    | (Throw e, s', t') => handler e s' t'
    end.

(** [try { body } finally { fin }]. *)
Definition try_finally {S A} (body : M S A) (fin : M S unit) : M S A :=
  fun s t =>
    match body s t with
    | (r, s', t') =>
        match fin s' t' with
        | (Ok _, s'', t'') => (r, s'', t'')
        | (Throw e, s'', t'') => (Throw e, s'', t'')
        end
    end.

(** State access for page handlers. *)
Definition modify {S} (f : S -> S) : M S unit := fun s t => (Ok tt, f s, t).

(** Functions of the API client touch no page state. *)
Definition IO (A : Type) : Type := M unit A.

Definition lift {S A} (c : IO A) : M S A :=
  fun s t => match c tt t with (r, _, t') => (r, s, t') end.

Definition emit {S} (e : event) : M S unit := fun s t => (Ok tt, s, t ++ [e]).

Definition console_error {S} (args : list value) : M S unit :=
  emit (Console (lit "error") args).

Section WithServer.
Variable server : Server.

(** [await fetch(...)]: the request is issued, then resolves or rejects. *)
Definition fetch (req : Request) : IO Response :=
  fun s t => (server t req, s, t ++ [Fetch req]).

End WithServer.

(** [await response.json()]. *)
Definition json (r : Response) : IO value :=
  match body_json r with
  | inr v => ret v
  | inl msg => throw (SyntaxError msg)
  end.

(** [await response.text()]. *)
Definition text (r : Response) : IO jsstring := ret (body_text r).

(** Running a client function from a trace. *)
Definition run {A} (c : IO A) (t : trace) : result A * trace :=
  match c tt t with (r, _, t') => (r, t') end.

End Net.

Declare Scope js_scope.
Delimit Scope js_scope with js.
Notation "x <- c ;; k" := (bind c (fun x => k))
  (at level 61, c at next level, right associativity) : js_scope.
Notation "c ;;; k" := (bind c (fun _ => k))
  (at level 61, right associativity) : js_scope.

End Net.

(** ** The API client, [src/api/client.ts] *)

Module Client.
Import JS Net.
Local Open Scope js_scope.

Section Client.
Context {Num : Number}.
Variable server : Server.

Definition API_BASE : jsstring := lit "/api".

(** The options object of every JSON write:
    [{ method: "POST", headers: { "Content-Type": "application/json" },
       body: JSON.stringify(payload) }]. *)
Definition POST_json (u : jsstring) (payload : value) : Request :=
  {| url := u; method := lit "POST";
     headers := [(lit "Content-Type", lit "application/json")];
     body := Some (JSON_stringify payload) |}.

(** [throw new Error(error.error || fallback)]. *)
Definition throw_backend_error {A} (error : value) (fallback : jsstring) : IO A :=
  e <- eval (get error (lit "error")) ;;
  throw (new_Error (or_else e (VStr fallback))).

(** *** Venues *)

Definition getVenues (tenantId : jsstring) : IO value :=
  response <- fetch server (GET (API_BASE ++ lit "/venues/" ++ tenantId)) ;;
  if negb (ok response) then
    throw (Error (lit "Failed to fetch venues: " ++ statusText response))
  else
    data <- json response ;;
    venues <- eval (get data (lit "venues")) ;;
    ret (or_else venues (VArr [])).

(** *** Monday briefs *)

Definition getMondayBrief (tenantId venueId weekStartDate : jsstring) : IO value :=
  response <- fetch server
    (GET (API_BASE ++ lit "/monday-briefs/" ++ tenantId ++ lit "/venue/"
            ++ venueId ++ lit "/week?weekStartDate=" ++ weekStartDate)) ;;
  if negb (ok response) then
    if Z.eqb (status response) 404 then ret VNull
    else throw (Error (lit "Failed to fetch Monday brief: "
                         ++ statusText response))
  else
    data <- json response ;;
    brief <- eval (get data (lit "brief")) ;;
    ret (or_else brief VNull).

(** *** Budgets *)

Definition getBudgets (tenantId venueId : jsstring) (status : option jsstring)
  : IO value :=
  let url0 := API_BASE ++ lit "/budgets/" ++ tenantId ++ lit "/venue/" ++ venueId in
  let url1 := match status with
              | Some st => if str_truthy st then url0 ++ lit "?status=" ++ st
                           else url0
              | None => url0
              end in
  response <- fetch server (GET url1) ;;
  if negb (ok response) then
    throw (Error (lit "Failed to fetch budgets: " ++ statusText response))
  else
    data <- json response ;;
    budgets <- eval (get data (lit "budgets")) ;;
    ret (or_else budgets (VArr [])).

Definition getBudget (tenantId budgetId : jsstring) : IO value :=
  response <- fetch server
    (GET (API_BASE ++ lit "/budgets/" ++ tenantId ++ lit "/" ++ budgetId)) ;;
  if negb (ok response) then
    if Z.eqb (status response) 404 then ret VNull
    else throw (Error (lit "Failed to fetch budget: " ++ statusText response))
  else
    data <- json response ;;
    budget <- eval (get data (lit "budget")) ;;
    ret (or_else budget VNull).

Definition getConfirmedBudget (tenantId venueId : jsstring) : IO value :=
  response <- fetch server
    (GET (API_BASE ++ lit "/budgets/" ++ tenantId ++ lit "/venue/" ++ venueId
            ++ lit "/confirmed")) ;;
  if negb (ok response) then
    if Z.eqb (status response) 404 then ret VNull
    else throw (Error (lit "Failed to fetch confirmed budget: "
                         ++ statusText response))
  else
    data <- json response ;;
    budget <- eval (get data (lit "budget")) ;;
    ret (or_else budget VNull).

Definition createBudget (tenantId venueId : jsstring) (payload : value)
    (createdBy : jsstring) : IO value :=
  response <- fetch server
    (POST_json (API_BASE ++ lit "/budgets/" ++ tenantId ++ lit "/venue/" ++ venueId)
       (VObj [(lit "payload", payload); (lit "createdBy", VStr createdBy)])) ;;
  if negb (ok response) then
    error <- json response ;;
    throw_backend_error error
      (lit "Failed to create budget: " ++ statusText response)
  else json response.

Definition confirmBudget (tenantId budgetId : jsstring) (payload : value)
    (confirmedBy : jsstring) : IO value :=
  response <- fetch server
    (POST_json (API_BASE ++ lit "/budgets/" ++ tenantId ++ lit "/" ++ budgetId
                  ++ lit "/confirm")
       (VObj [(lit "payload", payload); (lit "confirmedBy", VStr confirmedBy)])) ;;
  if negb (ok response) then
    error <- json response ;;
    throw_backend_error error
      (lit "Failed to confirm budget: " ++ statusText response)
  else json response.

(** *** Labour plans *)

Definition getLabourPlans (tenantId venueId : jsstring) (status : option jsstring)
  : IO value :=
  let url0 := API_BASE ++ lit "/labour-plans/" ++ tenantId ++ lit "/venue/"
                ++ venueId in
  let url1 := match status with
              | Some st => if str_truthy st then url0 ++ lit "?status=" ++ st
                           else url0
              | None => url0
              end in
  response <- fetch server (GET url1) ;;
  if negb (ok response) then
    throw (Error (lit "Failed to fetch labour plans: " ++ statusText response))
  else
    data <- json response ;;
    labourPlans <- eval (get data (lit "labourPlans")) ;;
    ret (or_else labourPlans (VArr [])).

Definition getLabourPlan (tenantId labourPlanId : jsstring) : IO value :=
  response <- fetch server
    (GET (API_BASE ++ lit "/labour-plans/" ++ tenantId ++ lit "/" ++ labourPlanId)) ;;
  if negb (ok response) then
    if Z.eqb (status response) 404 then ret VNull
    else throw (Error (lit "Failed to fetch labour plan: "
                         ++ statusText response))
  else
    data <- json response ;;
    labourPlan <- eval (get data (lit "labourPlan")) ;;
    ret (or_else labourPlan VNull).

Definition getConfirmedLabourPlan (tenantId venueId : jsstring) : IO value :=
  response <- fetch server
    (GET (API_BASE ++ lit "/labour-plans/" ++ tenantId ++ lit "/venue/" ++ venueId
            ++ lit "/confirmed")) ;;
  if negb (ok response) then
    if Z.eqb (status response) 404 then ret VNull
    else throw (Error (lit "Failed to fetch confirmed labour plan: "
                         ++ statusText response))
  else
    data <- json response ;;
    labourPlan <- eval (get data (lit "labourPlan")) ;;
    ret (or_else labourPlan VNull).

Definition createLabourPlan (tenantId venueId : jsstring) (payload : value)
    (createdBy : jsstring) : IO value :=
  response <- fetch server
    (POST_json (API_BASE ++ lit "/labour-plans/" ++ tenantId ++ lit "/venue/"
                  ++ venueId)
       (VObj [(lit "payload", payload); (lit "createdBy", VStr createdBy)])) ;;
  if negb (ok response) then
    error <- json response ;;
    throw_backend_error error
      (lit "Failed to create labour plan: " ++ statusText response)
  else json response.

Definition confirmLabourPlan (tenantId labourPlanId : jsstring) (payload : value)
    (confirmedBy : jsstring) : IO value :=
  response <- fetch server
    (POST_json (API_BASE ++ lit "/labour-plans/" ++ tenantId ++ lit "/"
                  ++ labourPlanId ++ lit "/confirm")
       (VObj [(lit "payload", payload); (lit "confirmedBy", VStr confirmedBy)])) ;;
  if negb (ok response) then
    error <- json response ;;
    throw_backend_error error
      (lit "Failed to confirm labour plan: " ++ statusText response)
  else json response.

(** *** Cash snapshots *)

Definition getCashSnapshotByWeek (tenantId venueId weekStartDate : jsstring)
  : IO value :=
  response <- fetch server
    (GET (API_BASE ++ lit "/cash-snapshots/" ++ tenantId ++ lit "/venue/"
            ++ venueId ++ lit "/week/" ++ weekStartDate)) ;;
  if negb (ok response) then
    if Z.eqb (status response) 404 then ret VNull
    else throw (Error (lit "Failed to fetch cash snapshot: "
                         ++ statusText response))
  else
    data <- json response ;;
    snapshot <- eval (get data (lit "snapshot")) ;;
    ret (or_else snapshot VNull).

Definition createCashSnapshot (tenantId venueId weekStartDate : jsstring)
    (payload : value) (createdBy : jsstring) : IO value :=
  response <- fetch server
    (POST_json (API_BASE ++ lit "/cash-snapshots/" ++ tenantId ++ lit "/venue/"
                  ++ venueId)
       (VObj [(lit "weekStartDate", VStr weekStartDate);
              (lit "payload", payload);
              (lit "createdBy", VStr createdBy)])) ;;
  if negb (ok response) then
    error <- json response ;;
    throw_backend_error error
      (lit "Failed to create cash snapshot: " ++ statusText response)
  else json response.

Definition createCorrectionSnapshot (tenantId snapshotId weekStartDate : jsstring)
    (payload : value) (createdBy reason : jsstring) : IO value :=
  response <- fetch server
    (POST_json (API_BASE ++ lit "/cash-snapshots/" ++ tenantId ++ lit "/"
                  ++ snapshotId ++ lit "/correct")
       (VObj [(lit "weekStartDate", VStr weekStartDate);
              (lit "payload", payload);
              (lit "createdBy", VStr createdBy);
              (lit "reason", VStr reason)])) ;;
  if negb (ok response) then
    error <- json response ;;
    throw_backend_error error
      (lit "Failed to create correction: " ++ statusText response)
  else json response.

(** *** Evidence *)

Definition getEvidence (tenantId evidenceId : jsstring) : IO value :=
  response <- fetch server
    (GET (API_BASE ++ lit "/evidence/" ++ tenantId ++ lit "/" ++ evidenceId)) ;;
  if negb (ok response) then
    if Z.eqb (status response) 404 then ret VNull
    else throw (Error (lit "Failed to fetch evidence: " ++ statusText response))
  else
    data <- json response ;;
    evidence <- eval (get data (lit "evidence")) ;;
    ret (or_else evidence VNull).

(** The diagnostic of [uploadEvidence] for a response that is not JSON. *)
Definition non_JSON_message (status : Z) : jsstring :=
  lit "Server returned non-JSON response (" ++ Z_toString status
    ++ lit "). This may indicate an authentication or routing issue.".

Definition uploadEvidence (tenantId venueId : jsstring) (file : File)
    (source uploadedBy : jsstring) : IO value :=
  let formData := [(lit "file", FormFile file);
                   (lit "source", FormText source);
                   (lit "uploadedBy", FormText uploadedBy)] in
  response <- fetch server
    {| url := API_BASE ++ lit "/evidence/" ++ tenantId ++ lit "/venue/" ++ venueId
                ++ lit "/upload";
       method := lit "POST"; headers := []; body := Some (FormData formData) |} ;;
  (* Check content type before parsing to avoid JSON parse errors on HTML
     responses *)
  let contentType := content_type response in
  if match contentType with
     | None => true
     | Some ct => negb (str_truthy ct) || negb (includes ct (lit "application/json"))
     end
  then
    txt <- text response ;;
    console_error [VStr (lit "Non-JSON response received:");
                   VStr (substring0 200 txt)] ;;;
    throw (Error (non_JSON_message (status response)))
  else if negb (ok response) then
    error <- json response ;;
    throw_backend_error error
      (lit "Failed to upload evidence: " ++ statusText response)
  else json response.

Definition getCandidatesByEvidence (tenantId evidenceId : jsstring) : IO value :=
  response <- fetch server
    (GET (API_BASE ++ lit "/evidence/" ++ tenantId ++ lit "/" ++ evidenceId
            ++ lit "/candidates")) ;;
  if negb (ok response) then
    throw (Error (lit "Failed to fetch candidates: " ++ statusText response))
  else
    data <- json response ;;
    candidates <- eval (get data (lit "candidates")) ;;
    ret (or_else candidates (VArr [])).

Definition getPendingCandidates (tenantId : jsstring) : IO value :=
  response <- fetch server
    (GET (API_BASE ++ lit "/evidence/" ++ tenantId ++ lit "/candidates/pending")) ;;
  if negb (ok response) then
    throw (Error (lit "Failed to fetch pending candidates: "
                    ++ statusText response))
  else
    data <- json response ;;
    candidates <- eval (get data (lit "candidates")) ;;
    ret (or_else candidates (VArr [])).

(** [overridePayload] is optional; [undefined] when the caller omits it. *)
Definition confirmCandidate (tenantId candidateId reviewedBy : jsstring)
    (overridePayload : value) : IO value :=
  response <- fetch server
    (POST_json (API_BASE ++ lit "/evidence/" ++ tenantId ++ lit "/candidate/"
                  ++ candidateId ++ lit "/confirm")
       (VObj [(lit "reviewedBy", VStr reviewedBy);
              (lit "overridePayload", overridePayload)])) ;;
  if negb (ok response) then
    error <- json response ;;
    throw_backend_error error
      (lit "Failed to confirm candidate: " ++ statusText response)
  else json response.

Definition rejectCandidate (tenantId candidateId reviewedBy reason : jsstring)
  : IO value :=
  response <- fetch server
    (POST_json (API_BASE ++ lit "/evidence/" ++ tenantId ++ lit "/candidate/"
                  ++ candidateId ++ lit "/reject")
       (VObj [(lit "reviewedBy", VStr reviewedBy); (lit "reason", VStr reason)])) ;;
  if negb (ok response) then
    error <- json response ;;
    throw_backend_error error
      (lit "Failed to reject candidate: " ++ statusText response)
  else json response.

End Client.
End Client.

(** ** Budget workflow page, [src/pages/BudgetWorkflowPage.tsx] *)

Module BudgetPage.
Import JS Net.
Local Open Scope js_scope.

Section Page.
Context {Num : Number}.
Variable server : Server.

(** The component's [useState] cells. *)
Record state := {
  budgets : value;                 (* Budget[] *)
  selectedBudget : value;          (* Budget | null *)
  versions : value;                (* BudgetVersion[] *)
  loading : bool;
  error : option jsstring;         (* string | null *)
  statusFilter : jsstring;         (* BudgetStatus | "all" *)
  showCreateForm : bool;
  formData : value;                (* BudgetPayload *)
  submitting : bool
}.

Definition with_budgets (v : value) (s : state) : state :=
  {| budgets := v; selectedBudget := selectedBudget s;
    versions := versions s; loading := loading s; error := error s;
    statusFilter := statusFilter s; showCreateForm := showCreateForm s;
    formData := formData s; submitting := submitting s |}.

Definition setBudgets (v : value) : M state unit := modify (with_budgets v).

Definition with_selectedBudget (v : value) (s : state) : state :=
  {| budgets := budgets s; selectedBudget := v;
    versions := versions s; loading := loading s; error := error s;
    statusFilter := statusFilter s; showCreateForm := showCreateForm s;
    formData := formData s; submitting := submitting s |}.

Definition setSelectedBudget (v : value) : M state unit := modify (with_selectedBudget v).

Definition with_error (e : option jsstring) (s : state) : state :=
  {| budgets := budgets s; selectedBudget := selectedBudget s;
    versions := versions s; loading := loading s; error := e;
    statusFilter := statusFilter s; showCreateForm := showCreateForm s;
    formData := formData s; submitting := submitting s |}.

Definition setError (e : option jsstring) : M state unit := modify (with_error e).

Definition with_showCreateForm (b : bool) (s : state) : state :=
  {| budgets := budgets s; selectedBudget := selectedBudget s;
    versions := versions s; loading := loading s; error := error s;
    statusFilter := statusFilter s; showCreateForm := b;
    formData := formData s; submitting := submitting s |}.

Definition setShowCreateForm (b : bool) : M state unit := modify (with_showCreateForm b).

Definition with_formData (v : value) (s : state) : state :=
  {| budgets := budgets s; selectedBudget := selectedBudget s;
    versions := versions s; loading := loading s; error := error s;
    statusFilter := statusFilter s; showCreateForm := showCreateForm s;
    formData := v; submitting := submitting s |}.

Definition setFormData (v : value) : M state unit := modify (with_formData v).

Definition with_submitting (b : bool) (s : state) : state :=
  {| budgets := budgets s; selectedBudget := selectedBudget s;
    versions := versions s; loading := loading s; error := error s;
    statusFilter := statusFilter s; showCreateForm := showCreateForm s;
    formData := formData s; submitting := b |}.

Definition setSubmitting (b : bool) : M state unit := modify (with_submitting b).

Definition CURRENT_USER_ID : jsstring := lit "operator-user".

(** The empty create form. *)
Definition emptyForm : value :=
  VObj [(lit "name", VStr []); (lit "description", VStr []);
        (lit "periodStart", VStr []); (lit "periodEnd", VStr []);
        (lit "revenue", VNum number_zero); (lit "costs", VNum number_zero);
        (lit "labour", VNum number_zero)].

(** [statusFilter === "all" ? undefined : statusFilter]. *)
Definition filterArg (statusFilter : jsstring) : option jsstring :=
  if str_eqb statusFilter (lit "all") then None else Some statusFilter.

(** The handlers close over the props ([tenantId]), the URL parameter
    [venueId] and the state [st] of the render that created them. *)
Variables tenantId venueId : jsstring.
Variable st : state.

Definition handleCreateBudget : M state unit :=
  if negb (str_truthy venueId) then ret tt
  else
    setSubmitting true ;;;
    setError None ;;;
    try_finally
      (try_catch
         (result <- lift (Client.createBudget server tenantId venueId
                            (formData st) CURRENT_USER_ID) ;;
          budget <- eval (get result (lit "budget")) ;;
          rest <- eval (spread (budgets st)) ;;
          setBudgets (VArr (budget :: rest)) ;;;
          setShowCreateForm false ;;;
          setFormData emptyForm)
         (fun err => setError (Some (message_or err (lit "Failed to create budget")))))
      (setSubmitting false).

(** The budget identifier reaches the URL through a template literal, which
    applies [ToString]. *)
Definition handleConfirmBudget (budget : value) : M state unit :=
  setSubmitting true ;;;
  setError None ;;;
  try_finally
    (try_catch
       (id <- eval (get budget (lit "id")) ;;
        payload <- eval (get budget (lit "payload")) ;;
        result <- lift (Client.confirmBudget server tenantId (ToString id)
                          payload CURRENT_USER_ID) ;;
        (* Refresh the budgets list *)
        let status := filterArg (statusFilter st) in
        data <- lift (Client.getBudgets server tenantId venueId status) ;;
        setBudgets data ;;;
        confirmed <- eval (get result (lit "budget")) ;;
        setSelectedBudget confirmed)
       (fun err => setError (Some (message_or err (lit "Failed to confirm budget")))))
    (setSubmitting false).

(** [BudgetCard]: the "Confirm Budget" button is rendered for a budget whose
    [status === "draft"], and is disabled while [submitting]. *)
Definition confirmButtonRendered (budget : value) : bool :=
  match get budget (lit "status") with
  | Ok s => strict_eq_str s (lit "draft")
  | Throw _ => false
  end.

(** The cards of the rendered list that carry a confirm button.  Its
    [onClick] stops propagation (the card is not selected by the click) and
    calls [handleConfirmBudget] with the card's budget. *)
Definition confirmButtons (s : state) : list value :=
  match budgets s with
  | VArr items => filter confirmButtonRendered items
  | _ => []
  end.

End Page.

(** A handler runs from the state of the render that created it. *)
Definition run {Num : Number} {A} (h : state -> M state A) (s : state) (t : trace)
  : result A * state * trace := h s s t.

End BudgetPage.

(** ** Labour workflow page, [src/pages/LabourWorkflowPage.tsx] *)

Module LabourPage.
Import JS Net.
Local Open Scope js_scope.

Section Page.
Context {Num : Number}.
Variable server : Server.

Record state := {
  labourPlans : value;             (* LabourPlan[] *)
  selectedPlan : value;            (* LabourPlan | null *)
  versions : value;                (* LabourPlanVersion[] *)
  loading : bool;
  error : option jsstring;
  statusFilter : jsstring;         (* LabourPlanStatus | "all" *)
  showCreateForm : bool;
  formData : value;                (* LabourPlanPayload *)
  submitting : bool
}.

Definition with_labourPlans (v : value) (s : state) : state :=
  {| labourPlans := v; selectedPlan := selectedPlan s; versions := versions s;
    loading := loading s; error := error s; statusFilter := statusFilter s;
    showCreateForm := showCreateForm s; formData := formData s;
    submitting := submitting s |}.

Definition setLabourPlans (v : value) : M state unit := modify (with_labourPlans v).

Definition with_selectedPlan (v : value) (s : state) : state :=
  {| labourPlans := labourPlans s; selectedPlan := v; versions := versions s;
    loading := loading s; error := error s; statusFilter := statusFilter s;
    showCreateForm := showCreateForm s; formData := formData s;
    submitting := submitting s |}.

Definition setSelectedPlan (v : value) : M state unit := modify (with_selectedPlan v).

Definition with_error (v : option jsstring) (s : state) : state :=
  {| labourPlans := labourPlans s; selectedPlan := selectedPlan s;
    versions := versions s; loading := loading s; error := v;
    statusFilter := statusFilter s; showCreateForm := showCreateForm s;
    formData := formData s; submitting := submitting s |}.

Definition setError (v : option jsstring) : M state unit := modify (with_error v).

Definition with_showCreateForm (v : bool) (s : state) : state :=
  {| labourPlans := labourPlans s; selectedPlan := selectedPlan s;
    versions := versions s; loading := loading s; error := error s;
    statusFilter := statusFilter s; showCreateForm := v;
    formData := formData s; submitting := submitting s |}.

Definition setShowCreateForm (v : bool) : M state unit := modify (with_showCreateForm v).

Definition with_formData (v : value) (s : state) : state :=
  {| labourPlans := labourPlans s; selectedPlan := selectedPlan s;
    versions := versions s; loading := loading s; error := error s;
    statusFilter := statusFilter s; showCreateForm := showCreateForm s;
    formData := v; submitting := submitting s |}.

Definition setFormData (v : value) : M state unit := modify (with_formData v).

Definition with_submitting (v : bool) (s : state) : state :=
  {| labourPlans := labourPlans s; selectedPlan := selectedPlan s;
    versions := versions s; loading := loading s; error := error s;
    statusFilter := statusFilter s; showCreateForm := showCreateForm s;
    formData := formData s; submitting := v |}.

Definition setSubmitting (v : bool) : M state unit := modify (with_submitting v).

Definition CURRENT_USER_ID : jsstring := lit "operator-user".

Definition emptyForm : value :=
  VObj [(lit "name", VStr []); (lit "description", VStr []);
        (lit "periodStart", VStr []); (lit "periodEnd", VStr []);
        (lit "roles", VArr []);
        (lit "totalHours", VNum number_zero); (lit "totalCost", VNum number_zero);
        (lit "headcount", VNum number_zero)].

Definition filterArg (statusFilter : jsstring) : option jsstring :=
  if str_eqb statusFilter (lit "all") then None else Some statusFilter.

Variables tenantId venueId : jsstring.
Variable st : state.

Definition handleCreateLabourPlan : M state unit :=
  if negb (str_truthy venueId) then ret tt
  else
    setSubmitting true ;;;
    setError None ;;;
    try_finally
      (try_catch
         (result <- lift (Client.createLabourPlan server tenantId venueId
                            (formData st) CURRENT_USER_ID) ;;
          labourPlan <- eval (get result (lit "labourPlan")) ;;
          rest <- eval (spread (labourPlans st)) ;;
          setLabourPlans (VArr (labourPlan :: rest)) ;;;
          setShowCreateForm false ;;;
          setFormData emptyForm)
         (fun err =>
            setError (Some (message_or err (lit "Failed to create labour plan")))))
      (setSubmitting false).

Definition handleConfirmLabourPlan (plan : value) : M state unit :=
  setSubmitting true ;;;
  setError None ;;;
  try_finally
    (try_catch
       (id <- eval (get plan (lit "id")) ;;
        payload <- eval (get plan (lit "payload")) ;;
        result <- lift (Client.confirmLabourPlan server tenantId (ToString id)
                          payload CURRENT_USER_ID) ;;
        (* Refresh the plans list *)
        let status := filterArg (statusFilter st) in
        data <- lift (Client.getLabourPlans server tenantId venueId status) ;;
        setLabourPlans data ;;;
        confirmed <- eval (get result (lit "labourPlan")) ;;
        setSelectedPlan confirmed)
       (fun err =>
          setError (Some (message_or err (lit "Failed to confirm labour plan")))))
    (setSubmitting false).

End Page.

Definition run {Num : Number} {A} (h : state -> M state A) (s : state) (t : trace)
  : result A * state * trace := h s s t.

End LabourPage.

(** ** Cash workflow page, [src/pages/CashWorkflowPage.tsx] *)

Module CashPage.
Import JS Net.
Local Open Scope js_scope.

Section Page.
Context {Num : Number}.
Variable server : Server.

Record state := {
  snapshots : value;               (* CashSnapshot[] *)
  weekHistory : value;             (* CashSnapshot[] *)
  loading : bool;
  error : option jsstring;
  showCreateForm : bool;
  formData : value;                (* CashSnapshotPayload *)
  submitting : bool;
  showCorrectionForm : bool;
  correctionTarget : value;        (* CashSnapshot | null *)
  correctionData : value;          (* CashSnapshotPayload *)
  correctionReason : jsstring
}.

Definition with_snapshots (v : value) (s : state) : state :=
  {| snapshots := v; weekHistory := weekHistory s; loading := loading s;
    error := error s; showCreateForm := showCreateForm s;
    formData := formData s; submitting := submitting s;
    showCorrectionForm := showCorrectionForm s;
    correctionTarget := correctionTarget s;
    correctionData := correctionData s;
    correctionReason := correctionReason s |}.

Definition setSnapshots (v : value) : M state unit := modify (with_snapshots v).

Definition with_weekHistory (v : value) (s : state) : state :=
  {| snapshots := snapshots s; weekHistory := v; loading := loading s;
    error := error s; showCreateForm := showCreateForm s;
    formData := formData s; submitting := submitting s;
    showCorrectionForm := showCorrectionForm s;
    correctionTarget := correctionTarget s;
    correctionData := correctionData s;
    correctionReason := correctionReason s |}.

Definition setWeekHistory (v : value) : M state unit := modify (with_weekHistory v).

Definition with_error (v : option jsstring) (s : state) : state :=
  {| snapshots := snapshots s; weekHistory := weekHistory s;
    loading := loading s; error := v; showCreateForm := showCreateForm s;
    formData := formData s; submitting := submitting s;
    showCorrectionForm := showCorrectionForm s;
    correctionTarget := correctionTarget s;
    correctionData := correctionData s;
    correctionReason := correctionReason s |}.

Definition setError (v : option jsstring) : M state unit := modify (with_error v).

Definition with_showCreateForm (v : bool) (s : state) : state :=
  {| snapshots := snapshots s; weekHistory := weekHistory s;
    loading := loading s; error := error s; showCreateForm := v;
    formData := formData s; submitting := submitting s;
    showCorrectionForm := showCorrectionForm s;
    correctionTarget := correctionTarget s;
    correctionData := correctionData s;
    correctionReason := correctionReason s |}.

Definition setShowCreateForm (v : bool) : M state unit := modify (with_showCreateForm v).

Definition with_formData (v : value) (s : state) : state :=
  {| snapshots := snapshots s; weekHistory := weekHistory s;
    loading := loading s; error := error s;
    showCreateForm := showCreateForm s; formData := v;
    submitting := submitting s; showCorrectionForm := showCorrectionForm s;
    correctionTarget := correctionTarget s;
    correctionData := correctionData s;
    correctionReason := correctionReason s |}.

Definition setFormData (v : value) : M state unit := modify (with_formData v).

Definition with_submitting (v : bool) (s : state) : state :=
  {| snapshots := snapshots s; weekHistory := weekHistory s;
    loading := loading s; error := error s;
    showCreateForm := showCreateForm s; formData := formData s;
    submitting := v; showCorrectionForm := showCorrectionForm s;
    correctionTarget := correctionTarget s;
    correctionData := correctionData s;
    correctionReason := correctionReason s |}.

Definition setSubmitting (v : bool) : M state unit := modify (with_submitting v).

Definition with_showCorrectionForm (v : bool) (s : state) : state :=
  {| snapshots := snapshots s; weekHistory := weekHistory s;
    loading := loading s; error := error s;
    showCreateForm := showCreateForm s; formData := formData s;
    submitting := submitting s; showCorrectionForm := v;
    correctionTarget := correctionTarget s;
    correctionData := correctionData s;
    correctionReason := correctionReason s |}.

Definition setShowCorrectionForm (v : bool) : M state unit := modify (with_showCorrectionForm v).

Definition with_correctionTarget (v : value) (s : state) : state :=
  {| snapshots := snapshots s; weekHistory := weekHistory s;
    loading := loading s; error := error s;
    showCreateForm := showCreateForm s; formData := formData s;
    submitting := submitting s; showCorrectionForm := showCorrectionForm s;
    correctionTarget := v; correctionData := correctionData s;
    correctionReason := correctionReason s |}.

Definition setCorrectionTarget (v : value) : M state unit := modify (with_correctionTarget v).

Definition with_correctionReason (v : jsstring) (s : state) : state :=
  {| snapshots := snapshots s; weekHistory := weekHistory s;
    loading := loading s; error := error s;
    showCreateForm := showCreateForm s; formData := formData s;
    submitting := submitting s; showCorrectionForm := showCorrectionForm s;
    correctionTarget := correctionTarget s;
    correctionData := correctionData s; correctionReason := v |}.

Definition setCorrectionReason (v : jsstring) : M state unit := modify (with_correctionReason v).

Definition CURRENT_USER_ID : jsstring := lit "operator-user".

Definition emptyForm : value :=
  VObj [(lit "revenue", VNum number_zero); (lit "costs", VNum number_zero);
        (lit "notes", VStr [])].

(** [selectedWeek] is the URL parameter [week], or the current week's
    Monday when the parameter is absent. *)
Variables tenantId venueId selectedWeek : jsstring.
Variable st : state.

Definition handleCreateSnapshot : M state unit :=
  if negb (str_truthy venueId) then ret tt
  else
    setSubmitting true ;;;
    setError None ;;;
    try_finally
      (try_catch
         (result <- lift (Client.createCashSnapshot server tenantId venueId
                            selectedWeek (formData st) CURRENT_USER_ID) ;;
          snapshot <- eval (get result (lit "snapshot")) ;;
          rest <- eval (spread (snapshots st)) ;;
          setSnapshots (VArr (snapshot :: rest)) ;;;
          snapshot' <- eval (get result (lit "snapshot")) ;;
          rest' <- eval (spread (weekHistory st)) ;;
          setWeekHistory (VArr (snapshot' :: rest')) ;;;
          setShowCreateForm false ;;;
          setFormData emptyForm)
         (fun err =>
            setError (Some (message_or err (lit "Failed to create snapshot")))))
      (setSubmitting false).

Definition handleSubmitCorrection : M state unit :=
  if (negb (truthy (correctionTarget st))
      || negb (str_truthy (trim (correctionReason st))))%bool
  then ret tt
  else
    setSubmitting true ;;;
    setError None ;;;
    try_finally
      (try_catch
         (id <- eval (get (correctionTarget st) (lit "id")) ;;
          result <- lift (Client.createCorrectionSnapshot server tenantId
                            (ToString id) selectedWeek (correctionData st)
                            CURRENT_USER_ID (correctionReason st)) ;;
          snapshot <- eval (get result (lit "snapshot")) ;;
          rest <- eval (spread (snapshots st)) ;;
          setSnapshots (VArr (snapshot :: rest)) ;;;
          snapshot' <- eval (get result (lit "snapshot")) ;;
          rest' <- eval (spread (weekHistory st)) ;;
          setWeekHistory (VArr (snapshot' :: rest')) ;;;
          setShowCorrectionForm false ;;;
          setCorrectionTarget VNull ;;;
          setCorrectionReason [])
         (fun err =>
            setError (Some (message_or err (lit "Failed to create correction")))))
      (setSubmitting false).

End Page.

Definition run {Num : Number} {A} (h : state -> M state A) (s : state) (t : trace)
  : result A * state * trace := h s s t.

End CashPage.

(** ** Evidence workflow page, [src/pages/EvidenceWorkflowPage.tsx] *)

Module EvidencePage.
Import JS Net.
Local Open Scope js_scope.

Section Page.
Context {Num : Number}.
Variable server : Server.

(** [fileInputValue] is the [value] of the file input that
    [fileInputRef.current] points to, [None] when the ref is [null]. *)
Record state := {
  evidenceList : value;            (* Evidence[] *)
  selectedEvidence : value;        (* Evidence | null *)
  candidates : value;              (* EvidenceCandidate[] *)
  pendingCandidates : value;       (* EvidenceCandidate[] *)
  loading : bool;
  error : option jsstring;
  sourceFilter : jsstring;         (* EvidenceSource | "all" *)
  showUploadForm : bool;
  uploadSource : jsstring;         (* EvidenceSource *)
  selectedFile : option File;      (* File | null *)
  submitting : bool;
  showRejectForm : bool;
  rejectTarget : value;            (* EvidenceCandidate | null *)
  rejectReason : jsstring;
  fileInputValue : option jsstring
}.

Definition with_evidenceList (v : value) (s : state) : state :=
  {| evidenceList := v; selectedEvidence := selectedEvidence s;
    candidates := candidates s; pendingCandidates := pendingCandidates s;
    loading := loading s; error := error s; sourceFilter := sourceFilter s;
    showUploadForm := showUploadForm s; uploadSource := uploadSource s;
    selectedFile := selectedFile s; submitting := submitting s;
    showRejectForm := showRejectForm s; rejectTarget := rejectTarget s;
    rejectReason := rejectReason s; fileInputValue := fileInputValue s |}.

Definition setEvidenceList (v : value) : M state unit := modify (with_evidenceList v).

Definition with_candidates (v : value) (s : state) : state :=
  {| evidenceList := evidenceList s; selectedEvidence := selectedEvidence s;
    candidates := v; pendingCandidates := pendingCandidates s;
    loading := loading s; error := error s; sourceFilter := sourceFilter s;
    showUploadForm := showUploadForm s; uploadSource := uploadSource s;
    selectedFile := selectedFile s; submitting := submitting s;
    showRejectForm := showRejectForm s; rejectTarget := rejectTarget s;
    rejectReason := rejectReason s; fileInputValue := fileInputValue s |}.

Definition setCandidates (v : value) : M state unit := modify (with_candidates v).

Definition with_pendingCandidates (v : value) (s : state) : state :=
  {| evidenceList := evidenceList s; selectedEvidence := selectedEvidence s;
    candidates := candidates s; pendingCandidates := v; loading := loading s;
    error := error s; sourceFilter := sourceFilter s;
    showUploadForm := showUploadForm s; uploadSource := uploadSource s;
    selectedFile := selectedFile s; submitting := submitting s;
    showRejectForm := showRejectForm s; rejectTarget := rejectTarget s;
    rejectReason := rejectReason s; fileInputValue := fileInputValue s |}.

Definition setPendingCandidates (v : value) : M state unit := modify (with_pendingCandidates v).

Definition with_error (v : option jsstring) (s : state) : state :=
  {| evidenceList := evidenceList s; selectedEvidence := selectedEvidence s;
    candidates := candidates s; pendingCandidates := pendingCandidates s;
    loading := loading s; error := v; sourceFilter := sourceFilter s;
    showUploadForm := showUploadForm s; uploadSource := uploadSource s;
    selectedFile := selectedFile s; submitting := submitting s;
    showRejectForm := showRejectForm s; rejectTarget := rejectTarget s;
    rejectReason := rejectReason s; fileInputValue := fileInputValue s |}.

Definition setError (v : option jsstring) : M state unit := modify (with_error v).

Definition with_showUploadForm (v : bool) (s : state) : state :=
  {| evidenceList := evidenceList s; selectedEvidence := selectedEvidence s;
    candidates := candidates s; pendingCandidates := pendingCandidates s;
    loading := loading s; error := error s; sourceFilter := sourceFilter s;
    showUploadForm := v; uploadSource := uploadSource s;
    selectedFile := selectedFile s; submitting := submitting s;
    showRejectForm := showRejectForm s; rejectTarget := rejectTarget s;
    rejectReason := rejectReason s; fileInputValue := fileInputValue s |}.

Definition setShowUploadForm (v : bool) : M state unit := modify (with_showUploadForm v).

Definition with_uploadSource (v : jsstring) (s : state) : state :=
  {| evidenceList := evidenceList s; selectedEvidence := selectedEvidence s;
    candidates := candidates s; pendingCandidates := pendingCandidates s;
    loading := loading s; error := error s; sourceFilter := sourceFilter s;
    showUploadForm := showUploadForm s; uploadSource := v;
    selectedFile := selectedFile s; submitting := submitting s;
    showRejectForm := showRejectForm s; rejectTarget := rejectTarget s;
    rejectReason := rejectReason s; fileInputValue := fileInputValue s |}.

Definition setUploadSource (v : jsstring) : M state unit := modify (with_uploadSource v).

Definition with_selectedFile (v : option File) (s : state) : state :=
  {| evidenceList := evidenceList s; selectedEvidence := selectedEvidence s;
    candidates := candidates s; pendingCandidates := pendingCandidates s;
    loading := loading s; error := error s; sourceFilter := sourceFilter s;
    showUploadForm := showUploadForm s; uploadSource := uploadSource s;
    selectedFile := v; submitting := submitting s;
    showRejectForm := showRejectForm s; rejectTarget := rejectTarget s;
    rejectReason := rejectReason s; fileInputValue := fileInputValue s |}.

Definition setSelectedFile (v : option File) : M state unit := modify (with_selectedFile v).

Definition with_submitting (v : bool) (s : state) : state :=
  {| evidenceList := evidenceList s; selectedEvidence := selectedEvidence s;
    candidates := candidates s; pendingCandidates := pendingCandidates s;
    loading := loading s; error := error s; sourceFilter := sourceFilter s;
    showUploadForm := showUploadForm s; uploadSource := uploadSource s;
    selectedFile := selectedFile s; submitting := v;
    showRejectForm := showRejectForm s; rejectTarget := rejectTarget s;
    rejectReason := rejectReason s; fileInputValue := fileInputValue s |}.

Definition setSubmitting (v : bool) : M state unit := modify (with_submitting v).

Definition with_showRejectForm (v : bool) (s : state) : state :=
  {| evidenceList := evidenceList s; selectedEvidence := selectedEvidence s;
    candidates := candidates s; pendingCandidates := pendingCandidates s;
    loading := loading s; error := error s; sourceFilter := sourceFilter s;
    showUploadForm := showUploadForm s; uploadSource := uploadSource s;
    selectedFile := selectedFile s; submitting := submitting s;
    showRejectForm := v; rejectTarget := rejectTarget s;
    rejectReason := rejectReason s; fileInputValue := fileInputValue s |}.

Definition setShowRejectForm (v : bool) : M state unit := modify (with_showRejectForm v).

Definition with_rejectTarget (v : value) (s : state) : state :=
  {| evidenceList := evidenceList s; selectedEvidence := selectedEvidence s;
    candidates := candidates s; pendingCandidates := pendingCandidates s;
    loading := loading s; error := error s; sourceFilter := sourceFilter s;
    showUploadForm := showUploadForm s; uploadSource := uploadSource s;
    selectedFile := selectedFile s; submitting := submitting s;
    showRejectForm := showRejectForm s; rejectTarget := v;
    rejectReason := rejectReason s; fileInputValue := fileInputValue s |}.

Definition setRejectTarget (v : value) : M state unit := modify (with_rejectTarget v).

Definition with_rejectReason (v : jsstring) (s : state) : state :=
  {| evidenceList := evidenceList s; selectedEvidence := selectedEvidence s;
    candidates := candidates s; pendingCandidates := pendingCandidates s;
    loading := loading s; error := error s; sourceFilter := sourceFilter s;
    showUploadForm := showUploadForm s; uploadSource := uploadSource s;
    selectedFile := selectedFile s; submitting := submitting s;
    showRejectForm := showRejectForm s; rejectTarget := rejectTarget s;
    rejectReason := v; fileInputValue := fileInputValue s |}.

Definition setRejectReason (v : jsstring) : M state unit := modify (with_rejectReason v).

Definition with_fileInputValue (v : option jsstring) (s : state) : state :=
  {| evidenceList := evidenceList s; selectedEvidence := selectedEvidence s;
    candidates := candidates s; pendingCandidates := pendingCandidates s;
    loading := loading s; error := error s; sourceFilter := sourceFilter s;
    showUploadForm := showUploadForm s; uploadSource := uploadSource s;
    selectedFile := selectedFile s; submitting := submitting s;
    showRejectForm := showRejectForm s; rejectTarget := rejectTarget s;
    rejectReason := rejectReason s; fileInputValue := v |}.

Definition setFileInputValue (v : option jsstring) : M state unit := modify (with_fileInputValue v).

Definition CURRENT_USER_ID : jsstring := lit "operator-user".

Variables tenantId venueId : jsstring.
Variable st : state.

Definition handleUpload : M state unit :=
  match str_truthy venueId, selectedFile st with
  | false, _ | _, None => ret tt
  | true, Some file =>
      setSubmitting true ;;;
      setError None ;;;
      try_finally
        (try_catch
           (result <- lift (Client.uploadEvidence server tenantId venueId file
                              (uploadSource st) CURRENT_USER_ID) ;;
            evidence <- eval (get result (lit "evidence")) ;;
            rest <- eval (spread (evidenceList st)) ;;
            setEvidenceList (VArr (evidence :: rest)) ;;;
            setShowUploadForm false ;;;
            setSelectedFile None ;;;
            setUploadSource (lit "other") ;;;
            match fileInputValue st with
            | Some _ => setFileInputValue (Some [])
            | None => ret tt
            end)
           (fun err =>
              setError (Some (message_or err (lit "Failed to upload evidence")))))
        (setSubmitting false)
  end.

Definition handleConfirm (candidate : value) : M state unit :=
  setSubmitting true ;;;
  setError None ;;;
  try_finally
    (try_catch
       (id <- eval (get candidate (lit "id")) ;;
        _ <- lift (Client.confirmCandidate server tenantId (ToString id)
                     CURRENT_USER_ID VUndefined) ;;
        (* Refresh candidates *)
        (if truthy (selectedEvidence st) then
           eid <- eval (get (selectedEvidence st) (lit "id")) ;;
           data <- lift (Client.getCandidatesByEvidence server tenantId
                           (ToString eid)) ;;
           setCandidates data
         else ret tt) ;;;
        (* Refresh pending candidates *)
        pending <- lift (Client.getPendingCandidates server tenantId) ;;
        setPendingCandidates pending)
       (fun err =>
          setError (Some (message_or err (lit "Failed to confirm candidate")))))
    (setSubmitting false).

Definition handleReject : M state unit :=
  if (negb (truthy (rejectTarget st))
      || negb (str_truthy (trim (rejectReason st))))%bool
  then ret tt
  else
    setSubmitting true ;;;
    setError None ;;;
    try_finally
      (try_catch
         (id <- eval (get (rejectTarget st) (lit "id")) ;;
          _ <- lift (Client.rejectCandidate server tenantId (ToString id)
                       CURRENT_USER_ID (rejectReason st)) ;;
          (* Refresh candidates *)
          (if truthy (selectedEvidence st) then
             eid <- eval (get (selectedEvidence st) (lit "id")) ;;
             data <- lift (Client.getCandidatesByEvidence server tenantId
                             (ToString eid)) ;;
             setCandidates data
           else ret tt) ;;;
          (* Refresh pending candidates *)
          pending <- lift (Client.getPendingCandidates server tenantId) ;;
          setPendingCandidates pending ;;;
          setShowRejectForm false ;;;
          setRejectTarget VNull ;;;
          setRejectReason [])
         (fun err =>
            setError (Some (message_or err (lit "Failed to reject candidate")))))
      (setSubmitting false).

End Page.

Definition run {Num : Number} {A} (h : state -> M state A) (s : state) (t : trace)
  : result A * state * trace := h s s t.

End EvidencePage.

(** ** Layout shell, [src/components/Layout.tsx], and the [Venue] type *)

Module Layout.
Import JS Net.
Local Open Scope js_scope.

Section Layout.
Context {Num : Number}.
Variable server : Server.

(** [interface Venue { id; tenantId; name; createdAt }] of [src/types]: a
    record with exactly the declared fields. *)
Definition Venue (id tenantId name createdAt : jsstring) : value :=
  VObj [(lit "id", VStr id); (lit "tenantId", VStr tenantId);
        (lit "name", VStr name); (lit "createdAt", VStr createdAt)].

Record state := {
  venues : value;                  (* Venue[] *)
  loading : bool
}.

Definition with_venues (v : value) (s : state) : state :=
  {| venues := v; loading := loading s |}.

Definition setVenues (v : value) : M state unit := modify (with_venues v).

Definition with_loading (b : bool) (s : state) : state :=
  {| venues := venues s; loading := b |}.

Definition setLoading (b : bool) : M state unit := modify (with_loading b).

(** The callback [(v) => v.status === "active"]. *)
Definition isActive (v : value) : result bool :=
  match get v (lit "status") with
  | Ok s => Ok (strict_eq_str s (lit "active"))
  | Throw e => Throw e
  end.

(** [Array.prototype.filter] with a callback that may throw. *)
Fixpoint filterItems (f : value -> result bool) (items : list value)
  : result (list value) :=
  match items with
  | [] => Ok []
  | x :: r =>
      match f x with
      | Throw e => Throw e
      | Ok keep =>
          match filterItems f r with
          | Throw e => Throw e
          | Ok r' => Ok (if keep then x :: r' else r')
          end
      end
  end.

(** [data.filter(f)]: only arrays have the method. *)
Definition filter_method (data : value) (f : value -> result bool) : result value :=
  match data with
  | VArr items =>
      match filterItems f items with
      | Ok kept => Ok (VArr kept)
      | Throw e => Throw e
      end
  | VUndefined | VNull => get data (lit "filter")
  | _ => Throw (TypeError (lit "data.filter is not a function"))
  end.

Variable tenantId : jsstring.

Definition loadVenues : M state unit :=
  try_finally
    (try_catch
       (data <- lift (Client.getVenues server tenantId) ;;
        active <- eval (filter_method data isActive) ;;
        setVenues active)
       (fun error =>
          console_error [VStr (lit "Failed to load venues:"); thrown_value error]))
    (setLoading false).

(** The venue selector renders one option per element of [venues]. *)
Definition venueOptions (s : state) : list value :=
  match venues s with
  | VArr items => items
  | _ => []
  end.

End Layout.
End Layout.

(** ** ECMAScript date arithmetic (ECMA-262, Date objects)

    Time values are integers, milliseconds since 1970-01-01T00:00:00Z, at
    most 8.64e15 in magnitude; [None] stands for NaN.  The functions that
    take a time value apart work on such integers, where Number arithmetic
    is exact.  The functions that build one ([MakeDay], [MakeDate],
    [Date.UTC]) take any Number, so they round as binary64 does and give NaN
    where ECMA-262 does. *)

Module ESDate.
Import JS.
Local Open Scope Z_scope.

Definition msPerDay : Z := 86400000.

Definition Day (t : Z) : Z := t / msPerDay.
Definition TimeWithinDay (t : Z) : Z := t mod msPerDay.

Definition DaysInYear (y : Z) : Z :=
  if negb (y mod 4 =? 0) then 365
  else if negb (y mod 100 =? 0) then 366
  else if negb (y mod 400 =? 0) then 365
  else 366.

Definition DayFromYear (y : Z) : Z :=
  365 * (y - 1970) + (y - 1969) / 4 - (y - 1901) / 100 + (y - 1601) / 400.

Definition TimeFromYear (y : Z) : Z := msPerDay * DayFromYear y.

(** The largest [y] with [TimeFromYear y <= t], found from the mean year
    length of 146097/400 days, one year off at most. *)
Definition YearFromTime (t : Z) : Z :=
  let d := Day t in
  let y := 1970 + (d * 400) / 146097 in
  if d <? DayFromYear y then y - 1
  else if DayFromYear (y + 1) <=? d then y + 1
  else y.

Definition InLeapYear (t : Z) : Z :=
  if DaysInYear (YearFromTime t) =? 366 then 1 else 0.

Definition DayWithinYear (t : Z) : Z := Day t - DayFromYear (YearFromTime t).

(** First day within the year of month [m] (0 = January), given the leap
    flag. *)
Definition monthStart (leap m : Z) : Z :=
  match m with
  | 0 => 0
  | 1 => 31
  | 2 => 59 + leap
  | 3 => 90 + leap
  | 4 => 120 + leap
  | 5 => 151 + leap
  | 6 => 181 + leap
  | 7 => 212 + leap
  | 8 => 243 + leap
  | 9 => 273 + leap
  | 10 => 304 + leap
  | 11 => 334 + leap
  | _ => 365 + leap
  end.

Definition MonthFromTime (t : Z) : Z :=
  let d := DayWithinYear t in
  let leap := InLeapYear t in
  if d <? monthStart leap 1 then 0
  else if d <? monthStart leap 2 then 1
  else if d <? monthStart leap 3 then 2
  else if d <? monthStart leap 4 then 3
  else if d <? monthStart leap 5 then 4
  else if d <? monthStart leap 6 then 5
  else if d <? monthStart leap 7 then 6
  else if d <? monthStart leap 8 then 7
  else if d <? monthStart leap 9 then 8
  else if d <? monthStart leap 10 then 9
  else if d <? monthStart leap 11 then 10
  else 11.

Definition DateFromTime (t : Z) : Z :=
  DayWithinYear t - monthStart (InLeapYear t) (MonthFromTime t) + 1.

(** [MakeTime] on integers small enough for the sum to be exact; it is
    called on zeros only. *)
Definition MakeTime (hour min sec ms : Z) : Z :=
  hour * 3600000 + min * 60000 + sec * 1000 + ms.

(** The day number of day [date] of month [month] of year [year], in exact
    arithmetic: months outside 0 to 11 carry into the year, and the day is
    counted on from the first of the month, whatever it is. *)
Definition day_number (year month date : Z) : Z :=
  let ym := year + month / 12 in
  let mn := month mod 12 in
  let leap := if DaysInYear ym =? 366 then 1 else 0 in
  DayFromYear ym + monthStart leap mn + date - 1.

(** [MakeDay]: NaN unless the three arguments are finite and the first of
    month [month mod 12] of year [year + floor(month / 12)] has a time value
    [t], one within 8.64e15 of the epoch; then [Day(t) + date - 1].  The
    sums are those of Number arithmetic. *)
Definition MakeDay (year month date : integer64) : option integer64 :=
  match year, month, date with
  | Finite y, Finite m, Finite dt =>
      match binary64 (m / 12) with
      | Finite carry =>
          match binary64 (y + carry) with
          | Finite ym =>
              let mn := m mod 12 in
              let t := msPerDay * day_number ym mn 1 in
              if 8640000000000000 <? Z.abs t then None
              else match binary64 (Day t + dt) with
                   | Finite s => Some (binary64 (s - 1))
                   | Infinite negative => Some (Infinite negative)
                   end
          | Infinite _ => None
          end
      | Infinite _ => None
      end
  | _, _, _ => None
  end.

(** [MakeDate]: NaN unless [day] is finite and [day * msPerDay + time], in
    Number arithmetic, is finite too. *)
Definition MakeDate (day : option integer64) (time : Z) : option Z :=
  match day with
  | Some (Finite d) =>
      match binary64 (d * msPerDay) with
      | Finite p =>
          match binary64 (p + time) with
          | Finite tv => Some tv
          | Infinite _ => None
          end
      | Infinite _ => None
      end
  | _ => None
  end.

(** [MakeFullYear]: years 0 to 99 mean 1900 to 1999. *)
Definition full_year (y : Z) : Z :=
  if (0 <=? y) && (y <=? 99) then 1900 + y else y.

Definition MakeFullYear (year : integer64) : integer64 :=
  match year with
  | Finite y => Finite (full_year y)
  | Infinite negative => Infinite negative
  end.

Definition TimeClip (time : Z) : option Z :=
  if 8640000000000000 <? Z.abs time then None else Some time.

(** [Date.UTC(year, month, day)] on Numbers that are not NaN. *)
Definition UTC (year month day : integer64) : option Z :=
  match MakeDate (MakeDay (MakeFullYear year) month day) (MakeTime 0 0 0 0) with
  | Some tv => TimeClip tv
  | None => None
  end.

(** [new Date(tv)] for a time value or NaN; the Date object is represented
    by its time value, which is what [getTime()] returns. *)
Definition new_Date (tv : option Z) : option Z :=
  match tv with
  | Some t => TimeClip t
  | None => None
  end.

End ESDate.

(** ** UK formatting utilities, [src/utils/format.ts] *)

Module Format.
Import JS.

(** [parseUKDate]: [Some t] is the Date object with time value [t], [None]
    is [null]. *)
Definition parseUKDate (dateString : jsstring) : option Z :=
  let parts := split 47 dateString in          (* "/" *)
  match parts with
  | [p0; p1; p2] =>
      let day := parseInt p0 in
      let month := option_map minus_one (parseInt p1) in
                                                (* Months are 0-indexed *)
      let year := parseInt p2 in
      match day, month, year with
      | Some day, Some month, Some year =>
          let date := ESDate.new_Date (ESDate.UTC year month day) in
          match date with
          | None => None                        (* isNaN(date.getTime()) *)
          | Some t => Some t
          end
      | _, _, _ => None                         (* a NaN component *)
      end
  | _ => None                                   (* parts.length !== 3 *)
  end.

End Format.

(** ** Concrete backends and page states, used to exercise the model *)

Module Scenario.
Import JS Net.
#[local] Existing Instance Z_Number.

Definition tenant : jsstring := lit "tenant-1".
Definition venue : jsstring := lit "venue-1".

(** A JSON string token: the text between two quotation marks. *)
Definition quoted (s : string) : jsstring := 34%N :: lit s ++ [34%N].

(** A backend that answers every request with the same response. *)
Definition always (r : Response) : Server := fun _ _ => Ok r.

(** 404 with a JSON error body. *)
Definition notFound : Response :=
  {| status := 404; statusText := lit "Not Found";
     content_type := Some (lit "application/json");
     body_text := lit "{" ++ quoted "error" ++ lit ":" ++ quoted "No such record"
                    ++ lit "}";
     body_json := inr (VObj [(lit "error", VStr (lit "No such record"))]) |}.

(** 500 with the backend's own error text in the JSON body. *)
Definition storeDown : Response :=
  {| status := 500; statusText := lit "Internal Server Error";
     content_type := Some (lit "application/json");
     body_text := lit "{" ++ quoted "error" ++ lit ":"
                    ++ quoted "Budget store unavailable" ++ lit "}";
     body_json := inr (VObj [(lit "error", VStr (lit "Budget store unavailable"))]) |}.

(** A proxy's HTML page, served with status 200. *)
Definition proxyPage : Response :=
  {| status := 200; statusText := lit "OK";
     content_type := Some (lit "text/html; charset=utf-8");
     body_text := lit "<html><body>Sign in</body></html>";
     body_json := inl (lit "Unexpected token '<'") |}.

(** A 502 that carries no content-type header at all. *)
Definition badGateway : Response :=
  {| status := 502; statusText := lit "Bad Gateway";
     content_type := None;
     body_text := lit "upstream connect error";
     body_json := inl (lit "Unexpected token 'u'") |}.

Definition rotaCsv : File :=
  {| file_name := lit "rota.csv"; file_type := lit "text/csv";
     file_bytes := [114; 111; 108; 101]%N |}.

(** JSON text of a value whose strings need no escape. *)
Fixpoint stringify (v : value) : jsstring :=
  match v with
  | VUndefined | VNull => lit "null"
  | VBool true => lit "true"
  | VBool false => lit "false"
  | VNum n => Z_toString n
  | VStr s => 34%N :: s ++ [34%N]
  | VArr items =>
      lit "[" ++
      (fix go (l : list value) : jsstring :=
         match l with
         | [] => []
         | [x] => stringify x
         | x :: r => stringify x ++ lit "," ++ go r
         end) items
      ++ lit "]"
  | VObj fields =>
      lit "{" ++
      (fix go (l : list (jsstring * value)) : jsstring :=
         match l with
         | [] => []
         | [(k, x)] => 34%N :: k ++ [34%N] ++ lit ":" ++ stringify x
         | (k, x) :: r => 34%N :: k ++ [34%N] ++ lit ":" ++ stringify x
                            ++ lit "," ++ go r
         end) fields
      ++ lit "}"
  end.

(** A 200 response with a JSON body. *)
Definition jsonOK (v : value) : Response :=
  {| status := 200; statusText := lit "OK";
     content_type := Some (lit "application/json");
     body_text := stringify v; body_json := inr v |}.

(** A backend that answers every POST with [posted] and every other request
    with [fetched]. *)
Definition backend (posted fetched : Response) : Server :=
  fun _ req => if str_eqb (method req) (lit "POST") then Ok posted else Ok fetched.

(** *** Budgets *)

Definition budget (id status : string) : value :=
  VObj [(lit "id", VStr (lit id)); (lit "tenantId", VStr tenant);
        (lit "venueId", VStr venue); (lit "status", VStr (lit status));
        (lit "payload", VObj [(lit "name", VStr (lit "Spring menu"));
                              (lit "revenue", VNum 12000%Z);
                              (lit "costs", VNum 7000%Z);
                              (lit "labour", VNum 3000%Z)]);
        (lit "createdBy", VStr (lit "operator-user"));
        (lit "confirmedBy", VNull);
        (lit "createdAt", VStr (lit "2026-01-27T09:00:00.000Z"));
        (lit "confirmedAt", VNull)].

Definition budgetForm : value :=
  VObj [(lit "name", VStr (lit "Summer menu")); (lit "description", VStr []);
        (lit "periodStart", VStr (lit "2026-06-01"));
        (lit "periodEnd", VStr (lit "2026-08-31"));
        (lit "revenue", VNum 15000%Z); (lit "costs", VNum 8000%Z);
        (lit "labour", VNum 4000%Z)].

(** The Budget page showing one draft and one superseded budget, nothing
    selected, the create form filled in. *)
Definition budgetPage : BudgetPage.state :=
  {| BudgetPage.budgets := VArr [budget "budget-7" "draft";
                                 budget "budget-3" "superseded"];
     BudgetPage.selectedBudget := VNull;
     BudgetPage.versions := VArr [];
     BudgetPage.loading := false;
     BudgetPage.error := None;
     BudgetPage.statusFilter := lit "all";
     BudgetPage.showCreateForm := true;
     BudgetPage.formData := budgetForm;
     BudgetPage.submitting := false |}.

(** A backend on which budget writes succeed. *)
Definition budgetBackend : Server :=
  backend
    (jsonOK (VObj [(lit "budget", budget "budget-7" "confirmed");
                   (lit "version", VObj [(lit "version", VNum 2%Z)])]))
    (jsonOK (VObj [(lit "budgets", VArr [budget "budget-7" "confirmed";
                                         budget "budget-3" "superseded"])])).

(** A backend that refuses every write with a JSON error body. *)
Definition refusing : Server :=
  backend
    {| status := 422; statusText := lit "Unprocessable Entity";
       content_type := Some (lit "application/json");
       body_text := stringify (VObj [(lit "error", VStr (lit "name is required"))]);
       body_json := inr (VObj [(lit "error", VStr (lit "name is required"))]) |}
    (jsonOK (VObj [])).

(** *** Labour plans (the record envelope is that of budgets) *)

Definition labourPage : LabourPage.state :=
  {| LabourPage.labourPlans := VArr [budget "plan-2" "draft"];
     LabourPage.selectedPlan := VNull;
     LabourPage.versions := VArr [];
     LabourPage.loading := false;
     LabourPage.error := None;
     LabourPage.statusFilter := lit "draft";
     LabourPage.showCreateForm := true;
     LabourPage.formData := budgetForm;
     LabourPage.submitting := false |}.

Definition labourBackend : Server :=
  backend
    (jsonOK (VObj [(lit "labourPlan", budget "plan-9" "draft");
                   (lit "version", VObj [(lit "version", VNum 1%Z)])]))
    (jsonOK (VObj [(lit "labourPlans", VArr [budget "plan-9" "draft"])])).

(** *** Cash snapshots *)

Definition snapshot (id : string) (isCorrection : bool) : value :=
  VObj [(lit "id", VStr (lit id)); (lit "tenantId", VStr tenant);
        (lit "venueId", VStr venue);
        (lit "weekStartDate", VStr (lit "2026-01-26"));
        (lit "isCorrection", VBool isCorrection);
        (lit "payload", VObj [(lit "revenue", VNum 900%Z);
                              (lit "costs", VNum 400%Z)])].

Definition cashPage (reason : jsstring) : CashPage.state :=
  {| CashPage.snapshots := VArr [snapshot "snap-1" false];
     CashPage.weekHistory := VArr [snapshot "snap-1" false];
     CashPage.loading := false;
     CashPage.error := None;
     CashPage.showCreateForm := false;
     CashPage.formData := VObj [(lit "revenue", VNum 950%Z);
                                (lit "costs", VNum 400%Z); (lit "notes", VStr [])];
     CashPage.submitting := false;
     CashPage.showCorrectionForm := true;
     CashPage.correctionTarget := snapshot "snap-1" false;
     CashPage.correctionData := VObj [(lit "revenue", VNum 950%Z);
                                      (lit "costs", VNum 400%Z);
                                      (lit "notes", VStr [])];
     CashPage.correctionReason := reason |}.

Definition cashBackend : Server :=
  backend (jsonOK (VObj [(lit "snapshot", snapshot "snap-2" true)]))
          (jsonOK (VObj [(lit "snapshots", VArr [])])).

(** *** Evidence *)

Definition candidate (id status : string) : value :=
  VObj [(lit "id", VStr (lit id)); (lit "evidenceId", VStr (lit "ev-1"));
        (lit "status", VStr (lit status))].

Definition evidencePage (reason : jsstring) : EvidencePage.state :=
  {| EvidencePage.evidenceList := VArr [VObj [(lit "id", VStr (lit "ev-1"))]];
     EvidencePage.selectedEvidence := VObj [(lit "id", VStr (lit "ev-1"))];
     EvidencePage.candidates := VArr [candidate "cand-1" "pending"];
     EvidencePage.pendingCandidates := VArr [candidate "cand-1" "pending"];
     EvidencePage.loading := false;
     EvidencePage.error := None;
     EvidencePage.sourceFilter := lit "all";
     EvidencePage.showUploadForm := true;
     EvidencePage.uploadSource := lit "rota";
     EvidencePage.selectedFile := Some rotaCsv;
     EvidencePage.submitting := false;
     EvidencePage.showRejectForm := true;
     EvidencePage.rejectTarget := candidate "cand-1" "pending";
     EvidencePage.rejectReason := reason;
     EvidencePage.fileInputValue := Some (lit "C:/fakepath/rota.csv") |}.

(** *** Venues *)

Definition venuesBackend : Server :=
  always (jsonOK (VObj [(lit "venues",
    VArr [VObj [(lit "id", VStr (lit "v1")); (lit "tenantId", VStr tenant);
                (lit "name", VStr (lit "Harbour Kitchen"));
                (lit "createdAt", VStr (lit "2025-11-03T10:00:00.000Z"));
                (lit "status", VStr (lit "active"))];
          Layout.Venue (lit "v2") tenant (lit "Mill Lane")
                       (lit "2025-11-04T10:00:00.000Z");
          VObj [(lit "id", VStr (lit "v3")); (lit "tenantId", VStr tenant);
                (lit "name", VStr (lit "Old Quay"));
                (lit "createdAt", VStr (lit "2025-11-05T10:00:00.000Z"));
                (lit "status", VStr (lit "inactive"))]])])).

End Scenario.

(** ** Contracts: the properties of Part II, as predicates on the code *)

Module Contract.
Import JS Net.

Section Contract.
Context {Num : Number}.
Variable server : Server.

(** What the code of a single-record fetch does when its request [req]
    resolves to a response: 404 gives [null]; any other status outside
    200..299 raises an [Error] whose message is the function's fixed prefix
    followed by the HTTP status text.  One request is issued either way. *)
Definition single_record_fetch (call : IO value) (req : Request)
    (prefix : jsstring) : Prop :=
  forall (t : trace) (r : Response),
    server t req = Ok r ->
    (status r = 404%Z -> run call t = (Ok VNull, t ++ [Fetch req])) /\
    (ok r = false -> status r <> 404%Z ->
       run call t = (Throw (Error (prefix ++ statusText r)), t ++ [Fetch req])).

(** The failure case in the specification's words: a status outside
    200..299 other than 404 raises a failure that carries the backend's
    error text when the JSON body has one (a truthy [error] field). *)
Definition failure_carries_backend_text (call : IO value) (req : Request) : Prop :=
  forall (t : trace) (r : Response) (body e : value),
    server t req = Ok r ->
    ok r = false -> status r <> 404%Z ->
    body_json r = inr body -> get body (lit "error") = Ok e -> truthy e = true ->
    exists name message,
      fst (run call t) = Throw (ErrorObject name message) /\
      includes message (ToString e) = true.

(** A failed write, seen from the page: when the client call [write] that
    the handler makes rejects, the handler completes, the trace is the one
    the failed call left, and the state is the one of before with the error
    message set and nothing else changed.  [submitting st = false] is the
    condition under which the triggering control is enabled. *)
Definition failed_write_sets_error_only {S : Type}
    (submitting : S -> bool) (with_error : option jsstring -> S -> S)
    (write : IO value) (handler : S -> M S unit) (st : S) (fallback : jsstring)
  : Prop :=
  forall (t t' : trace) (e : thrown),
    run write t = (Throw e, t') ->
    submitting st = false ->
    handler st st t = (Ok tt, with_error (Some (message_or e fallback)) st, t').

(** "Confirming a budget when none is selected is a no-op", as the
    specification words it: with [selectedBudget] null, the confirm action
    issues no request. *)
Definition confirm_unselected_issues_nothing (tenantId venueId : jsstring) : Prop :=
  forall (st : BudgetPage.state) (budget : value) (t : trace),
    BudgetPage.selectedBudget st = VNull ->
    requests (snd (BudgetPage.run
                     (fun s => BudgetPage.handleConfirmBudget server tenantId
                                 venueId s budget) st t))
      = requests t.

(** A venue record carries a field [status] strictly equal to ["active"]. *)
Definition carries_active_status (v : value) : bool :=
  match v with
  | VObj fields => strict_eq_str (lookup (lit "status") fields) (lit "active")
  | _ => false
  end.

(** An array element whose properties can be read without a TypeError. *)
Definition readable (v : value) : Prop := v <> VNull /\ v <> VUndefined.

End Contract.
End Contract.


(** ** Date formatting, [src/utils/format.ts] *)

Module FormatDates.
Import JS ESDate.
Local Open Scope Z_scope.

Definition HourFromTime (t : Z) : Z := (t / 3600000) mod 24.
Definition MinFromTime (t : Z) : Z := (t / 60000) mod 60.

(** [String.prototype.padStart(targetLength, fill)] for a fill of one code
    unit. *)
Definition padStart (targetLength : nat) (fill : N) (s : jsstring) : jsstring :=
  repeat fill (targetLength - List.length s) ++ s.

(** The argument of the formatters, [Date | string | number].  A Date object
    is its time value ([None] for an invalid Date).  A Number is given by its
    integral part, which is what [TimeClip] keeps of it ([None] for NaN and
    the infinities). *)
Inductive date_input : Type :=
| DateObject (tv : option Z)
| TimeNumber (n : option Z)
| DateString (s : jsstring).

Section Engine.
(** [Date.parse], whose result on strings outside the ECMAScript date-time
    format is the engine's own. *)
Variable Date_parse : jsstring -> option Z.

(** [new Date(date)]. *)
Definition new_Date_from (date : date_input) : option Z :=
  new_Date match date with
           | DateObject tv => tv
           | TimeNumber n => n
           | DateString s => Date_parse s
           end.

Definition formatDate (date : date_input) : jsstring :=
  match new_Date_from date with
  | None => lit "Invalid Date"                   (* isNaN(d.getTime()) *)
  | Some d =>
      let day := padStart 2 48 (Z_toString (DateFromTime d)) in
      let month := padStart 2 48 (Z_toString (MonthFromTime d + 1)) in
      let year := YearFromTime d in
      day ++ lit "/" ++ month ++ lit "/" ++ Z_toString year
  end.

Definition formatDateTime (date : date_input) : jsstring :=
  match new_Date_from date with
  | None => lit "Invalid Date"
  | Some d =>
      let day := padStart 2 48 (Z_toString (DateFromTime d)) in
      let month := padStart 2 48 (Z_toString (MonthFromTime d + 1)) in
      let year := YearFromTime d in
      let hours := padStart 2 48 (Z_toString (HourFromTime d)) in
      let minutes := padStart 2 48 (Z_toString (MinFromTime d)) in
      day ++ lit "/" ++ month ++ lit "/" ++ Z_toString year ++ lit " "
        ++ hours ++ lit ":" ++ minutes
  end.

Definition formatTime (date : date_input) : jsstring :=
  match new_Date_from date with
  | None => lit "Invalid Time"
  | Some d =>
      let hours := padStart 2 48 (Z_toString (HourFromTime d)) in
      let minutes := padStart 2 48 (Z_toString (MinFromTime d)) in
      hours ++ lit ":" ++ minutes
  end.

End Engine.
End FormatDates.


(** ** Predicates on strings used by the properties of Part II *)

Module Predicates.
Import JS.

(** One step of reading a decimal numeral, left to right. *)
Definition step (acc : Z) (c : N) : Z := (10 * acc + (Z.of_N c - 48))%Z.

(** A suffix that [parseInt] does not read: empty, or starting with
    something other than a digit. *)
Definition junk (j : jsstring) : Prop :=
  match j with [] => True | c :: _ => is_digit c = false end.

(** The string has no "/" in it. *)
Definition no_slash (s : jsstring) : Prop :=
  forallb (fun c => negb (N.eqb c 47)) s = true.

End Predicates.

(** ** Number formatting, [src/utils/format.ts] *)

Module FormatNumbers.
Import JS FormatDates.

(** A Number by its value: NaN, an infinity, or plus or minus the fraction
    [numerator / denominator].  Every finite binary64 is one of these
    fractions, with a power of two as denominator; minus zero is the
    negative fraction of numerator 0. *)
Inductive float : Type :=
| NaN
| Infinity (negative : bool)
| Fraction (negative : bool) (numerator : N) (denominator : positive).

Definition isNaN (x : float) : bool :=
  match x with
  | NaN => true
  | _ => false
  end.

(** *** [toLocaleString("en-GB", { minimumFractionDigits: 2,
        maximumFractionDigits: 2 })] *)

(** The magnitude in hundredths, rounded to the nearest one, a half going
    away from zero (the rounding mode [halfExpand], which is the default). *)
Definition hundredths (numerator : N) (denominator : positive) : N :=
  ((200 * numerator + Npos denominator) / (2 * Npos denominator))%N.

(** Grouping: a comma after every digit that has a positive multiple of
    three digits to its right. *)
Fixpoint group3 (ds : jsstring) : jsstring :=
  match ds with
  | [] => []
  | d :: r =>
      if negb (Nat.eqb (List.length r) 0) && Nat.eqb (List.length r mod 3) 0
      then d :: 44%N :: group3 r
      else d :: group3 r
  end.

Definition minus_sign (negative : bool) : jsstring :=
  if negative then [45%N] else [].

(** Modelled from the spec: [Number.prototype.toLocaleString] belongs to the
    run-time library and is not in the sources.  For the locale en-GB with
    two fraction digits it gives exactly two decimal places and UK thousands
    separators; the details are those of ECMA-402: the magnitude is rounded
    to hundredths, the integer part is grouped in threes by commas, the
    decimal separator is a full stop, and a negative Number (minus zero too)
    is led by a hyphen-minus. *)
Definition toLocaleString_en_GB_2 (x : float) : jsstring :=
  match x with
  | NaN => lit "NaN"
  | Infinity negative => minus_sign negative ++ [8734%N]   (* infinity sign *)
  | Fraction negative p q =>
      let n := hundredths p q in
      minus_sign negative
        ++ group3 (Z_toString (Z.of_N (n / 100)))
        ++ [46%N]
        ++ padStart 2 48 (Z_toString (Z.of_N (n mod 100)))
  end.

(** The first argument of [formatCurrency], [number | string]. *)
Inductive number_or_string : Type :=
| Num (x : float)
| Str (s : jsstring).

(** One sign in front of a numeral: whether it is a minus, and the rest. *)
Definition read_sign (s : jsstring) : bool * jsstring :=
  match s with
  | c :: r => if N.eqb c 45 then (true, r)
              else if N.eqb c 43 then (false, r)
              else (false, s)
  | [] => (false, s)
  end.

Section Engine.
(** The Number value of the decimal numeral that is plus or minus [m] times
    ten to the [e]: its rounding to binary64. *)
Variable Number_of_decimal : bool -> Z -> Z -> float.

(** [parseFloat]: leading white space is skipped; then the longest prefix
    that is a decimal literal is read: a sign, then "Infinity" or digits
    with a fraction and an exponent, both optional, and at least one digit
    before the exponent.  With no such prefix the result is NaN. *)
Definition parseFloat (s : jsstring) : float :=
  let '(negative, u) := read_sign (trimStart s) in
  if starts_with (lit "Infinity") u then Infinity negative
  else
    let int := digits_prefix u in
    let after_int := skipn (List.length int) u in
    let '(frac, after_frac) :=
      match after_int with
      | c :: r =>
          if N.eqb c 46
          then let f := digits_prefix r in
               match int, f with
               | [], [] => ([], after_int)
               | _, _ => (f, skipn (List.length f) r)
               end
          else ([], after_int)
      | [] => ([], after_int)
      end in
    match int, frac with
    | [], [] => NaN
    | _, _ =>
        let exponent :=
          match after_frac with
          | c :: r =>
              if N.eqb c 101 || N.eqb c 69                 (* e, E *)
              then let '(minus, ds) := read_sign r in
                   match digits_prefix ds with
                   | [] => 0%Z
                   | es => if minus then (- digits_value es)%Z
                           else digits_value es
                   end
              else 0%Z
          | [] => 0%Z
          end in
        Number_of_decimal negative (digits_value (int ++ frac))
                          (exponent - Z.of_nat (List.length frac))%Z
    end.

Definition formatCurrency (value : number_or_string) : jsstring :=
  let num := match value with
             | Str s => parseFloat s     (* typeof value === "string" *)
             | Num x => x
             end in
  if isNaN num then 163%N :: lit "0.00"                    (* pound sign *)
  else 163%N :: toLocaleString_en_GB_2 num.

End Engine.

(** The value of the numeral itself, which is its Number whenever binary64
    holds it exactly (12.5, say). *)
Definition decimal_exactly (negative : bool) (m e : Z) : float :=
  if (0 <=? e)%Z then Fraction negative (Z.to_N (m * 10 ^ e)) 1
  else Fraction negative (Z.to_N m) (Z.to_pos (10 ^ (- e))).

End FormatNumbers.

(** ** Reading an amount of money back *)

Module Amounts.
Import JS.

(** Any number of groups, each a comma and exactly three digits. *)
Fixpoint comma_groups (s : jsstring) : bool :=
  match s with
  | [] => true
  | c :: d1 :: d2 :: d3 :: r =>
      N.eqb c 44 && is_digit d1 && is_digit d2 && is_digit d3 && comma_groups r
  | _ => false
  end.

(** An integer with UK thousands separators: one to three digits, then
    groups of a comma and three digits; a leading zero only as the integer 0
    on its own. *)
Definition uk_integer (s : jsstring) : bool :=
  let head := digits_prefix s in
  Nat.leb 1 (List.length head) && Nat.leb (List.length head) 3
  && comma_groups (skipn (List.length head) s)
  && match s with
     | c :: _ :: _ => negb (N.eqb c 48)
     | _ => true
     end.

(** An amount in pounds: the pound sign, a hyphen-minus if negative, an
    integer with thousands separators, a full stop and exactly two digits.
    The result is the sign and the magnitude in pence; [None] for any other
    text. *)
Definition uk_amount (s : jsstring) : option (bool * Z) :=
  match s with
  | c :: r =>
      if N.eqb c 163 then
        let '(negative, u) :=
          match r with
          | m :: u => if N.eqb m 45 then (true, u) else (false, r)
          | [] => (false, r)
          end in
        match split 46 u with
        | [int; frac] =>
            if uk_integer int && Nat.eqb (List.length frac) 2
               && forallb is_digit frac
            then Some (negative,
                       (digits_value (filter is_digit int) * 100
                        + digits_value frac)%Z)
            else None
        | _ => None
        end
      else None
  | [] => None
  end.

(** The start of a decimal literal, after white space and sign: "Infinity",
    a digit, or a full stop and a digit. *)
Definition numeric_start (u : jsstring) : bool :=
  starts_with (lit "Infinity") u
  || match u with
     | c :: r =>
         is_digit c
         || (N.eqb c 46 && match r with
                           | d :: _ => is_digit d
                           | [] => false
                           end)
     | [] => false
     end.

End Amounts.


(** ** The rest of the API client, [src/api/client.ts] *)

Module ClientRest.
Import JS Net Client.
Local Open Scope js_scope.

Section Client.
Context {Num : Number}.
Variable server : Server.

Definition getMondayBriefs (tenantId venueId : jsstring) : IO value :=
  response <- fetch server
    (GET (API_BASE ++ lit "/monday-briefs/" ++ tenantId ++ lit "/venue/"
            ++ venueId ++ lit "/list")) ;;
  if negb (ok response) then
    throw (Error (lit "Failed to fetch Monday briefs: " ++ statusText response))
  else
    data <- json response ;;
    briefs <- eval (get data (lit "briefs")) ;;
    ret (or_else briefs (VArr [])).

Definition getVariances (tenantId venueId : jsstring) : IO value :=
  response <- fetch server
    (GET (API_BASE ++ lit "/variances/" ++ tenantId ++ lit "/venue/" ++ venueId)) ;;
  if negb (ok response) then
    throw (Error (lit "Failed to fetch variances: " ++ statusText response))
  else
    data <- json response ;;
    variances <- eval (get data (lit "variances")) ;;
    ret (or_else variances (VArr [])).

Definition getVariancesByPeriod
    (tenantId venueId periodStartDate periodEndDate : jsstring) : IO value :=
  response <- fetch server
    (GET (API_BASE ++ lit "/variances/" ++ tenantId ++ lit "/venue/" ++ venueId
            ++ lit "?periodStartDate=" ++ periodStartDate
            ++ lit "&periodEndDate=" ++ periodEndDate)) ;;
  if negb (ok response) then
    throw (Error (lit "Failed to fetch variances: " ++ statusText response))
  else
    data <- json response ;;
    variances <- eval (get data (lit "variances")) ;;
    ret (or_else variances (VArr [])).

(** [weekStartDate] is optional: [None] for [undefined]. *)
Definition getGuardianFindings (tenantId venueId : jsstring)
    (weekStartDate : option jsstring) : IO value :=
  let url0 := API_BASE ++ lit "/guardian/" ++ tenantId ++ lit "/venue/" ++ venueId in
  let url1 := match weekStartDate with
              | Some w => if str_truthy w then url0 ++ lit "?weekStartDate=" ++ w
                          else url0
              | None => url0
              end in
  response <- fetch server (GET url1) ;;
  if negb (ok response) then
    throw (Error (lit "Failed to fetch Guardian findings: " ++ statusText response))
  else
    data <- json response ;;
    findings <- eval (get data (lit "findings")) ;;
    ret (or_else findings (VArr [])).

Definition getGuardianFindingsSummary (tenantId : jsstring) : IO value :=
  response <- fetch server
    (GET (API_BASE ++ lit "/guardian/" ++ tenantId ++ lit "/summary")) ;;
  if negb (ok response) then
    throw (Error (lit "Failed to fetch Guardian summary: " ++ statusText response))
  else
    data <- json response ;;
    summary <- eval (get data (lit "summary")) ;;
    ret (or_else summary (VObj [])).

Definition getBudgetVersions (tenantId budgetId : jsstring) : IO value :=
  response <- fetch server
    (GET (API_BASE ++ lit "/budgets/" ++ tenantId ++ lit "/" ++ budgetId
            ++ lit "/versions")) ;;
  if negb (ok response) then
    throw (Error (lit "Failed to fetch budget versions: " ++ statusText response))
  else
    data <- json response ;;
    versions <- eval (get data (lit "versions")) ;;
    ret (or_else versions (VArr [])).

Definition getLabourPlanVersions (tenantId labourPlanId : jsstring) : IO value :=
  response <- fetch server
    (GET (API_BASE ++ lit "/labour-plans/" ++ tenantId ++ lit "/" ++ labourPlanId
            ++ lit "/versions")) ;;
  if negb (ok response) then
    throw (Error (lit "Failed to fetch labour plan versions: "
                    ++ statusText response))
  else
    data <- json response ;;
    versions <- eval (get data (lit "versions")) ;;
    ret (or_else versions (VArr [])).

Definition getCashSnapshots (tenantId venueId : jsstring) : IO value :=
  response <- fetch server
    (GET (API_BASE ++ lit "/cash-snapshots/" ++ tenantId ++ lit "/venue/"
            ++ venueId)) ;;
  if negb (ok response) then
    throw (Error (lit "Failed to fetch cash snapshots: " ++ statusText response))
  else
    data <- json response ;;
    snapshots <- eval (get data (lit "snapshots")) ;;
    ret (or_else snapshots (VArr [])).

Definition getCashSnapshotHistory (tenantId venueId weekStartDate : jsstring)
  : IO value :=
  response <- fetch server
    (GET (API_BASE ++ lit "/cash-snapshots/" ++ tenantId ++ lit "/venue/"
            ++ venueId ++ lit "/week/" ++ weekStartDate ++ lit "/history")) ;;
  if negb (ok response) then
    throw (Error (lit "Failed to fetch cash snapshot history: "
                    ++ statusText response))
  else
    data <- json response ;;
    snapshots <- eval (get data (lit "snapshots")) ;;
    ret (or_else snapshots (VArr [])).

(** [source] is optional: [None] for [undefined]. *)
Definition getEvidenceByVenue (tenantId venueId : jsstring)
    (source : option jsstring) : IO value :=
  let url0 := API_BASE ++ lit "/evidence/" ++ tenantId ++ lit "/venue/" ++ venueId in
  let url1 := match source with
              | Some src => if str_truthy src then url0 ++ lit "?source=" ++ src
                            else url0
              | None => url0
              end in
  response <- fetch server (GET url1) ;;
  if negb (ok response) then
    throw (Error (lit "Failed to fetch evidence: " ++ statusText response))
  else
    data <- json response ;;
    evidence <- eval (get data (lit "evidence")) ;;
    ret (or_else evidence (VArr [])).

(** The extract request is a bare POST: no headers, no body. *)
Definition extractFromEvidence (tenantId evidenceId : jsstring) : IO value :=
  response <- fetch server
    {| url := API_BASE ++ lit "/evidence/" ++ tenantId ++ lit "/" ++ evidenceId
                ++ lit "/extract";
       method := lit "POST"; headers := []; body := None |} ;;
  if negb (ok response) then
    error <- json response ;;
    throw_backend_error error
      (lit "Failed to extract from evidence: " ++ statusText response)
  else json response.

End Client.
End ClientRest.

(** ** Contracts of the client's call families *)

Module ClientContract.
Import JS Net.

Section Contract.
Context {Num : Number}.
Variable server : Server.

(** The URL of a read with an optional filter: the query is appended when
    the argument is a non-empty string, and left out when it is [undefined]
    or empty. *)
Definition optional_query (url query : jsstring) (arg : option jsstring)
  : jsstring :=
  match arg with
  | Some a => if str_truthy a then url ++ query ++ a else url
  | None => url
  end.

(** A list read.  Whatever the outcome, the call adds one event to the
    trace: its one request.  A rejected [fetch] rejects the call with the
    same exception.  Any status outside 200..299, 404 included, raises
    [prefix + statusText].  On a 2xx answer whose body is a JSON object, the
    result is the value under [key] when that is truthy and [empty]
    otherwise (key absent, [null], ...); a body that is the JSON [null]
    raises a TypeError and a body that is not JSON raises the parser's
    SyntaxError. *)
Definition list_read (call : IO value) (req : Request)
    (prefix key : jsstring) (empty : value) : Prop :=
  forall (t : trace),
    snd (run call t) = t ++ [Fetch req] /\
    (forall e, server t req = Throw e -> fst (run call t) = Throw e) /\
    (forall r, server t req = Ok r ->
       (ok r = false ->
          fst (run call t) = Throw (Error (prefix ++ statusText r))) /\
       (ok r = true ->
          (forall fields, body_json r = inr (VObj fields) ->
             fst (run call t) = Ok (or_else (lookup key fields) empty)) /\
          (body_json r = inr VNull ->
             exists message, fst (run call t) = Throw (TypeError message)) /\
          (forall message, body_json r = inl message ->
             fst (run call t) = Throw (SyntaxError message)))).

(** The success path of a single-record read: on a 2xx answer whose body is
    a JSON object, the record under [key] when truthy, [null] otherwise. *)
Definition record_read_success (call : IO value) (req : Request)
    (key : jsstring) : Prop :=
  forall (t : trace) (r : Response) (fields : list (jsstring * value)),
    server t req = Ok r -> ok r = true -> body_json r = inr (VObj fields) ->
    run call t = (Ok (or_else (lookup key fields) VNull), t ++ [Fetch req]).

(** What a JSON write makes of the answer [r] to its request.  On a 2xx
    answer the parsed body is returned as it is.  On any other status the
    body is parsed first: a JSON object gives an [Error] whose message is
    its [error] field when truthy, else [fallback + statusText]; a body that
    is not JSON gives the parser's SyntaxError, and the status text is
    lost. *)
Definition write_outcome (call : IO value) (fallback : jsstring)
    (t : trace) (r : Response) : Prop :=
  (ok r = true ->
     (forall v, body_json r = inr v -> fst (run call t) = Ok v) /\
     (forall message, body_json r = inl message ->
        fst (run call t) = Throw (SyntaxError message))) /\
  (ok r = false ->
     (forall fields, body_json r = inr (VObj fields) ->
        fst (run call t)
        = Throw (new_Error (or_else (lookup (lit "error") fields)
                                    (VStr (fallback ++ statusText r))))) /\
     (forall message, body_json r = inl message ->
        fst (run call t) = Throw (SyntaxError message))).

(** A JSON write.  Whatever the outcome, the call adds one event to the
    trace: its one request.  A rejected [fetch] rejects the call with the
    same exception; an answer is treated as [write_outcome] says. *)
Definition json_write (call : IO value) (req : Request) (fallback : jsstring)
  : Prop :=
  forall (t : trace),
    snd (run call t) = t ++ [Fetch req] /\
    (forall e, server t req = Throw e -> fst (run call t) = Throw e) /\
    (forall r, server t req = Ok r -> write_outcome call fallback t r).

End Contract.
End ClientContract.

(** ** Object and array operations of the form handlers *)

Module JSObject.
Import JS.

Section Objects.
Context {Num : Number}.

(** The property list of an object literal [{ ...fields, k: v }]: an
    existing key keeps its place and takes the new value, a new key goes
    last.  (No key of this program is an array index, so insertion order is
    the enumeration order.) *)
Fixpoint set_prop (k : jsstring) (v : value) (fields : list (jsstring * value))
  : list (jsstring * value) :=
  match fields with
  | [] => [(k, v)]
  | (k', v') :: r =>
      if str_eqb k k' then (k', v) :: r else (k', v') :: set_prop k v r
  end.

(** The properties at the indices of an array or of a string. *)
Definition indexed (items : list value) : list (jsstring * value) :=
  combine (map (fun i => Z_toString (Z.of_nat i)) (seq 0 (List.length items)))
          items.

(** The own enumerable properties a spread [{ ...v }] copies: those of an
    object, the elements of an array, the code units of a string, and none
    for [undefined], [null], a boolean or a number. *)
Definition own_props (v : value) : list (jsstring * value) :=
  match v with
  | VObj fields => fields
  | VArr items => indexed items
  | VStr s => indexed (map (fun c => VStr [c]) s)
  | _ => []
  end.

(** [items[index]]: [undefined] beyond the end. *)
Definition at_index (index : nat) (items : list value) : value :=
  nth index items VUndefined.

(** [items.splice(index, 1)] for an index counted from the start: the
    element at [index] is removed; beyond the end nothing is. *)
Definition splice1 (index : nat) (items : list value) : list value :=
  firstn index items ++ skipn (S index) items.

(** [items[index] = x]: beyond the end the array grows, and the elements
    skipped read as [undefined]. *)
Definition assign_index (index : nat) (x : value) (items : list value)
  : list value :=
  if Nat.ltb index (List.length items)
  then firstn index items ++ x :: skipn (S index) items
  else items ++ repeat VUndefined (index - List.length items) ++ [x].

End Objects.
End JSObject.

(** ** Budget page: the loaders *)

Module BudgetPageRest.
Import JS Net BudgetPage.
Local Open Scope js_scope.

Section Page.
Context {Num : Number}.
Variable server : Server.

Definition with_versions (v : value) (s : state) : state :=
  {| budgets := budgets s; selectedBudget := selectedBudget s;
    versions := v; loading := loading s; error := error s;
    statusFilter := statusFilter s; showCreateForm := showCreateForm s;
    formData := formData s; submitting := submitting s |}.

Definition setVersions (v : value) : M state unit := modify (with_versions v).

Definition with_loading (b : bool) (s : state) : state :=
  {| budgets := budgets s; selectedBudget := selectedBudget s;
    versions := versions s; loading := b; error := error s;
    statusFilter := statusFilter s; showCreateForm := showCreateForm s;
    formData := formData s; submitting := submitting s |}.

Definition setLoading (b : bool) : M state unit := modify (with_loading b).

Variables tenantId venueId : jsstring.
Variable st : state.

(** The effect on [tenantId], [venueId], [statusFilter]. *)
Definition loadBudgets : M state unit :=
  if negb (str_truthy venueId) then setBudgets (VArr [])
  else
    setLoading true ;;;
    setError None ;;;
    try_finally
      (try_catch
         (let status := filterArg (statusFilter st) in
          data <- lift (Client.getBudgets server tenantId venueId status) ;;
          setBudgets data)
         (fun err => setError (Some (message_or err (lit "Failed to load budgets")))))
      (setLoading false).

(** The effect on [tenantId], [selectedBudget]. *)
Definition loadVersions : M state unit :=
  if negb (truthy (selectedBudget st)) then setVersions (VArr [])
  else
    try_catch
      (id <- eval (get (selectedBudget st) (lit "id")) ;;
       data <- lift (ClientRest.getBudgetVersions server tenantId (ToString id)) ;;
       setVersions data)
      (fun err =>
         console_error [VStr (lit "Failed to load versions:"); thrown_value err]).

End Page.
End BudgetPageRest.

(** ** Labour page: the loaders and the role rows of the create form *)

Module LabourPageRest.
Import JS Net JSObject LabourPage.
Local Open Scope js_scope.

Section Page.
Context {Num : Number}.
Variable server : Server.

Definition with_versions (v : value) (s : state) : state :=
  {| labourPlans := labourPlans s; selectedPlan := selectedPlan s;
    versions := v; loading := loading s; error := error s;
    statusFilter := statusFilter s; showCreateForm := showCreateForm s;
    formData := formData s; submitting := submitting s |}.

Definition setVersions (v : value) : M state unit := modify (with_versions v).

Definition with_loading (b : bool) (s : state) : state :=
  {| labourPlans := labourPlans s; selectedPlan := selectedPlan s;
    versions := versions s; loading := b; error := error s;
    statusFilter := statusFilter s; showCreateForm := showCreateForm s;
    formData := formData s; submitting := submitting s |}.

Definition setLoading (b : bool) : M state unit := modify (with_loading b).

Variables tenantId venueId : jsstring.
Variable st : state.

Definition loadLabourPlans : M state unit :=
  if negb (str_truthy venueId) then setLabourPlans (VArr [])
  else
    setLoading true ;;;
    setError None ;;;
    try_finally
      (try_catch
         (let status := filterArg (statusFilter st) in
          data <- lift (Client.getLabourPlans server tenantId venueId status) ;;
          setLabourPlans data)
         (fun err =>
            setError (Some (message_or err (lit "Failed to load labour plans")))))
      (setLoading false).

Definition loadVersions : M state unit :=
  if negb (truthy (selectedPlan st)) then setVersions (VArr [])
  else
    try_catch
      (id <- eval (get (selectedPlan st) (lit "id")) ;;
       data <- lift (ClientRest.getLabourPlanVersions server tenantId
                       (ToString id)) ;;
       setVersions data)
      (fun err =>
         console_error [VStr (lit "Failed to load versions:"); thrown_value err]).

(** [{ role: "", hours: 0, rate: 0 }]. *)
Definition blankRole : value :=
  VObj [(lit "role", VStr []); (lit "hours", VNum number_zero);
        (lit "rate", VNum number_zero)].

(** [[...(formData.roles || [])]]. *)
Definition rolesCopy : result (list value) :=
  match get (formData st) (lit "roles") with
  | Ok roles => spread (or_else roles (VArr []))
  | Throw e => Throw e
  end.

Definition handleAddRole : M state unit :=
  roles <- eval rolesCopy ;;
  setFormData (VObj (set_prop (lit "roles") (VArr (roles ++ [blankRole]))
                       (own_props (formData st)))).

Definition handleRemoveRole (index : nat) : M state unit :=
  newRoles <- eval rolesCopy ;;
  let newRoles := splice1 index newRoles in
  setFormData (VObj (set_prop (lit "roles") (VArr newRoles)
                       (own_props (formData st)))).

Definition handleRoleChange (index : nat) (field : jsstring) (v : value)
  : M state unit :=
  newRoles <- eval rolesCopy ;;
  let newRoles :=
    assign_index index
      (VObj (set_prop field v (own_props (at_index index newRoles)))) newRoles in
  setFormData (VObj (set_prop (lit "roles") (VArr newRoles)
                       (own_props (formData st)))).

(** The role rows of the create form: [(formData.roles || []).map(...)],
    one row per element, whose inputs and remove button pass the row's
    index. *)
Definition roleRows (s : state) : list value :=
  match get (formData s) (lit "roles") with
  | Ok roles => match or_else roles (VArr []) with
                | VArr items => items
                | _ => []
                end
  | Throw _ => []
  end.

End Page.
End LabourPageRest.

(** ** Cash page: the loaders and the start of a correction *)

Module CashPageRest.
Import JS Net CashPage.
Local Open Scope js_scope.

Section Page.
Context {Num : Number}.
Variable server : Server.

Definition with_loading (v : bool) (s : state) : state :=
  {| snapshots := snapshots s; weekHistory := weekHistory s; loading := v;
    error := error s; showCreateForm := showCreateForm s;
    formData := formData s; submitting := submitting s;
    showCorrectionForm := showCorrectionForm s;
    correctionTarget := correctionTarget s;
    correctionData := correctionData s;
    correctionReason := correctionReason s |}.

Definition setLoading (v : bool) : M state unit := modify (with_loading v).

Definition with_correctionData (v : value) (s : state) : state :=
  {| snapshots := snapshots s; weekHistory := weekHistory s;
    loading := loading s; error := error s;
    showCreateForm := showCreateForm s; formData := formData s;
    submitting := submitting s; showCorrectionForm := showCorrectionForm s;
    correctionTarget := correctionTarget s; correctionData := v;
    correctionReason := correctionReason s |}.

Definition setCorrectionData (v : value) : M state unit :=
  modify (with_correctionData v).

Variables tenantId venueId selectedWeek : jsstring.
Variable st : state.

Definition loadSnapshots : M state unit :=
  if negb (str_truthy venueId) then setSnapshots (VArr [])
  else
    setLoading true ;;;
    setError None ;;;
    try_finally
      (try_catch
         (data <- lift (ClientRest.getCashSnapshots server tenantId venueId) ;;
          setSnapshots data)
         (fun err =>
            setError (Some (message_or err (lit "Failed to load snapshots")))))
      (setLoading false).

Definition loadWeekHistory : M state unit :=
  if (negb (str_truthy venueId) || negb (str_truthy selectedWeek))%bool
  then setWeekHistory (VArr [])
  else
    try_catch
      (data <- lift (ClientRest.getCashSnapshotHistory server tenantId venueId
                       selectedWeek) ;;
       setWeekHistory data)
      (fun err =>
         console_error [VStr (lit "Failed to load week history:");
                        thrown_value err] ;;;
         setWeekHistory (VArr [])).

Definition handleStartCorrection (snapshot : value) : M state unit :=
  setCorrectionTarget snapshot ;;;
  payload <- eval (get snapshot (lit "payload")) ;;
  revenue <- eval (get payload (lit "revenue")) ;;
  payload <- eval (get snapshot (lit "payload")) ;;
  costs <- eval (get payload (lit "costs")) ;;
  payload <- eval (get snapshot (lit "payload")) ;;
  notes <- eval (get payload (lit "notes")) ;;
  setCorrectionData
    (VObj [(lit "revenue", or_else revenue (VNum number_zero));
           (lit "costs", or_else costs (VNum number_zero));
           (lit "notes", or_else notes (VStr []))]) ;;;
  setCorrectionReason [] ;;;
  setShowCorrectionForm true.

(** [SnapshotCard]: the "Submit Correction" button is rendered when
    [isLatest && !snapshot.isCorrection]. *)
Definition correctButtonRendered (isLatest : bool) (snapshot : value) : bool :=
  match get snapshot (lit "isCorrection") with
  | Ok c => (isLatest && negb (truthy c))%bool
  | Throw _ => false
  end.

(** The cards of the week's history that carry the button: the card at
    [index] is rendered with [isLatest = (index === 0)]; its [onClick] calls
    [handleStartCorrection] with the card's snapshot. *)
Definition correctButtons (s : state) : list value :=
  match weekHistory s with
  | VArr items =>
      map snd
        (filter (fun card => correctButtonRendered (Nat.eqb (fst card) 0) (snd card))
           (combine (seq 0 (List.length items)) items))
  | _ => []
  end.

End Page.
End CashPageRest.

(** ** Evidence page: the loaders, extraction, the start of a rejection *)

Module EvidencePageRest.
Import JS Net EvidencePage.
Local Open Scope js_scope.

Section Page.
Context {Num : Number}.
Variable server : Server.

(** The number that is the length of an array or a string. *)
Variable number_of_nat : nat -> number.

Definition with_loading (v : bool) (s : state) : state :=
  {| evidenceList := evidenceList s; selectedEvidence := selectedEvidence s;
    candidates := candidates s; pendingCandidates := pendingCandidates s;
    loading := v; error := error s; sourceFilter := sourceFilter s;
    showUploadForm := showUploadForm s; uploadSource := uploadSource s;
    selectedFile := selectedFile s; submitting := submitting s;
    showRejectForm := showRejectForm s; rejectTarget := rejectTarget s;
    rejectReason := rejectReason s; fileInputValue := fileInputValue s |}.

Definition setLoading (v : bool) : M state unit := modify (with_loading v).

Definition console_log {S} (args : list value) : M S unit :=
  emit (Console (lit "log") args).

(** [v.length]. *)
Definition get_length (v : value) : result value :=
  match v with
  | VArr items => Ok (VNum (number_of_nat (List.length items)))
  | VStr s => Ok (VNum (number_of_nat (List.length s)))
  | _ => get v (lit "length")
  end.

(** [sourceFilter === "all" ? undefined : sourceFilter]. *)
Definition sourceArg (sourceFilter : jsstring) : option jsstring :=
  if str_eqb sourceFilter (lit "all") then None else Some sourceFilter.

Variables tenantId venueId : jsstring.
Variable st : state.

Definition loadEvidence : M state unit :=
  if negb (str_truthy venueId) then setEvidenceList (VArr [])
  else
    setLoading true ;;;
    setError None ;;;
    try_finally
      (try_catch
         (let source := sourceArg (sourceFilter st) in
          data <- lift (ClientRest.getEvidenceByVenue server tenantId venueId
                          source) ;;
          setEvidenceList data)
         (fun err =>
            setError (Some (message_or err (lit "Failed to load evidence")))))
      (setLoading false).

Definition loadPendingCandidates : M state unit :=
  try_catch
    (data <- lift (Client.getPendingCandidates server tenantId) ;;
     setPendingCandidates data)
    (fun err =>
       console_error [VStr (lit "Failed to load pending candidates:");
                      thrown_value err]).

Definition loadCandidates : M state unit :=
  if negb (truthy (selectedEvidence st)) then setCandidates (VArr [])
  else
    try_catch
      (id <- eval (get (selectedEvidence st) (lit "id")) ;;
       data <- lift (Client.getCandidatesByEvidence server tenantId
                       (ToString id)) ;;
       setCandidates data)
      (fun err =>
         console_error [VStr (lit "Failed to load candidates:");
                        thrown_value err]).

(** [file] is [e.target.files?.[0]]: [None] when no file was chosen. *)
Definition handleFileSelect (file : option File) : M state unit :=
  match file with
  | Some f => setSelectedFile (Some f)
  | None => ret tt
  end.

Definition handleExtract (evidence : value) : M state unit :=
  id <- eval (get evidence (lit "id")) ;;
  fileName <- eval (get evidence (lit "fileName")) ;;
  console_log [VStr (lit "[EXTRACT] Button clicked for evidence:"); id; fileName] ;;;
  setSubmitting true ;;;
  setError None ;;;
  try_finally
    (try_catch
       (id <- eval (get evidence (lit "id")) ;;
        console_log [VStr (lit "[EXTRACT] Calling API - tenantId:");
                     VStr tenantId; VStr (lit "evidenceId:"); id] ;;;
        id <- eval (get evidence (lit "id")) ;;
        result <- lift (ClientRest.extractFromEvidence server tenantId
                          (ToString id)) ;;
        console_log [VStr (lit "[EXTRACT] API response:"); result] ;;;
        candidates <- eval (get result (lit "candidates")) ;;
        setCandidates candidates ;;;
        (* Refresh pending candidates *)
        pending <- lift (Client.getPendingCandidates server tenantId) ;;
        n <- eval (get_length pending) ;;
        console_log [VStr (lit "[EXTRACT] Pending candidates refreshed:"); n] ;;;
        setPendingCandidates pending)
       (fun err =>
          console_error [VStr (lit "[EXTRACT] Error:"); thrown_value err] ;;;
          setError (Some (message_or err (lit "Failed to extract from evidence")))))
    (setSubmitting false).

Definition handleStartReject (candidate : value) : M state unit :=
  setRejectTarget candidate ;;;
  setRejectReason [] ;;;
  setShowRejectForm true.

End Page.

(** [getNextAction], on the two arrays it reads. *)
Record NextAction := { action : jsstring; text : jsstring }.

Definition getNextAction {Num : Number}
    (evidenceList pendingCandidates : list value) : NextAction :=
  if Nat.eqb (List.length evidenceList) 0 then
    {| action := lit "upload"; text := lit "Upload evidence to begin." |}
  else if Nat.ltb 0 (List.length pendingCandidates) then
    {| action := lit "review";
       text := Z_toString (Z.of_nat (List.length pendingCandidates))
                 ++ lit " candidate(s) require review." |}
  else
    {| action := lit "extract";
       text := lit "Select evidence and extract candidates." |}.

End EvidencePageRest.

(** ** Read-only views: Monday brief, variances, Guardian findings *)

Module Views.
Import JS Net.
Local Open Scope js_scope.

(** What a view renders: one of its placeholder messages, or its content. *)
Inductive screen : Type :=
| Message (text : jsstring)
| Content.

(** [s.replace(/_/g, " ")]. *)
Definition replace_underscores (s : jsstring) : jsstring :=
  map (fun c => if N.eqb c 95 then 32%N else c) s.

(** [\w] without the unicode flag: an ASCII letter, a digit or "_". *)
Definition is_word (c : N) : bool :=
  ((N.leb 97 c && N.leb c 122) || (N.leb 65 c && N.leb c 90)
   || (N.leb 48 c && N.leb c 57) || N.eqb c 95)%bool.

(** [c.toUpperCase()] of a one-character string matched by [\w]. *)
Definition toUpperCase_word (c : N) : N :=
  if (N.leb 97 c && N.leb c 122)%bool then (c - 32)%N else c.

(** [s.replace(/\b\w/g, (c) => c.toUpperCase())]: a word character is
    replaced when no word character precedes it.  [inside] tells whether the
    character before the rest [s] is a word character. *)
Fixpoint capitalize_words (inside : bool) (s : jsstring) : jsstring :=
  match s with
  | [] => []
  | c :: r =>
      (if (is_word c && negb inside)%bool then toUpperCase_word c else c)
        :: capitalize_words (is_word c) r
  end.

(** A character with its case and the underscore/space difference
    forgotten. *)
Definition fold_char (c : N) : N :=
  if N.eqb c 95 then 32%N
  else if (N.leb 97 c && N.leb c 122)%bool then (c - 32)%N else c.

(** [formatFindingType] and [formatDetailKey] of the findings page, and
    [formatMetricName] of the variance page: one and the same body. *)
Definition formatFindingType (type : jsstring) : jsstring :=
  capitalize_words false (replace_underscores type).

Definition formatDetailKey (key : jsstring) : jsstring :=
  capitalize_words false (replace_underscores key).

Definition formatMetricName (name : jsstring) : jsstring :=
  capitalize_words false (replace_underscores name).

Section Views.
Context {Num : Number}.
Variable server : Server.

(** The callback [(x) => x[key] === tag] of the grouping filters. *)
Definition tagged (key tag : jsstring) (x : value) : result bool :=
  match get x key with
  | Ok s => Ok (strict_eq_str s tag)
  | Throw e => Throw e
  end.

(** Whether [x[key] === tag] holds (and [false] where reading [x[key]]
    throws). *)
Definition has_tag (key tag : jsstring) (x : value) : bool :=
  match tagged key tag x with
  | Ok b => b
  | Throw _ => false
  end.

(** [error] as a condition: [null] and the empty string are falsy. *)
Definition shown (error : option jsstring) : bool :=
  match error with
  | Some m => str_truthy m
  | None => false
  end.

End Views.
End Views.

(** *** Monday brief page *)

Module BriefPage.
Import JS Net Views.
Local Open Scope js_scope.

Section Page.
Context {Num : Number}.
Variable server : Server.

Record state := {
  brief : value;                   (* MondayBrief | null *)
  loading : bool;
  error : option jsstring
}.

Definition with_brief (v : value) (s : state) : state :=
  {| brief := v; loading := loading s; error := error s |}.
Definition setBrief (v : value) : M state unit := modify (with_brief v).

Definition with_loading (b : bool) (s : state) : state :=
  {| brief := brief s; loading := b; error := error s |}.
Definition setLoading (b : bool) : M state unit := modify (with_loading b).

Definition with_error (e : option jsstring) (s : state) : state :=
  {| brief := brief s; loading := loading s; error := e |}.
Definition setError (e : option jsstring) : M state unit := modify (with_error e).

(** [venueId] and [weekStartDate] are the URL parameters [venueId] and
    [week], the empty string when absent. *)
Variables tenantId venueId weekStartDate : jsstring.

Definition loadBrief : M state unit :=
  if (negb (str_truthy venueId) || negb (str_truthy weekStartDate))%bool
  then setBrief VNull
  else
    setLoading true ;;;
    setError None ;;;
    try_finally
      (try_catch
         (data <- lift (Client.getMondayBrief server tenantId venueId
                          weekStartDate) ;;
          setBrief data)
         (fun err => setError (Some (message_or err (lit "Failed to load brief")))))
      (setLoading false).

(** The early returns of the component. *)
Definition render (s : state) : screen :=
  if negb (str_truthy venueId) then
    Message (lit "Select a venue to view the Monday Operating Brief.")
  else if loading s then Message (lit "Loading brief...")
  else if shown (error s) then Message (lit "Unable to load brief data.")
  else if negb (truthy (brief s)) then
    Message (lit "No Monday Brief available for the selected venue and week.")
  else Content.

End Page.
End BriefPage.

(** *** Variance page *)

Module VariancePage.
Import JS Net Views.
Local Open Scope js_scope.

Section Page.
Context {Num : Number}.
Variable server : Server.

Record state := {
  variances : value;               (* Variance[] *)
  loading : bool;
  error : option jsstring
}.

Definition with_variances (v : value) (s : state) : state :=
  {| variances := v; loading := loading s; error := error s |}.
Definition setVariances (v : value) : M state unit := modify (with_variances v).

Definition with_loading (b : bool) (s : state) : state :=
  {| variances := variances s; loading := b; error := error s |}.
Definition setLoading (b : bool) : M state unit := modify (with_loading b).

Definition with_error (e : option jsstring) (s : state) : state :=
  {| variances := variances s; loading := loading s; error := e |}.
Definition setError (e : option jsstring) : M state unit := modify (with_error e).

Variables tenantId venueId : jsstring.

Definition loadVariances : M state unit :=
  if negb (str_truthy venueId) then setVariances (VArr [])
  else
    setLoading true ;;;
    setError None ;;;
    try_finally
      (try_catch
         (data <- lift (ClientRest.getVariances server tenantId venueId) ;;
          setVariances data)
         (fun err =>
            setError (Some (message_or err (lit "Failed to load variances")))))
      (setLoading false).

(** The early returns of the component, on the array the cell holds. *)
Definition render (s : state) (items : list value) : screen :=
  if negb (str_truthy venueId) then
    Message (lit "Select a venue to view variance data.")
  else if loading s then Message (lit "Loading variances...")
  else if shown (error s) then Message (lit "Unable to load variance data.")
  else if Nat.eqb (List.length items) 0 then
    Message (lit "No variance data available for the selected venue.")
  else Content.

(** The two groups of the content; a section is rendered for a group that
    is not empty. *)
Definition budgetVariances (items : list value) : result (list value) :=
  Layout.filterItems (tagged (lit "type") (lit "budget_vs_actual")) items.

Definition labourVariances (items : list value) : result (list value) :=
  Layout.filterItems (tagged (lit "type") (lit "labour_vs_actual")) items.

End Page.
End VariancePage.

(** *** Guardian findings page *)

Module FindingsPage.
Import JS Net Views.
Local Open Scope js_scope.

Section Page.
Context {Num : Number}.
Variable server : Server.

Record state := {
  findings : value;                (* GuardianFinding[] *)
  loading : bool;
  error : option jsstring
}.

Definition with_findings (v : value) (s : state) : state :=
  {| findings := v; loading := loading s; error := error s |}.
Definition setFindings (v : value) : M state unit := modify (with_findings v).

Definition with_loading (b : bool) (s : state) : state :=
  {| findings := findings s; loading := b; error := error s |}.
Definition setLoading (b : bool) : M state unit := modify (with_loading b).

Definition with_error (e : option jsstring) (s : state) : state :=
  {| findings := findings s; loading := loading s; error := e |}.
Definition setError (e : option jsstring) : M state unit := modify (with_error e).

Variables tenantId venueId weekStartDate : jsstring.

(** [weekStartDate || undefined]. *)
Definition weekArg : option jsstring :=
  if str_truthy weekStartDate then Some weekStartDate else None.

Definition loadFindings : M state unit :=
  if negb (str_truthy venueId) then setFindings (VArr [])
  else
    setLoading true ;;;
    setError None ;;;
    try_finally
      (try_catch
         (data <- lift (ClientRest.getGuardianFindings server tenantId venueId
                          weekArg) ;;
          setFindings data)
         (fun err =>
            setError (Some (message_or err (lit "Failed to load findings")))))
      (setLoading false).

(** The early returns of the component, on the array the cell holds. *)
Definition render (s : state) (items : list value) : screen :=
  if negb (str_truthy venueId) then
    Message (lit "Select a venue to view Guardian findings.")
  else if loading s then Message (lit "Loading findings...")
  else if shown (error s) then Message (lit "Unable to load findings data.")
  else if Nat.eqb (List.length items) 0 then
    Message (lit "No Guardian findings for the selected venue and week.")
  else Content.

(** [groupedFindings]: the three groups whose sizes the summary shows. *)
Record groups := { high : list value; medium : list value; low : list value }.

Definition groupedFindings (items : list value) : result groups :=
  match Layout.filterItems (tagged (lit "severity") (lit "high")) items with
  | Throw e => Throw e
  | Ok h =>
      match Layout.filterItems (tagged (lit "severity") (lit "medium")) items with
      | Throw e => Throw e
      | Ok m =>
          match Layout.filterItems (tagged (lit "severity") (lit "low")) items with
          | Throw e => Throw e
          | Ok l => Ok {| high := h; medium := m; low := l |}
          end
      end
  end.

End Page.
End FindingsPage.

(** ** Contracts of the page handlers *)

Module PageContract.
Import JS Net.

Section Contract.
Context {Num : Number}.

(** A handler that settles.  Run from any state and any trace it returns
    normally: no exception escapes it.  When its guard turns the call away
    ([refused]), state and trace are left untouched; otherwise the busy flag
    is down when it returns. *)
Definition settles {S : Type} (refused busy : S -> bool) (h : S -> M S unit)
  : Prop :=
  forall (st : S) (t : trace),
    exists st' t',
      h st st t = (Ok tt, st', t') /\
      (refused st = true -> st' = st /\ t' = t) /\
      (refused st = false -> busy st' = false).

(** [v.k] of a value that is not [null] or [undefined]. *)
Definition field (v : value) (k : jsstring) : value :=
  match get v k with
  | Ok x => x
  | Throw _ => VUndefined
  end.

(** A list loader.  Turned away ([refused]: no venue is selected) it empties
    the list and does nothing else: no request, and an error shown before
    stays.  Otherwise it clears the error and issues its read; on success
    the list is what was read; on failure the list stays as it was and the
    failure's message is shown.  Either way the loading flag is down at the
    end, and no exception escapes. *)
Definition list_loader {S : Type} (h : S -> M S unit) (refused : bool)
    (call : S -> IO value) (with_list : value -> S -> S)
    (with_loading : bool -> S -> S) (with_error : option jsstring -> S -> S)
    (fallback : jsstring) : Prop :=
  forall (st : S) (t : trace),
    (refused = true -> h st st t = (Ok tt, with_list (VArr []) st, t)) /\
    (refused = false ->
       (forall data t', run (call st) t = (Ok data, t') ->
          h st st t
          = (Ok tt, with_loading false (with_list data (with_error None st)), t')) /\
       (forall e t', run (call st) t = (Throw e, t') ->
          h st st t
          = (Ok tt,
             with_loading false (with_error (Some (message_or e fallback)) st),
             t'))).

(** A detail loader.  Turned away ([refused]: nothing is selected) it
    empties its list without a request.  Otherwise it issues its read; on
    success the list is what was read; on failure the exception goes to the
    console under [label] and the state becomes [after_failure st]; the
    page's error is never set.  No exception escapes. *)
Definition detail_loader {S : Type} (h : S -> M S unit) (refused : S -> bool)
    (call : S -> IO value) (with_list : value -> S -> S) (label : jsstring)
    (after_failure : S -> S) : Prop :=
  forall (st : S) (t : trace),
    (refused st = true -> h st st t = (Ok tt, with_list (VArr []) st, t)) /\
    (refused st = false ->
       (forall data t', run (call st) t = (Ok data, t') ->
          h st st t = (Ok tt, with_list data st, t')) /\
       (forall e t', run (call st) t = (Throw e, t') ->
          h st st t
          = (Ok tt, after_failure st,
             t' ++ [Console (lit "error") [VStr label; thrown_value e]]))).

(** The state [st1] differs from [st] at most in the create form of the
    Labour page, and that form differs from [fields] at most in its [roles],
    which are [rows]. *)
Definition roles_become (st st1 : LabourPage.state)
    (fields : list (jsstring * value)) (rows : list value) : Prop :=
  exists fields1,
    st1 = LabourPage.with_formData (VObj fields1) st /\
    lookup (lit "roles") fields1 = VArr rows /\
    forall k, k <> lit "roles" -> lookup k fields1 = lookup k fields.

(** The trace when [handleExtract] calls the API: the two log lines that
    precede the request. *)
Definition extract_started (tenantId : jsstring) (t : trace)
    (fields : list (jsstring * value)) : trace :=
  (t ++ [Console (lit "log")
           [VStr (lit "[EXTRACT] Button clicked for evidence:");
            lookup (lit "id") fields; lookup (lit "fileName") fields]])
    ++ [Console (lit "log")
          [VStr (lit "[EXTRACT] Calling API - tenantId:"); VStr tenantId;
           VStr (lit "evidenceId:"); lookup (lit "id") fields]].

End Contract.
End PageContract.

(* ====================================================================== *)
(** * Part II.  Properties                                                  *)
(* ====================================================================== *)

Unset Implicit Arguments.

(** ** Strings *)

Module StringFacts.
Import JS.

Lemma str_eqb_eq (a b : jsstring) : str_eqb a b = true -> a = b.
Proof.
  revert b; induction a as [|x a IH]; intros [|y b]; simpl; try easy.
  intros H; apply andb_true_iff in H as [Hxy Hab].
  apply N.eqb_eq in Hxy. now rewrite Hxy, (IH _ Hab).
Qed.

Lemma starts_with_app (p s rest : jsstring) :
  starts_with p s = true -> starts_with p (s ++ rest) = true.
Proof.
  revert s; induction p as [|x p IH]; intros [|y s]; simpl; try easy.
  intros H; apply andb_true_iff in H as [Hxy Hp].
  now rewrite Hxy, (IH _ Hp).
Qed.

Lemma starts_with_self_app (p rest : jsstring) : starts_with p (p ++ rest) = true.
Proof.
  induction p as [|x p IH]; simpl; [reflexivity|].
  now rewrite N.eqb_refl, IH.
Qed.

Lemma includes_app_l (s rest needle : jsstring) :
  includes s needle = true -> includes (s ++ rest) needle = true.
Proof.
  induction s as [|c s IH]; simpl; intros H.
  - rewrite orb_false_r in H.
    destruct needle; [|discriminate].
    destruct rest; reflexivity.
  - apply orb_true_iff in H as [H|H].
    + change (c :: s ++ rest) with ((c :: s) ++ rest).
      now rewrite (starts_with_app _ _ rest H).
    + rewrite (IH H). apply orb_true_r.
Qed.

Lemma includes_app_r (pre s needle : jsstring) :
  includes s needle = true -> includes (pre ++ s) needle = true.
Proof.
  induction pre as [|c pre IH]; simpl; intros H; [exact H|].
  rewrite (IH H). apply orb_true_r.
Qed.

Lemma includes_middle (pre mid post : jsstring) :
  includes (pre ++ mid ++ post) mid = true.
Proof.
  apply includes_app_r.
  destruct mid as [|c mid]; [destruct post; reflexivity|].
  simpl. rewrite N.eqb_refl, starts_with_self_app. reflexivity.
Qed.

(** A string of white space only trims to the empty string, and only such
    strings do. *)
Lemma trimStart_blank (s : jsstring) :
  forallb is_white_space s = true -> trimStart s = [].
Proof.
  induction s as [|c s IH]; simpl; [reflexivity|].
  intros H; apply andb_true_iff in H as [Hc Hs]. now rewrite Hc, IH.
Qed.

Lemma trim_blank (s : jsstring) :
  forallb is_white_space s = true -> trim s = [].
Proof.
  intros H. unfold trim. now rewrite (trimStart_blank _ H).
Qed.

Lemma trimStart_nil_blank (s : jsstring) :
  trimStart s = [] -> forallb is_white_space s = true.
Proof.
  induction s as [|c s IH]; simpl; [reflexivity|].
  destruct (is_white_space c); [exact IH|discriminate].
Qed.

Lemma trim_nil_blank (s : jsstring) :
  trim s = [] -> forallb is_white_space s = true.
Proof.
  unfold trim, trimEnd. intros H.
  apply trimStart_nil_blank.
  destruct (trimStart s) as [|c r] eqn:E; [reflexivity|].
  exfalso.
  assert (Hrev : trimStart (rev (c :: r)) = []).
  { apply (f_equal (@rev N)) in H. rewrite rev_involutive in H. exact H. }
  apply trimStart_nil_blank in Hrev.
  rewrite forallb_forall in Hrev.
  assert (Hc : is_white_space c = true).
  { apply Hrev. apply -> in_rev. left; reflexivity. }
  destruct s as [|c0 s0]; [discriminate|].
  revert E. clear - Hc.
  generalize (c0 :: s0). intros l. induction l as [|x l IH]; simpl; [discriminate|].
  destruct (is_white_space x) eqn:Ex; [exact IH|].
  intros E; injection E as -> _. congruence.
Qed.

Lemma trim_nil_iff (s : jsstring) :
  trim s = [] <-> forallb is_white_space s = true.
Proof. split; [apply trim_nil_blank | apply trim_blank]. Qed.

End StringFacts.

(** ** Running computations *)

Module NetFacts.
Import JS Net.

Section Facts.
Context {Num : Number}.

Lemma lift_run {S A} (c : IO A) (s : S) (t t' : trace) (r : result A) :
  run c t = (r, t') -> lift c s t = (r, s, t').
Proof.
  unfold run, lift. destruct (c tt t) as [[r0 u] t0].
  intros H; injection H as -> ->. reflexivity.
Qed.

End Facts.

(** Unfolds the control structure of a handler and its state setters; the
    client calls stay folded, to be rewritten with what they are assumed to
    return. *)
Create HintDb handler.
#[export] Hint Unfold bind try_finally try_catch modify ret eval throw : handler.
#[export] Hint Unfold
  BudgetPage.setBudgets BudgetPage.setSelectedBudget BudgetPage.setError
  BudgetPage.setShowCreateForm BudgetPage.setFormData
  BudgetPage.setSubmitting
  : handler.
#[export] Hint Unfold
  LabourPage.setLabourPlans LabourPage.setSelectedPlan LabourPage.setError
  LabourPage.setShowCreateForm LabourPage.setFormData
  LabourPage.setSubmitting
  : handler.
#[export] Hint Unfold
  CashPage.setSnapshots CashPage.setWeekHistory CashPage.setError
  CashPage.setShowCreateForm CashPage.setFormData CashPage.setSubmitting
  CashPage.setShowCorrectionForm CashPage.setCorrectionTarget
  CashPage.setCorrectionReason
  : handler.
#[export] Hint Unfold
  EvidencePage.setEvidenceList EvidencePage.setCandidates
  EvidencePage.setPendingCandidates EvidencePage.setError
  EvidencePage.setShowUploadForm EvidencePage.setUploadSource
  EvidencePage.setSelectedFile EvidencePage.setSubmitting
  EvidencePage.setShowRejectForm EvidencePage.setRejectTarget
  EvidencePage.setRejectReason EvidencePage.setFileInputValue
  : handler.
#[export] Hint Unfold Layout.setVenues Layout.setLoading : handler.

Ltac run_handler :=
  autounfold with handler; cbn beta iota delta [negb orb andb get].

End NetFacts.

(** ** The API client *)

Module ClientProps.
Import JS Net Client Contract StringFacts.

(** Unfolds a client function down to the answer of the server. *)
Ltac run_client :=
  unfold run, bind, fetch, throw, ret, eval, json, text, console_error, emit;
  cbn beta iota.

Section Props.
Context {Num : Number}.
Variable server : Server.

(** Every single-record fetch has the same shape; one tactic settles each. *)
Ltac single_record :=
  intros t r Hr; split;
  [ intros H404; run_client; rewrite Hr;
    unfold ok; rewrite H404; reflexivity
  | intros Hok Hne; run_client; rewrite Hr; rewrite Hok; cbn;
    destruct (Z.eqb_spec (status r) 404) as [E|_]; [contradiction|reflexivity] ].

Lemma getMondayBrief_contract (tenantId venueId weekStartDate : jsstring) :
  single_record_fetch server (getMondayBrief server tenantId venueId weekStartDate)
    (GET (API_BASE ++ lit "/monday-briefs/" ++ tenantId ++ lit "/venue/"
            ++ venueId ++ lit "/week?weekStartDate=" ++ weekStartDate))
    (lit "Failed to fetch Monday brief: ").
Proof. unfold getMondayBrief. single_record. Qed.

Lemma getBudget_contract (tenantId budgetId : jsstring) :
  single_record_fetch server (getBudget server tenantId budgetId)
    (GET (API_BASE ++ lit "/budgets/" ++ tenantId ++ lit "/" ++ budgetId))
    (lit "Failed to fetch budget: ").
Proof. unfold getBudget. single_record. Qed.

Lemma getConfirmedBudget_contract (tenantId venueId : jsstring) :
  single_record_fetch server (getConfirmedBudget server tenantId venueId)
    (GET (API_BASE ++ lit "/budgets/" ++ tenantId ++ lit "/venue/" ++ venueId
            ++ lit "/confirmed"))
    (lit "Failed to fetch confirmed budget: ").
Proof. unfold getConfirmedBudget. single_record. Qed.

Lemma getLabourPlan_contract (tenantId labourPlanId : jsstring) :
  single_record_fetch server (getLabourPlan server tenantId labourPlanId)
    (GET (API_BASE ++ lit "/labour-plans/" ++ tenantId ++ lit "/" ++ labourPlanId))
    (lit "Failed to fetch labour plan: ").
Proof. unfold getLabourPlan. single_record. Qed.

Lemma getConfirmedLabourPlan_contract (tenantId venueId : jsstring) :
  single_record_fetch server (getConfirmedLabourPlan server tenantId venueId)
    (GET (API_BASE ++ lit "/labour-plans/" ++ tenantId ++ lit "/venue/" ++ venueId
            ++ lit "/confirmed"))
    (lit "Failed to fetch confirmed labour plan: ").
Proof. unfold getConfirmedLabourPlan. single_record. Qed.

Lemma getCashSnapshotByWeek_contract (tenantId venueId weekStartDate : jsstring) :
  single_record_fetch server
    (getCashSnapshotByWeek server tenantId venueId weekStartDate)
    (GET (API_BASE ++ lit "/cash-snapshots/" ++ tenantId ++ lit "/venue/"
            ++ venueId ++ lit "/week/" ++ weekStartDate))
    (lit "Failed to fetch cash snapshot: ").
Proof. unfold getCashSnapshotByWeek. single_record. Qed.

Lemma getEvidence_contract (tenantId evidenceId : jsstring) :
  single_record_fetch server (getEvidence server tenantId evidenceId)
    (GET (API_BASE ++ lit "/evidence/" ++ tenantId ++ lit "/" ++ evidenceId))
    (lit "Failed to fetch evidence: ").
Proof. unfold getEvidence. single_record. Qed.

(** C1, as amended.  For each single-record fetch of the API client
    ([getMondayBrief], [getBudget], [getConfirmedBudget], [getLabourPlan],
    [getConfirmedLabourPlan], [getCashSnapshotByWeek], [getEvidence]): when
    the response status is 404 the function returns [null]; when the
    response has any other status outside 200..299 it raises an [Error]
    whose message is the function's fixed text followed by the HTTP status
    text.  The response body is not read on that path. *)
Theorem single_record_fetch_404_null_else_status_text :
  forall tenantId venueId weekStartDate recordId : jsstring,
    single_record_fetch server
      (getMondayBrief server tenantId venueId weekStartDate)
      (GET (API_BASE ++ lit "/monday-briefs/" ++ tenantId ++ lit "/venue/"
              ++ venueId ++ lit "/week?weekStartDate=" ++ weekStartDate))
      (lit "Failed to fetch Monday brief: ") /\
    single_record_fetch server (getBudget server tenantId recordId)
      (GET (API_BASE ++ lit "/budgets/" ++ tenantId ++ lit "/" ++ recordId))
      (lit "Failed to fetch budget: ") /\
    single_record_fetch server (getConfirmedBudget server tenantId venueId)
      (GET (API_BASE ++ lit "/budgets/" ++ tenantId ++ lit "/venue/" ++ venueId
              ++ lit "/confirmed"))
      (lit "Failed to fetch confirmed budget: ") /\
    single_record_fetch server (getLabourPlan server tenantId recordId)
      (GET (API_BASE ++ lit "/labour-plans/" ++ tenantId ++ lit "/" ++ recordId))
      (lit "Failed to fetch labour plan: ") /\
    single_record_fetch server (getConfirmedLabourPlan server tenantId venueId)
      (GET (API_BASE ++ lit "/labour-plans/" ++ tenantId ++ lit "/venue/"
              ++ venueId ++ lit "/confirmed"))
      (lit "Failed to fetch confirmed labour plan: ") /\
    single_record_fetch server
      (getCashSnapshotByWeek server tenantId venueId weekStartDate)
      (GET (API_BASE ++ lit "/cash-snapshots/" ++ tenantId ++ lit "/venue/"
              ++ venueId ++ lit "/week/" ++ weekStartDate))
      (lit "Failed to fetch cash snapshot: ") /\
    single_record_fetch server (getEvidence server tenantId recordId)
      (GET (API_BASE ++ lit "/evidence/" ++ tenantId ++ lit "/" ++ recordId))
      (lit "Failed to fetch evidence: ").
Proof.
  intros. repeat apply conj.
  all: first [ apply getMondayBrief_contract | apply getBudget_contract
             | apply getConfirmedBudget_contract | apply getLabourPlan_contract
             | apply getConfirmedLabourPlan_contract
             | apply getCashSnapshotByWeek_contract | apply getEvidence_contract ].
Qed.

End Props.
(** Concrete runs of the statement above: a 404 gives [null], a 500 gives
    the status text (here against backends that answer every request alike). *)
Lemma single_record_fetch_witness :
  run (getBudget (Scenario.always Scenario.notFound) Scenario.tenant (lit "budget-7")) []
    = (Ok VNull,
       [Fetch (GET (lit "/api/budgets/tenant-1/budget-7"))]) /\
  run (getEvidence (Scenario.always Scenario.storeDown) Scenario.tenant (lit "ev-1")) []
    = (Throw (Error (lit "Failed to fetch evidence: Internal Server Error")),
       [Fetch (GET (lit "/api/evidence/tenant-1/ev-1"))]).
Proof.
  split.
  - destruct (single_record_fetch_404_null_else_status_text
                (Scenario.always Scenario.notFound)
                Scenario.tenant Scenario.venue (lit "2024-01-01") (lit "budget-7"))
      as (_ & HB & _).
    exact (proj1 (HB [] Scenario.notFound eq_refl) eq_refl).
  - destruct (single_record_fetch_404_null_else_status_text
                (Scenario.always Scenario.storeDown)
                Scenario.tenant Scenario.venue (lit "2024-01-01") (lit "ev-1"))
      as (_ & _ & _ & _ & _ & _ & HE).
    refine (proj2 (HE [] Scenario.storeDown eq_refl) eq_refl _).
    vm_compute. discriminate.
Defined.

(** C1, as stated, fails.  The backend answers [getBudget] with status 500
    and the JSON body [{ error: "Budget store unavailable" }]; the failure
    raised is "Failed to fetch budget: Internal Server Error", which does not
    carry the backend's error text. *)
Lemma getBudget_drops_backend_error_text :
  run (getBudget (Scenario.always Scenario.storeDown) Scenario.tenant (lit "budget-7")) []
    = (Throw (Error (lit "Failed to fetch budget: Internal Server Error")),
       [Fetch (GET (lit "/api/budgets/tenant-1/budget-7"))]) /\
  includes (lit "Failed to fetch budget: Internal Server Error")
           (lit "Budget store unavailable") = false /\
  ~ failure_carries_backend_text (Scenario.always Scenario.storeDown)
      (getBudget (Scenario.always Scenario.storeDown) Scenario.tenant (lit "budget-7"))
      (GET (lit "/api/budgets/tenant-1/budget-7")).
Proof.
  split; [reflexivity|]. split; [reflexivity|].
  intros H.
  destruct (H [] Scenario.storeDown
              (VObj [(lit "error", VStr (lit "Budget store unavailable"))])
              (VStr (lit "Budget store unavailable"))
              eq_refl eq_refl ltac:(vm_compute; discriminate)
              eq_refl eq_refl eq_refl)
    as (name & message & Hrun & Hinc).
  vm_compute in Hrun. injection Hrun as <- <-.
  vm_compute in Hinc. discriminate.
Qed.

Section Upload.
Context {Num : Number}.
Variable server : Server.

(** The request [uploadEvidence] issues. *)
Let uploadRequest (tenantId venueId : jsstring) (file : File)
    (source uploadedBy : jsstring) : Request :=
  {| url := API_BASE ++ lit "/evidence/" ++ tenantId ++ lit "/venue/" ++ venueId
              ++ lit "/upload";
     method := lit "POST"; headers := [];
     body := Some (FormData [(lit "file", FormFile file);
                             (lit "source", FormText source);
                             (lit "uploadedBy", FormText uploadedBy)]) |}.

Lemma non_JSON_message_mentions (status : Z) :
  includes (non_JSON_message status) (lit "non-JSON response") = true /\
  includes (non_JSON_message status) (Z_toString status) = true.
Proof.
  unfold non_JSON_message. split.
  - apply includes_app_l. reflexivity.
  - apply includes_middle.
Qed.

(** C6.  [uploadEvidence] looks at the response's content-type header
    before it parses anything: for every response whose content-type header
    is absent, or present without the text "application/json" in it, and
    whatever the status (2xx or not) and the body, it raises the diagnostic
    [Error] "Server returned non-JSON response (<status>). ..." (which
    mentions the non-JSON response and the HTTP status) and never the
    SyntaxError of a JSON parse. *)
Theorem uploadEvidence_non_json_content_type_diagnostic :
  forall (tenantId venueId : jsstring) (file : File) (source uploadedBy : jsstring)
         (t : trace) (r : Response),
    server t (uploadRequest tenantId venueId file source uploadedBy) = Ok r ->
    (content_type r = None \/
     exists ct, content_type r = Some ct /\
                includes ct (lit "application/json") = false) ->
    run (uploadEvidence server tenantId venueId file source uploadedBy) t
      = (Throw (Error (non_JSON_message (status r))),
         (t ++ [Fetch (uploadRequest tenantId venueId file source uploadedBy)])
           ++ [Console (lit "error")
                 [VStr (lit "Non-JSON response received:");
                  VStr (substring0 200 (body_text r))]]) /\
    includes (non_JSON_message (status r)) (lit "non-JSON response") = true /\
    includes (non_JSON_message (status r)) (Z_toString (status r)) = true /\
    (forall message,
       fst (run (uploadEvidence server tenantId venueId file source uploadedBy) t)
         <> Throw (SyntaxError message)).
Proof.
  intros tenantId venueId file source uploadedBy t r Hr Hct.
  assert (Hrun :
    run (uploadEvidence server tenantId venueId file source uploadedBy) t
      = (Throw (Error (non_JSON_message (status r))),
         (t ++ [Fetch (uploadRequest tenantId venueId file source uploadedBy)])
           ++ [Console (lit "error")
                 [VStr (lit "Non-JSON response received:");
                  VStr (substring0 200 (body_text r))]])).
  { unfold uploadEvidence, uploadRequest in *. run_client. rewrite Hr.
    destruct Hct as [Hnone | (ct & Hsome & Hinc)].
    - rewrite Hnone. reflexivity.
    - rewrite Hsome, Hinc. rewrite orb_true_r. reflexivity. }
  split; [exact Hrun|].
  destruct (non_JSON_message_mentions (status r)) as [H1 H2].
  split; [exact H1|]. split; [exact H2|].
  intros message. rewrite Hrun. cbn. unfold Error, SyntaxError.
  intros E. injection E as E _. vm_compute in E. discriminate.
Qed.

End Upload.

(** Two runs of the statement above: an HTML page served with status 200,
    and a 502 without a content-type header. *)
Lemma uploadEvidence_non_json_witness :
  fst (run (uploadEvidence (Scenario.always Scenario.proxyPage) Scenario.tenant
              Scenario.venue Scenario.rotaCsv (lit "rota") (lit "operator-user")) [])
    = Throw (Error (lit ("Server returned non-JSON response (200). "
                         ++ "This may indicate an authentication or routing issue."))) /\
  fst (run (uploadEvidence (Scenario.always Scenario.badGateway) Scenario.tenant
              Scenario.venue Scenario.rotaCsv (lit "rota") (lit "operator-user")) [])
    = Throw (Error (lit ("Server returned non-JSON response (502). "
                         ++ "This may indicate an authentication or routing issue."))).
Proof.
  split.
  - refine (f_equal fst (proj1 (@uploadEvidence_non_json_content_type_diagnostic
              Z_Number (Scenario.always Scenario.proxyPage) Scenario.tenant
              Scenario.venue Scenario.rotaCsv (lit "rota") (lit "operator-user") []
              Scenario.proxyPage eq_refl _))).
    right. exists (lit "text/html; charset=utf-8"). split; reflexivity.
  - refine (f_equal fst (proj1 (@uploadEvidence_non_json_content_type_diagnostic
              Z_Number (Scenario.always Scenario.badGateway) Scenario.tenant
              Scenario.venue Scenario.rotaCsv (lit "rota") (lit "operator-user") []
              Scenario.badGateway eq_refl _))).
    left. reflexivity.
Defined.

End ClientProps.

(** ** Workflow pages: creation, failure, guards *)

Module PageProps.
Import JS Net Contract StringFacts NetFacts.


Section Budget.
Import BudgetPage.
Context {Num : Number}.
Variable server : Server.
Variables tenantId venueId : jsstring.

Lemma budget_create_prepends (st : state) (t t' : trace)
    (result record : value) (items : list value) :
  str_truthy venueId = true ->
  budgets st = VArr items ->
  Net.run (Client.createBudget server tenantId venueId (formData st)
             CURRENT_USER_ID) t = (Ok result, t') ->
  get result (lit "budget") = Ok record ->
  exists st',
    run (handleCreateBudget server tenantId venueId) st t = (Ok tt, st', t') /\
    budgets st' = VArr (record :: items).
Proof.
  intros Hv Hb Hrun Hget.
  unfold run, handleCreateBudget. rewrite Hv. run_handler.
  rewrite (lift_run _ _ _ _ _ Hrun), Hget, Hb. cbn.
  eexists. split; reflexivity.
Qed.

Lemma budget_create_failure (st : state) :
  str_truthy venueId = true ->
  failed_write_sets_error_only submitting with_error
    (Client.createBudget server tenantId venueId (formData st) CURRENT_USER_ID)
    (handleCreateBudget server tenantId venueId) st
    (lit "Failed to create budget").
Proof.
  intros Hv t t' e Hrun Hsub.
  unfold handleCreateBudget. rewrite Hv. run_handler.
  rewrite (lift_run _ _ _ _ _ Hrun). cbn.
  destruct st; cbn in *; subst; reflexivity.
Qed.

Lemma budget_confirm_failure (st : state) (fields : list (jsstring * value)) :
  failed_write_sets_error_only submitting with_error
    (Client.confirmBudget server tenantId
       (ToString (lookup (lit "id") fields)) (lookup (lit "payload") fields)
       CURRENT_USER_ID)
    (fun s => handleConfirmBudget server tenantId venueId s (VObj fields)) st
    (lit "Failed to confirm budget").
Proof.
  intros t t' e Hrun Hsub.
  unfold handleConfirmBudget. run_handler.
  rewrite (lift_run _ _ _ _ _ Hrun). cbn.
  destruct st; cbn in *; subst; reflexivity.
Qed.

End Budget.

Section Labour.
Import LabourPage.
Context {Num : Number}.
Variable server : Server.
Variables tenantId venueId : jsstring.

Lemma labour_create_prepends (st : state) (t t' : trace)
    (result record : value) (items : list value) :
  str_truthy venueId = true ->
  labourPlans st = VArr items ->
  Net.run (Client.createLabourPlan server tenantId venueId (formData st)
             CURRENT_USER_ID) t = (Ok result, t') ->
  get result (lit "labourPlan") = Ok record ->
  exists st',
    run (handleCreateLabourPlan server tenantId venueId) st t = (Ok tt, st', t') /\
    labourPlans st' = VArr (record :: items).
Proof.
  intros Hv Hb Hrun Hget.
  unfold run, handleCreateLabourPlan. rewrite Hv. run_handler.
  rewrite (lift_run _ _ _ _ _ Hrun), Hget, Hb. cbn.
  eexists. split; reflexivity.
Qed.

Lemma labour_create_failure (st : state) :
  str_truthy venueId = true ->
  failed_write_sets_error_only submitting with_error
    (Client.createLabourPlan server tenantId venueId (formData st) CURRENT_USER_ID)
    (handleCreateLabourPlan server tenantId venueId) st
    (lit "Failed to create labour plan").
Proof.
  intros Hv t t' e Hrun Hsub.
  unfold handleCreateLabourPlan. rewrite Hv. run_handler.
  rewrite (lift_run _ _ _ _ _ Hrun). cbn.
  destruct st; cbn in *; subst; reflexivity.
Qed.

Lemma labour_confirm_failure (st : state) (fields : list (jsstring * value)) :
  failed_write_sets_error_only submitting with_error
    (Client.confirmLabourPlan server tenantId
       (ToString (lookup (lit "id") fields)) (lookup (lit "payload") fields)
       CURRENT_USER_ID)
    (fun s => handleConfirmLabourPlan server tenantId venueId s (VObj fields)) st
    (lit "Failed to confirm labour plan").
Proof.
  intros t t' e Hrun Hsub.
  unfold handleConfirmLabourPlan. run_handler.
  rewrite (lift_run _ _ _ _ _ Hrun). cbn.
  destruct st; cbn in *; subst; reflexivity.
Qed.

End Labour.

Section Cash.
Import CashPage.
Context {Num : Number}.
Variable server : Server.
Variables tenantId venueId selectedWeek : jsstring.

Lemma cash_create_prepends (st : state) (t t' : trace)
    (result record : value) (items history : list value) :
  str_truthy venueId = true ->
  snapshots st = VArr items ->
  weekHistory st = VArr history ->
  Net.run (Client.createCashSnapshot server tenantId venueId selectedWeek
             (formData st) CURRENT_USER_ID) t = (Ok result, t') ->
  get result (lit "snapshot") = Ok record ->
  exists st',
    run (handleCreateSnapshot server tenantId venueId selectedWeek) st t
      = (Ok tt, st', t') /\
    snapshots st' = VArr (record :: items) /\
    weekHistory st' = VArr (record :: history).
Proof.
  intros Hv Hs Hw Hrun Hget.
  unfold run, handleCreateSnapshot. rewrite Hv. run_handler.
  rewrite (lift_run _ _ _ _ _ Hrun), Hget, Hs, Hw. cbn.
  eexists. repeat split; reflexivity.
Qed.

Lemma cash_create_failure (st : state) :
  str_truthy venueId = true ->
  failed_write_sets_error_only submitting with_error
    (Client.createCashSnapshot server tenantId venueId selectedWeek (formData st)
       CURRENT_USER_ID)
    (handleCreateSnapshot server tenantId venueId selectedWeek) st
    (lit "Failed to create snapshot").
Proof.
  intros Hv t t' e Hrun Hsub.
  unfold handleCreateSnapshot. rewrite Hv. run_handler.
  rewrite (lift_run _ _ _ _ _ Hrun). cbn.
  destruct st; cbn in *; subst; reflexivity.
Qed.

Lemma cash_correction_failure (st : state) (id : value) :
  truthy (correctionTarget st) = true ->
  str_truthy (trim (correctionReason st)) = true ->
  get (correctionTarget st) (lit "id") = Ok id ->
  failed_write_sets_error_only submitting with_error
    (Client.createCorrectionSnapshot server tenantId (ToString id) selectedWeek
       (correctionData st) CURRENT_USER_ID (correctionReason st))
    (handleSubmitCorrection server tenantId selectedWeek) st
    (lit "Failed to create correction").
Proof.
  intros Htarget Hreason Hid t t' e Hrun Hsub.
  unfold handleSubmitCorrection. rewrite Htarget, Hreason. run_handler.
  rewrite Hid. rewrite (lift_run _ _ _ _ _ Hrun). cbn.
  destruct st; cbn in *; subst; reflexivity.
Qed.

(** The guard of [handleSubmitCorrection]. *)
Lemma cash_blank_reason_returns (st : state) (t : trace) :
  trim (correctionReason st) = [] ->
  run (handleSubmitCorrection server tenantId selectedWeek) st t = (Ok tt, st, t).
Proof.
  intros Hblank. unfold run, handleSubmitCorrection. rewrite Hblank.
  cbn [str_truthy negb]. rewrite orb_true_r. reflexivity.
Qed.

End Cash.

Section Evidence.
Import EvidencePage.
Context {Num : Number}.
Variable server : Server.
Variables tenantId venueId : jsstring.

Lemma evidence_upload_failure (st : state) (file : File) :
  str_truthy venueId = true ->
  selectedFile st = Some file ->
  failed_write_sets_error_only submitting with_error
    (Client.uploadEvidence server tenantId venueId file (uploadSource st)
       CURRENT_USER_ID)
    (handleUpload server tenantId venueId) st
    (lit "Failed to upload evidence").
Proof.
  intros Hv Hfile t t' e Hrun Hsub.
  unfold handleUpload. rewrite Hv, Hfile. run_handler.
  rewrite (lift_run _ _ _ _ _ Hrun). cbn.
  destruct st; cbn in *; subst; reflexivity.
Qed.

Lemma evidence_confirm_failure (st : state) (fields : list (jsstring * value)) :
  failed_write_sets_error_only submitting with_error
    (Client.confirmCandidate server tenantId
       (ToString (lookup (lit "id") fields)) CURRENT_USER_ID VUndefined)
    (fun s => handleConfirm server tenantId s (VObj fields)) st
    (lit "Failed to confirm candidate").
Proof.
  intros t t' e Hrun Hsub.
  unfold handleConfirm. run_handler.
  rewrite (lift_run _ _ _ _ _ Hrun). cbn.
  destruct st; cbn in *; subst; reflexivity.
Qed.

Lemma evidence_reject_failure (st : state) (id : value) :
  truthy (rejectTarget st) = true ->
  str_truthy (trim (rejectReason st)) = true ->
  get (rejectTarget st) (lit "id") = Ok id ->
  failed_write_sets_error_only submitting with_error
    (Client.rejectCandidate server tenantId (ToString id) CURRENT_USER_ID
       (rejectReason st))
    (handleReject server tenantId) st
    (lit "Failed to reject candidate").
Proof.
  intros Htarget Hreason Hid t t' e Hrun Hsub.
  unfold handleReject. rewrite Htarget, Hreason. run_handler.
  rewrite Hid. rewrite (lift_run _ _ _ _ _ Hrun). cbn.
  destruct st; cbn in *; subst; reflexivity.
Qed.

(** The guard of [handleReject]. *)
Lemma evidence_blank_reason_returns (st : state) (t : trace) :
  trim (rejectReason st) = [] ->
  run (handleReject server tenantId) st t = (Ok tt, st, t).
Proof.
  intros Hblank. unfold run, handleReject. rewrite Hblank.
  cbn [str_truthy negb]. rewrite orb_true_r. reflexivity.
Qed.

End Evidence.

Section Claims.
Context {Num : Number}.

(** C3.  For every successful create of a Budget, a LabourPlan or a
    CashSnapshot (the client call resolves to an object [result]), the
    handler prepends exactly one record, the one the backend returned
    ([result.budget], [result.labourPlan], [result.snapshot]), to the
    in-memory list (for a snapshot: to the full list and to the week's
    history), and the entries held before follow it unchanged and in the
    same order. *)
Theorem create_prepends_the_returned_record :
  forall (server : Server) (tenantId venueId : jsstring),
    str_truthy venueId = true ->
    (forall (st : BudgetPage.state) (t t' : trace) (result record : value)
            (items : list value),
        BudgetPage.budgets st = VArr items ->
        Net.run (Client.createBudget server tenantId venueId
                   (BudgetPage.formData st) BudgetPage.CURRENT_USER_ID) t
          = (Ok result, t') ->
        get result (lit "budget") = Ok record ->
        exists st',
          BudgetPage.run (BudgetPage.handleCreateBudget server tenantId venueId) st t
            = (Ok tt, st', t') /\
          BudgetPage.budgets st' = VArr (record :: items)) /\
    (forall (st : LabourPage.state) (t t' : trace) (result record : value)
            (items : list value),
        LabourPage.labourPlans st = VArr items ->
        Net.run (Client.createLabourPlan server tenantId venueId
                   (LabourPage.formData st) LabourPage.CURRENT_USER_ID) t
          = (Ok result, t') ->
        get result (lit "labourPlan") = Ok record ->
        exists st',
          LabourPage.run (LabourPage.handleCreateLabourPlan server tenantId venueId)
            st t = (Ok tt, st', t') /\
          LabourPage.labourPlans st' = VArr (record :: items)) /\
    (forall (selectedWeek : jsstring) (st : CashPage.state) (t t' : trace)
            (result record : value) (items history : list value),
        CashPage.snapshots st = VArr items ->
        CashPage.weekHistory st = VArr history ->
        Net.run (Client.createCashSnapshot server tenantId venueId selectedWeek
                   (CashPage.formData st) CashPage.CURRENT_USER_ID) t
          = (Ok result, t') ->
        get result (lit "snapshot") = Ok record ->
        exists st',
          CashPage.run
            (CashPage.handleCreateSnapshot server tenantId venueId selectedWeek)
            st t = (Ok tt, st', t') /\
          CashPage.snapshots st' = VArr (record :: items) /\
          CashPage.weekHistory st' = VArr (record :: history)).
Proof.
  intros server tenantId venueId Hv. repeat apply conj; intros.
  - eapply budget_create_prepends; eassumption.
  - eapply labour_create_prepends; eassumption.
  - eapply cash_create_prepends; eassumption.
Qed.

(** C4.  For every write of a workflow page (create and confirm of a
    budget and of a labour plan, create and correction of a cash snapshot,
    upload of evidence, confirm and reject of a candidate): if the request
    fails (the client call rejects), the handler leaves every entity list of
    the page, and every other cell of its state, exactly as before; the one
    change is the error message, set to the failure's message. *)
Theorem failed_write_leaves_state_but_error :
  forall (server : Server) (tenantId venueId : jsstring),
    (forall st, str_truthy venueId = true ->
        failed_write_sets_error_only BudgetPage.submitting BudgetPage.with_error
          (Client.createBudget server tenantId venueId (BudgetPage.formData st)
             BudgetPage.CURRENT_USER_ID)
          (BudgetPage.handleCreateBudget server tenantId venueId) st
          (lit "Failed to create budget")) /\
    (forall st fields,
        failed_write_sets_error_only BudgetPage.submitting BudgetPage.with_error
          (Client.confirmBudget server tenantId
             (ToString (lookup (lit "id") fields)) (lookup (lit "payload") fields)
             BudgetPage.CURRENT_USER_ID)
          (fun s => BudgetPage.handleConfirmBudget server tenantId venueId s
                      (VObj fields)) st
          (lit "Failed to confirm budget")) /\
    (forall st, str_truthy venueId = true ->
        failed_write_sets_error_only LabourPage.submitting LabourPage.with_error
          (Client.createLabourPlan server tenantId venueId (LabourPage.formData st)
             LabourPage.CURRENT_USER_ID)
          (LabourPage.handleCreateLabourPlan server tenantId venueId) st
          (lit "Failed to create labour plan")) /\
    (forall st fields,
        failed_write_sets_error_only LabourPage.submitting LabourPage.with_error
          (Client.confirmLabourPlan server tenantId
             (ToString (lookup (lit "id") fields)) (lookup (lit "payload") fields)
             LabourPage.CURRENT_USER_ID)
          (fun s => LabourPage.handleConfirmLabourPlan server tenantId venueId s
                      (VObj fields)) st
          (lit "Failed to confirm labour plan")) /\
    (forall selectedWeek st, str_truthy venueId = true ->
        failed_write_sets_error_only CashPage.submitting CashPage.with_error
          (Client.createCashSnapshot server tenantId venueId selectedWeek
             (CashPage.formData st) CashPage.CURRENT_USER_ID)
          (CashPage.handleCreateSnapshot server tenantId venueId selectedWeek) st
          (lit "Failed to create snapshot")) /\
    (forall selectedWeek st id,
        truthy (CashPage.correctionTarget st) = true ->
        str_truthy (trim (CashPage.correctionReason st)) = true ->
        get (CashPage.correctionTarget st) (lit "id") = Ok id ->
        failed_write_sets_error_only CashPage.submitting CashPage.with_error
          (Client.createCorrectionSnapshot server tenantId (ToString id)
             selectedWeek (CashPage.correctionData st) CashPage.CURRENT_USER_ID
             (CashPage.correctionReason st))
          (CashPage.handleSubmitCorrection server tenantId selectedWeek) st
          (lit "Failed to create correction")) /\
    (forall st file, str_truthy venueId = true ->
        EvidencePage.selectedFile st = Some file ->
        failed_write_sets_error_only EvidencePage.submitting EvidencePage.with_error
          (Client.uploadEvidence server tenantId venueId file
             (EvidencePage.uploadSource st) EvidencePage.CURRENT_USER_ID)
          (EvidencePage.handleUpload server tenantId venueId) st
          (lit "Failed to upload evidence")) /\
    (forall st fields,
        failed_write_sets_error_only EvidencePage.submitting EvidencePage.with_error
          (Client.confirmCandidate server tenantId
             (ToString (lookup (lit "id") fields)) EvidencePage.CURRENT_USER_ID
             VUndefined)
          (fun s => EvidencePage.handleConfirm server tenantId s (VObj fields)) st
          (lit "Failed to confirm candidate")) /\
    (forall st id,
        truthy (EvidencePage.rejectTarget st) = true ->
        str_truthy (trim (EvidencePage.rejectReason st)) = true ->
        get (EvidencePage.rejectTarget st) (lit "id") = Ok id ->
        failed_write_sets_error_only EvidencePage.submitting EvidencePage.with_error
          (Client.rejectCandidate server tenantId (ToString id)
             EvidencePage.CURRENT_USER_ID (EvidencePage.rejectReason st))
          (EvidencePage.handleReject server tenantId) st
          (lit "Failed to reject candidate")).
Proof.
  intros server tenantId venueId. repeat apply conj; intros.
  - now apply budget_create_failure.
  - apply budget_confirm_failure.
  - now apply labour_create_failure.
  - apply labour_confirm_failure.
  - now apply cash_create_failure.
  - now apply cash_correction_failure.
  - now apply evidence_upload_failure.
  - apply evidence_confirm_failure.
  - now apply evidence_reject_failure.
Qed.

(** C5.  Submitting a cash correction whose reason is empty or made of
    white space only issues no network request, and neither does rejecting a
    candidate with such a reason: both handlers return at once, with the
    state and the trace untouched.  Conversely, whenever either handler
    issues a request, the trimmed reason is not empty. *)
Theorem blank_reason_issues_no_request :
  forall (server : Server) (tenantId selectedWeek : jsstring),
    (forall (st : CashPage.state) (t : trace),
        forallb is_white_space (CashPage.correctionReason st) = true ->
        CashPage.run (CashPage.handleSubmitCorrection server tenantId selectedWeek)
          st t = (Ok tt, st, t)) /\
    (forall (st : EvidencePage.state) (t : trace),
        forallb is_white_space (EvidencePage.rejectReason st) = true ->
        EvidencePage.run (EvidencePage.handleReject server tenantId) st t
          = (Ok tt, st, t)) /\
    (forall (st : CashPage.state) (t : trace),
        requests (snd (CashPage.run
                         (CashPage.handleSubmitCorrection server tenantId selectedWeek)
                         st t)) <> requests t ->
        trim (CashPage.correctionReason st) <> []) /\
    (forall (st : EvidencePage.state) (t : trace),
        requests (snd (EvidencePage.run (EvidencePage.handleReject server tenantId)
                         st t)) <> requests t ->
        trim (EvidencePage.rejectReason st) <> []).
Proof.
  intros server tenantId selectedWeek. repeat apply conj.
  - intros st t Hblank. apply cash_blank_reason_returns. now apply trim_blank.
  - intros st t Hblank. apply evidence_blank_reason_returns. now apply trim_blank.
  - intros st t Hissued Hnil. apply Hissued.
    now rewrite (cash_blank_reason_returns server tenantId selectedWeek st t Hnil).
  - intros st t Hissued Hnil. apply Hissued.
    now rewrite (evidence_blank_reason_returns server tenantId st t Hnil).
Qed.

(** C2, as amended.  The confirm action belongs to a budget card and acts
    on that card's budget, not on the selection: whatever the state of the
    page, selected budget or none, the handler issues the confirmBudget
    request for the budget it was triggered on, with that budget's id and
    payload.  The control is rendered only on the cards of budgets whose
    status is "draft". *)
Theorem confirm_acts_on_the_card_whatever_the_selection :
  forall (server : Server) (tenantId venueId : jsstring),
    (forall (st : BudgetPage.state) (fields : list (jsstring * value)) (t : trace),
        exists outcome st' rest,
          BudgetPage.run
            (fun s => BudgetPage.handleConfirmBudget server tenantId venueId s
                        (VObj fields)) st t
          = (outcome, st',
             t ++ Fetch (Client.POST_json
                           (Client.API_BASE ++ lit "/budgets/" ++ tenantId
                              ++ lit "/" ++ ToString (lookup (lit "id") fields)
                              ++ lit "/confirm")
                           (VObj [(lit "payload", lookup (lit "payload") fields);
                                  (lit "confirmedBy",
                                   VStr BudgetPage.CURRENT_USER_ID)]))
                 :: rest)) /\
    (forall (st : BudgetPage.state) (budget : value),
        In budget (BudgetPage.confirmButtons st) ->
        get budget (lit "status") = Ok (VStr (lit "draft"))).
Proof.
  intros server tenantId venueId. split.
  - intros st fields t.
    unfold BudgetPage.run, BudgetPage.handleConfirmBudget. run_handler.
    unfold lift, Client.confirmBudget, Client.getBudgets,
      Client.throw_backend_error, json.
    run_handler. unfold fetch.
    repeat (cbn beta iota;
            match goal with
            | |- context [match ?x with _ => _ end] =>
                lazymatch x with
                | context [match _ with _ => _ end] => fail
                | _ => destruct x
                end
            end);
      do 3 eexists; rewrite <- ?app_assoc; reflexivity.
  - intros st budget. unfold BudgetPage.confirmButtons.
    destruct (BudgetPage.budgets st); try contradiction.
    intros Hin. apply filter_In in Hin as [_ Hdraft].
    unfold BudgetPage.confirmButtonRendered in Hdraft.
    destruct (get budget (lit "status")) as [v|e]; [|discriminate].
    destruct v; try discriminate.
    cbn in Hdraft. now rewrite (str_eqb_eq _ _ Hdraft).
Qed.

End Claims.

(** *** Concrete runs *)

(** C2, as stated, fails.  The Budget page shows a draft budget and nothing
    is selected; the confirm button of the draft's card issues the
    confirmBudget request (and then the list refresh). *)
Lemma confirm_with_nothing_selected_issues_request :
  BudgetPage.selectedBudget Scenario.budgetPage = VNull /\
  In (Scenario.budget "budget-7" "draft")
     (BudgetPage.confirmButtons Scenario.budgetPage) /\
  map (fun r => (method r, url r))
      (requests (snd (BudgetPage.run
         (fun s => BudgetPage.handleConfirmBudget Scenario.budgetBackend
                     Scenario.tenant Scenario.venue s
                     (Scenario.budget "budget-7" "draft"))
         Scenario.budgetPage [])))
    = [(lit "POST", lit "/api/budgets/tenant-1/budget-7/confirm");
       (lit "GET", lit "/api/budgets/tenant-1/venue/venue-1")] /\
  ~ confirm_unselected_issues_nothing Scenario.budgetBackend
      Scenario.tenant Scenario.venue.
Proof.
  split; [reflexivity|]. split; [left; reflexivity|]. split; [reflexivity|].
  intros H.
  specialize (H Scenario.budgetPage (Scenario.budget "budget-7" "draft") []
                eq_refl).
  vm_compute in H. discriminate.
Qed.

Lemma confirm_acts_on_the_card_witness :
  get (Scenario.budget "budget-7" "draft") (lit "status")
    = Ok (VStr (lit "draft")).
Proof.
  refine (proj2 (confirm_acts_on_the_card_whatever_the_selection
                   Scenario.budgetBackend Scenario.tenant Scenario.venue)
            Scenario.budgetPage _ _).
  left. reflexivity.
Defined.

Lemma create_prepends_witness :
  (exists st',
     BudgetPage.run
       (BudgetPage.handleCreateBudget Scenario.budgetBackend Scenario.tenant
          Scenario.venue) Scenario.budgetPage []
     = (Ok tt, st',
        [Fetch (Client.POST_json (lit "/api/budgets/tenant-1/venue/venue-1")
                  (VObj [(lit "payload", Scenario.budgetForm);
                         (lit "createdBy", VStr (lit "operator-user"))]))]) /\
     BudgetPage.budgets st'
     = VArr [Scenario.budget "budget-7" "confirmed";
             Scenario.budget "budget-7" "draft";
             Scenario.budget "budget-3" "superseded"]) /\
  (exists st',
     LabourPage.run
       (LabourPage.handleCreateLabourPlan Scenario.labourBackend Scenario.tenant
          Scenario.venue) Scenario.labourPage []
     = (Ok tt, st',
        [Fetch (Client.POST_json (lit "/api/labour-plans/tenant-1/venue/venue-1")
                  (VObj [(lit "payload", Scenario.budgetForm);
                         (lit "createdBy", VStr (lit "operator-user"))]))]) /\
     LabourPage.labourPlans st'
     = VArr [Scenario.budget "plan-9" "draft"; Scenario.budget "plan-2" "draft"]) /\
  (exists st',
     fst (CashPage.run
            (CashPage.handleCreateSnapshot Scenario.cashBackend Scenario.tenant
               Scenario.venue (lit "2026-01-26")) (Scenario.cashPage []) [])
     = (Ok tt, st') /\
     CashPage.snapshots st'
     = VArr [Scenario.snapshot "snap-2" true; Scenario.snapshot "snap-1" false] /\
     CashPage.weekHistory st'
     = VArr [Scenario.snapshot "snap-2" true; Scenario.snapshot "snap-1" false]).
Proof.
  destruct (create_prepends_the_returned_record Scenario.budgetBackend
              Scenario.tenant Scenario.venue eq_refl) as (HB & _).
  destruct (create_prepends_the_returned_record Scenario.labourBackend
              Scenario.tenant Scenario.venue eq_refl) as (_ & HL & _).
  destruct (create_prepends_the_returned_record Scenario.cashBackend
              Scenario.tenant Scenario.venue eq_refl) as (_ & _ & HC).
  split; [|split].
  - exact (HB Scenario.budgetPage [] _ _ _ _ eq_refl eq_refl eq_refl).
  - exact (HL Scenario.labourPage [] _ _ _ _ eq_refl eq_refl eq_refl).
  - destruct (HC (lit "2026-01-26") (Scenario.cashPage []) [] _ _ _ _ _
                eq_refl eq_refl eq_refl eq_refl) as (st' & Hrun & Hs & Hw).
    exists st'. split; [|split]; [now rewrite Hrun | exact Hs | exact Hw].
Defined.

Lemma failed_write_witness :
  BudgetPage.run
    (BudgetPage.handleCreateBudget Scenario.refusing Scenario.tenant Scenario.venue)
    Scenario.budgetPage []
  = (Ok tt,
     BudgetPage.with_error (Some (lit "name is required")) Scenario.budgetPage,
     [Fetch (Client.POST_json (lit "/api/budgets/tenant-1/venue/venue-1")
               (VObj [(lit "payload", Scenario.budgetForm);
                      (lit "createdBy", VStr (lit "operator-user"))]))]).
Proof.
  destruct (failed_write_leaves_state_but_error Scenario.refusing
              Scenario.tenant Scenario.venue) as (HB & _).
  exact (HB Scenario.budgetPage eq_refl [] _ _ eq_refl eq_refl).
Defined.

(** A rejection refused by the backend: the candidate lists stay as they
    were, the reject form stays open. *)
Lemma failed_reject_leaves_lists :
  exists st',
    fst (EvidencePage.run
           (EvidencePage.handleReject Scenario.refusing Scenario.tenant)
           (Scenario.evidencePage (lit "duplicate of cand-0")) [])
    = (Ok tt, st') /\
    EvidencePage.error st' = Some (lit "name is required") /\
    EvidencePage.candidates st' = VArr [Scenario.candidate "cand-1" "pending"] /\
    EvidencePage.pendingCandidates st'
    = VArr [Scenario.candidate "cand-1" "pending"] /\
    EvidencePage.showRejectForm st' = true.
Proof.
  eexists. repeat split; reflexivity.
Qed.

(** A reason of a space, a tab and a no-break space; and a real reason. *)
Lemma blank_reason_witness :
  CashPage.run
    (CashPage.handleSubmitCorrection Scenario.cashBackend Scenario.tenant
       (lit "2026-01-26"))
    (Scenario.cashPage [32; 9; 160]%N) []
  = (Ok tt, Scenario.cashPage [32; 9; 160]%N, []) /\
  EvidencePage.run
    (EvidencePage.handleReject Scenario.cashBackend Scenario.tenant)
    (Scenario.evidencePage []) []
  = (Ok tt, Scenario.evidencePage [], []) /\
  trim (lit " till miscount ") <> [].
Proof.
  destruct (blank_reason_issues_no_request Scenario.cashBackend
              Scenario.tenant (lit "2026-01-26")) as (HC & HE & HC' & _).
  split; [|split].
  - exact (HC (Scenario.cashPage [32; 9; 160]%N) [] eq_refl).
  - exact (HE (Scenario.evidencePage []) [] eq_refl).
  - refine (HC' (Scenario.cashPage (lit " till miscount ")) [] _).
    vm_compute. discriminate.
Defined.

End PageProps.

(** ** The venue selector *)

Module LayoutProps.
Import JS Net Contract StringFacts NetFacts Layout.

Section Props.
Context {Num : Number}.
Variable server : Server.

Lemma isActive_readable (v : value) :
  readable v -> isActive v = Ok (carries_active_status v).
Proof.
  intros [Hnull Hundef]. unfold isActive.
  destruct v; cbn; try reflexivity; contradiction.
Qed.

Lemma filterItems_isActive (items : list value) :
  Forall readable items ->
  filterItems isActive items = Ok (filter carries_active_status items).
Proof.
  induction 1 as [|v items Hv _ IH]; cbn [filterItems filter]; [reflexivity|].
  rewrite (isActive_readable v Hv), IH. reflexivity.
Qed.

Lemma carries_active_status_inv (v : value) :
  carries_active_status v = true ->
  exists fields, v = VObj fields /\
                 lookup (lit "status") fields = VStr (lit "active").
Proof.
  destruct v; try discriminate. unfold carries_active_status.
  intros H. exists fields. split; [reflexivity|].
  destruct (lookup (lit "status") fields); try discriminate.
  unfold strict_eq_str in H. now rewrite (str_eqb_eq _ _ H).
Qed.

(** C9.  After [loadVenues], the venue selector holds exactly those
    elements of the [getVenues] result whose record carries a field
    [status] strictly equal to "active", in the order received.  A record of
    the client's declared [Venue] type (fields [id], [tenantId], [name],
    [createdAt] and no [status]) never carries it, so every such venue is
    left out of the dropdown; nothing reports the omission (no exception,
    no console line). *)
Theorem venue_selector_keeps_only_status_active :
  forall (tenantId : jsstring),
    (forall (st : state) (t t' : trace) (items : list value),
        Net.run (Client.getVenues server tenantId) t = (Ok (VArr items), t') ->
        Forall readable items ->
        exists st',
          loadVenues server tenantId st t = (Ok tt, st', t') /\
          venueOptions st' = filter carries_active_status items) /\
    (forall v, carries_active_status v = true ->
        exists fields, v = VObj fields /\
                       lookup (lit "status") fields = VStr (lit "active")) /\
    (forall id tenant name createdAt : jsstring,
        carries_active_status (Venue id tenant name createdAt) = false).
Proof.
  intros tenantId. repeat apply conj.
  - intros st t t' items Hrun Hread.
    unfold loadVenues. run_handler.
    rewrite (lift_run _ _ _ _ _ Hrun).
    unfold filter_method. rewrite (filterItems_isActive items Hread).
    eexists. split; reflexivity.
  - apply carries_active_status_inv.
  - reflexivity.
Qed.

End Props.

(** The backend returns three venues: one with status "active", one of the
    declared [Venue] shape, one with status "inactive".  Only the first is
    offered. *)
Lemma venue_selector_witness :
  exists st',
    loadVenues Scenario.venuesBackend Scenario.tenant
      {| venues := VArr []; loading := true |} []
    = (Ok tt, st', [Fetch (GET (lit "/api/venues/tenant-1"))]) /\
    map (fun v => lookup (lit "id") match v with VObj f => f | _ => [] end)
        (venueOptions st')
    = [VStr (lit "v1")].
Proof.
  destruct (venue_selector_keeps_only_status_active Scenario.venuesBackend
              Scenario.tenant) as (H & _).
  destruct (H {| venues := VArr []; loading := true |} [] _ _ eq_refl)
    as (st' & Hrun & Hopts).
  - repeat constructor; discriminate.
  - exists st'. split; [exact Hrun|]. rewrite Hopts. reflexivity.
Defined.

End LayoutProps.

(** ** Dates: [parseUKDate] *)

Module FormatProps.
Import JS ESDate Format.
Local Open Scope Z_scope.

(** The executable [YearFromTime] is the one of ECMA-262: the largest year
    whose start is not after [t]. *)
Lemma YearFromTime_spec (t : Z) :
  TimeFromYear (YearFromTime t) <= t < TimeFromYear (YearFromTime t + 1).
Proof.
  unfold YearFromTime, TimeFromYear, Day, DayFromYear, msPerDay.
  repeat match goal with
         | |- context [if ?c then _ else _] => destruct c eqn:?
         end;
    Z.to_euclidean_division_equations; lia.
Qed.

Lemma DayFromYear_next (y : Z) : DayFromYear (y + 1) = DayFromYear y + DaysInYear y.
Proof.
  unfold DayFromYear, DaysInYear.
  repeat match goal with
         | |- context [if ?c then _ else _] => destruct c eqn:?
         end;
    Z.to_euclidean_division_equations; lia.
Qed.

Lemma DaysInYear_cases (y : Z) : DaysInYear y = 365 \/ DaysInYear y = 366.
Proof.
  unfold DaysInYear.
  repeat match goal with
         | |- context [if ?c then _ else _] => destruct c
         end; auto.
Qed.

Lemma YearFromTime_unique (t y : Z) :
  TimeFromYear y <= t < TimeFromYear (y + 1) -> YearFromTime t = y.
Proof.
  intros H. pose proof (YearFromTime_spec t) as S.
  unfold TimeFromYear, DayFromYear, msPerDay in *.
  Z.to_euclidean_division_equations; lia.
Qed.

Lemma day_number_in_range (ym mn d : Z) :
  0 <= mn <= 11 ->
  day_number ym mn d
  = DayFromYear ym + monthStart (if DaysInYear ym =? 366 then 1 else 0) mn + d - 1.
Proof.
  intros H. unfold day_number.
  rewrite (Z.div_small mn 12), (Z.mod_small mn 12) by lia.
  replace (ym + 0) with ym by lia. reflexivity.
Qed.

Lemma monthStart_bounds (leap mn : Z) :
  0 <= mn <= 11 -> leap = 0 \/ leap = 1 ->
  0 <= monthStart leap mn < 365 + leap.
Proof.
  intros Hmn Hl.
  assert (mn = 0 \/ mn = 1 \/ mn = 2 \/ mn = 3 \/ mn = 4 \/ mn = 5 \/ mn = 6
          \/ mn = 7 \/ mn = 8 \/ mn = 9 \/ mn = 10 \/ mn = 11) as Hc by lia.
  destruct Hl as [-> | ->];
    repeat (destruct Hc as [-> | Hc]); try subst mn; cbn; lia.
Qed.

(** [day_number] is the day that [MakeDay] has to find: the time value of
    day 1 of month [mn] of year [ym] has exactly that year, that month and
    date 1. *)
Lemma day_number_first_of_month (ym mn : Z) :
  0 <= mn <= 11 ->
  let t := day_number ym mn 1 * msPerDay in
  YearFromTime t = ym /\ MonthFromTime t = mn /\ DateFromTime t = 1.
Proof.
  intros Hmn t.
  set (leap := if DaysInYear ym =? 366 then 1 else 0).
  assert (Hleap : (leap = 0 /\ DaysInYear ym = 365)
                  \/ (leap = 1 /\ DaysInYear ym = 366)).
  { unfold leap. destruct (DaysInYear_cases ym) as [E | E]; rewrite E; cbn; auto. }
  assert (Ht : t = msPerDay * (DayFromYear ym + monthStart leap mn)).
  { unfold t. rewrite (day_number_in_range ym mn 1 Hmn). fold leap. lia. }
  assert (Hb : 0 <= monthStart leap mn < 365 + leap).
  { apply monthStart_bounds; [exact Hmn|]. destruct Hleap as [[-> _]|[-> _]]; auto. }
  assert (Hy : YearFromTime t = ym).
  { apply YearFromTime_unique. rewrite Ht. unfold TimeFromYear.
    rewrite DayFromYear_next. unfold msPerDay. lia. }
  assert (Hd : Day t = DayFromYear ym + monthStart leap mn).
  { rewrite Ht. unfold Day, msPerDay. rewrite Z.mul_comm. apply Z.div_mul. lia. }
  assert (Hl : InLeapYear t = leap).
  { unfold InLeapYear, leap. now rewrite Hy. }
  assert (Hw : DayWithinYear t = monthStart leap mn).
  { unfold DayWithinYear. rewrite Hy, Hd. lia. }
  assert (Hm : MonthFromTime t = mn).
  { unfold MonthFromTime. rewrite Hw, Hl.
    assert (mn = 0 \/ mn = 1 \/ mn = 2 \/ mn = 3 \/ mn = 4 \/ mn = 5 \/ mn = 6
            \/ mn = 7 \/ mn = 8 \/ mn = 9 \/ mn = 10 \/ mn = 11) as Hc by lia.
    destruct Hleap as [[-> _] | [-> _]];
      repeat (destruct Hc as [-> | Hc]); try subst mn; reflexivity. }
  repeat split; [exact Hy | exact Hm |].
  unfold DateFromTime. rewrite Hm, Hw, Hl. lia.
Qed.

(** Days beyond the month's length, and months beyond December, carry over:
    the day number is that of the first of the normalised month plus
    [date - 1]. *)
Lemma day_number_rollover (year month date : Z) :
  day_number year month date
  = day_number (year + month / 12) (month mod 12) 1 + (date - 1).
Proof.
  unfold day_number.
  rewrite Z.mod_mod by lia.
  rewrite (Z.div_small (month mod 12) 12) by (apply Z.mod_pos_bound; lia).
  rewrite Z.add_0_r. lia.
Qed.

Lemma parseUKDate_segments (s : jsstring) :
  List.length (split 47 s) <> 3%nat -> parseUKDate s = None.
Proof.
  unfold parseUKDate.
  destruct (split 47 s) as [|a [|b [|c [|d l]]]]; cbn [List.length];
    intros H; try reflexivity.
  now contradiction H.
Qed.

Lemma parseUKDate_nan (s day month year : jsstring) :
  split 47 s = [day; month; year] ->
  parseInt10 day = None \/ parseInt10 month = None \/ parseInt10 year = None ->
  parseUKDate s = None.
Proof.
  intros Hs H. unfold parseUKDate, parseInt. rewrite Hs.
  destruct H as [H | [H | H]]; rewrite H; cbn [option_map].
  - reflexivity.
  - now destruct (parseInt10 day).
  - now destruct (parseInt10 day), (parseInt10 month).
Qed.

(** C7.  [parseUKDate("27/01/2026")] is the Date whose time value is
    1769472000000, which is 2026-01-27T00:00:00Z (UTC year 2026, month index
    0, day 27, no time of day); and [parseUKDate] returns [null] on every
    string that does not split on "/" into exactly three segments, and on
    every string of three segments one of which (day, month or year) does
    not parse as a number. *)
Theorem parseUKDate_example_and_malformed :
  parseUKDate (lit "27/01/2026") = Some 1769472000000 /\
  (YearFromTime 1769472000000, MonthFromTime 1769472000000,
   DateFromTime 1769472000000, TimeWithinDay 1769472000000) = (2026, 0, 27, 0) /\
  (forall s : jsstring,
      List.length (split 47 s) <> 3%nat -> parseUKDate s = None) /\
  (forall s day month year : jsstring,
      split 47 s = [day; month; year] ->
      parseInt10 day = None \/ parseInt10 month = None \/ parseInt10 year = None ->
      parseUKDate s = None).
Proof.
  split; [vm_compute; reflexivity|]. split; [vm_compute; reflexivity|].
  split; [exact parseUKDate_segments | exact parseUKDate_nan].
Qed.

(** Two segments; and three segments with a month that is no number. *)
Lemma parseUKDate_malformed_witness :
  parseUKDate (lit "27/01") = None /\ parseUKDate (lit "27/Jan/2026") = None.
Proof.
  destruct parseUKDate_example_and_malformed as (_ & _ & Hseg & Hnan).
  split.
  - apply Hseg. vm_compute. discriminate.
  - apply (Hnan _ (lit "27") (lit "Jan") (lit "2026")).
    + vm_compute. reflexivity.
    + right; left. vm_compute. reflexivity.
Defined.

Lemma DayWithinYear_bounds (t : Z) :
  0 <= DayWithinYear t < DaysInYear (YearFromTime t).
Proof.
  pose proof (YearFromTime_spec t) as H.
  unfold TimeFromYear in H. rewrite DayFromYear_next in H.
  unfold DayWithinYear, Day, msPerDay in *.
  Z.to_euclidean_division_equations; lia.
Qed.

Lemma InLeapYear_cases (t : Z) :
  (InLeapYear t = 0 /\ DaysInYear (YearFromTime t) = 365) \/
  (InLeapYear t = 1 /\ DaysInYear (YearFromTime t) = 366).
Proof.
  unfold InLeapYear. destruct (DaysInYear_cases (YearFromTime t)) as [E|E]; rewrite E; cbn; auto.
Qed.

Lemma calendar_fields (t : Z) :
  0 <= MonthFromTime t <= 11 /\ 1 <= DateFromTime t <= 31.
Proof.
  pose proof (DayWithinYear_bounds t) as Hb.
  unfold DateFromTime, MonthFromTime.
  destruct (InLeapYear_cases t) as [[-> E] | [-> E]]; rewrite E in Hb;
  cbn [monthStart];
  repeat match goal with
         | |- context [if ?c then _ else _] => destruct (Z.ltb_spec (DayWithinYear t) ltac:(match c with _ <? ?b => exact b end))
         end; cbn [monthStart]; lia.
Qed.

Lemma day_number_inverse (t : Z) :
  day_number (YearFromTime t) (MonthFromTime t) (DateFromTime t) = Day t.
Proof.
  destruct (calendar_fields t) as [Hm _].
  rewrite day_number_in_range by exact Hm.
  unfold DateFromTime, DayWithinYear.
  fold (InLeapYear t). unfold InLeapYear. lia.
Qed.

(** A time value is determined by its year, month, date and time of day. *)
Lemma first_of_month_unique (t u : Z) :
  YearFromTime t = YearFromTime u -> MonthFromTime t = MonthFromTime u ->
  DateFromTime t = DateFromTime u -> TimeWithinDay t = 0 ->
  TimeWithinDay u = 0 -> t = u.
Proof.
  intros Hy Hm Hd Ht Hu.
  pose proof (day_number_inverse t) as It.
  pose proof (day_number_inverse u) as Iu.
  rewrite Hy, Hm, Hd, Iu in It.
  unfold Day, TimeWithinDay, msPerDay in *.
  Z.to_euclidean_division_equations; lia.
Qed.

(** Up to 2^53 in magnitude an integer is its own Number. *)
Lemma binary64_exact (z : Z) :
  Z.abs z <= 9007199254740992 -> binary64 z = Finite z.
Proof.
  intros H. unfold binary64.
  destruct (Z.leb_spec (Z.abs z) 9007199254740992); [reflexivity | lia].
Qed.

Lemma full_year_bounds (y : Z) :
  (full_year y = y \/ 1900 <= full_year y <= 1999 /\ 0 <= y <= 99).
Proof.
  unfold full_year.
  destruct (Z.leb_spec 0 y), (Z.leb_spec y 99); cbn [andb]; lia.
Qed.

(** Where the first of the month and the day asked for both have a time
    value, no step of [Date.UTC] rounds, and the result is the exact one. *)
Lemma UTC_exact (y m dt : Z) :
  Z.abs y <= 4503599627370496 -> Z.abs m <= 4503599627370496 ->
  Z.abs (day_number (full_year y) m 1 * msPerDay) <= 8640000000000000 ->
  Z.abs (day_number (full_year y) m dt * msPerDay) <= 8640000000000000 ->
  UTC (Finite y) (Finite m) (Finite dt)
  = Some (day_number (full_year y) m dt * msPerDay).
Proof.
  intros Hy Hm H1 H2.
  pose proof (full_year_bounds y) as Hf.
  pose proof (day_number_rollover (full_year y) m 1) as R1.
  pose proof (day_number_rollover (full_year y) m dt) as R2.
  set (d1 := day_number (full_year y + m / 12) (m mod 12) 1) in *.
  unfold UTC, MakeFullYear, MakeDay.
  rewrite (binary64_exact (m / 12))
    by (Z.to_euclidean_division_equations; lia).
  rewrite (binary64_exact (full_year y + m / 12))
    by (Z.to_euclidean_division_equations; lia).
  cbv zeta. fold d1.
  assert (Hd : Day (msPerDay * d1) = d1).
  { unfold Day, msPerDay. rewrite Z.mul_comm. apply Z.div_mul. lia. }
  rewrite Hd.
  destruct (Z.ltb_spec 8640000000000000 (Z.abs (msPerDay * d1))) as [Hout|_];
    [unfold msPerDay in *; lia|].
  rewrite (binary64_exact (d1 + dt)) by (unfold msPerDay in *; lia).
  rewrite (binary64_exact (d1 + dt - 1)) by (unfold msPerDay in *; lia).
  unfold MakeDate.
  rewrite (binary64_exact ((d1 + dt - 1) * msPerDay))
    by (unfold msPerDay in *; lia).
  change (MakeTime 0 0 0 0) with 0.
  rewrite (binary64_exact ((d1 + dt - 1) * msPerDay + 0))
    by (unfold msPerDay in *; lia).
  unfold TimeClip.
  destruct (Z.ltb_spec 8640000000000000 (Z.abs ((d1 + dt - 1) * msPerDay + 0)))
    as [Hout|_]; [unfold msPerDay in *; lia|].
  f_equal. rewrite R2. lia.
Qed.

(** The segments read and the two time values in range: [parseUKDate]
    returns the exact date. *)
Lemma parseUKDate_exact (s a b c : jsstring) (day month year : Z) :
  split 47 s = [a; b; c] ->
  parseInt10 a = Some day -> parseInt10 b = Some month ->
  parseInt10 c = Some year ->
  Z.abs day <= 1000000000 -> Z.abs month <= 1000000 -> Z.abs year <= 1000000 ->
  Z.abs (day_number (full_year year) (month - 1) 1 * msPerDay)
    <= 8640000000000000 ->
  Z.abs (day_number (full_year year) (month - 1) day * msPerDay)
    <= 8640000000000000 ->
  parseUKDate s = Some (day_number (full_year year) (month - 1) day * msPerDay).
Proof.
  intros Hs Ha Hb Hc Bd Bm By H1 H2.
  unfold parseUKDate, parseInt. rewrite Hs, Ha, Hb, Hc. cbn [option_map].
  rewrite (binary64_exact day), (binary64_exact month), (binary64_exact year)
    by lia.
  cbn [minus_one]. rewrite (binary64_exact (month - 1)) by lia.
  rewrite (UTC_exact year (month - 1) day) by (assumption || lia).
  cbn [new_Date]. unfold TimeClip.
  destruct (Z.ltb_spec 8640000000000000
              (Z.abs (day_number (full_year year) (month - 1) day * msPerDay)))
    as [Hout|_]; [lia | reflexivity].
Qed.

(** Years within 210000 of the epoch year 1970 lie well inside the range of
    Date, with ten million days to spare on either side. *)
Lemma day_number_bounds (ym mn : Z) :
  -210000 <= ym <= 212000 -> 0 <= mn <= 11 ->
  -80000000 <= day_number ym mn 1 <= 80000000.
Proof.
  intros Hy Hmn. rewrite (day_number_in_range ym mn 1 Hmn).
  pose proof (monthStart_bounds (if DaysInYear ym =? 366 then 1 else 0) mn Hmn) as Hb.
  assert (Hl : (if DaysInYear ym =? 366 then 1 else 0) = 0
               \/ (if DaysInYear ym =? 366 then 1 else 0) = 1)
    by (destruct (DaysInYear ym =? 366); auto).
  specialize (Hb Hl). unfold DayFromYear.
  Z.to_euclidean_division_equations; lia.
Qed.

(** C10.  [parseUKDate] validates no range of day or month.  Take an input
    of three segments that read as the integers [day], [month] and [year].
    First: if the day is at most ten million in magnitude, the month at most
    a hundred thousand and the year at most two hundred thousand, the result
    is never [null]; it is the Date [day - 1] days after midnight UTC of the
    first of the normalised month, that is month [(month - 1) mod 12]
    (0 = January) of year [year + floor((month - 1) / 12)], a year from 0
    to 99 counting as 1900 to 1999.  Second, up to the ends of the range of
    Date (8.64e15 ms either side of the epoch): with the day at most a
    thousand million in magnitude, month and year at most a million, the
    same Date is returned whenever the first of the normalised month and the
    day asked for both have a time value.  Within these bounds every Number
    involved is an exact integer.  So components out of their calendar range
    roll over, and [parseUKDate("32/01/2026")] is 2026-02-01T00:00:00Z, not
    [null]. *)
Theorem parseUKDate_rolls_over_instead_of_rejecting :
  (forall (s a b c : jsstring) (day month year : Z),
      split 47 s = [a; b; c] ->
      parseInt10 a = Some day -> parseInt10 b = Some month ->
      parseInt10 c = Some year ->
      Z.abs day <= 10000000 -> Z.abs month <= 100000 -> Z.abs year <= 200000 ->
      exists first : Z,
        (YearFromTime first, MonthFromTime first, DateFromTime first,
         TimeWithinDay first)
        = (full_year year + (month - 1) / 12, (month - 1) mod 12, 1, 0) /\
        parseUKDate s = Some (first + (day - 1) * msPerDay)) /\
  (forall (s a b c : jsstring) (day month year first : Z),
      split 47 s = [a; b; c] ->
      parseInt10 a = Some day -> parseInt10 b = Some month ->
      parseInt10 c = Some year ->
      Z.abs day <= 1000000000 -> Z.abs month <= 1000000 ->
      Z.abs year <= 1000000 ->
      (YearFromTime first, MonthFromTime first, DateFromTime first,
       TimeWithinDay first)
      = (full_year year + (month - 1) / 12, (month - 1) mod 12, 1, 0) ->
      Z.abs first <= 8640000000000000 ->
      Z.abs (first + (day - 1) * msPerDay) <= 8640000000000000 ->
      parseUKDate s = Some (first + (day - 1) * msPerDay)) /\
  parseUKDate (lit "32/01/2026") = Some 1769904000000 /\
  (YearFromTime 1769904000000, MonthFromTime 1769904000000,
   DateFromTime 1769904000000, TimeWithinDay 1769904000000) = (2026, 1, 1, 0).
Proof.
  repeat apply conj.
  - intros s a b c day month year Hs Ha Hb Hc Bd Bm By.
    set (ym := full_year year + (month - 1) / 12).
    set (mn := (month - 1) mod 12).
    assert (Hmn : 0 <= mn <= 11) by (unfold mn; Z.to_euclidean_division_equations; lia).
    assert (Hym : -210000 <= ym <= 212000).
    { unfold ym. pose proof (full_year_bounds year).
      Z.to_euclidean_division_equations; lia. }
    pose proof (day_number_bounds ym mn Hym Hmn) as Hd1.
    pose proof (day_number_first_of_month ym mn Hmn) as (Fy & Fm & Fd).
    pose proof (day_number_rollover (full_year year) (month - 1) 1) as R1.
    pose proof (day_number_rollover (full_year year) (month - 1) day) as R2.
    fold ym mn in R1, R2.
    exists (day_number ym mn 1 * msPerDay). split.
    + rewrite Fy, Fm, Fd. unfold TimeWithinDay.
      rewrite Z.mod_mul by (unfold msPerDay; lia). reflexivity.
    + rewrite (parseUKDate_exact s a b c day month year Hs Ha Hb Hc)
        by (unfold msPerDay; lia).
      f_equal. rewrite R2. lia.
  - intros s a b c day month year first Hs Ha Hb Hc Bd Bm By Hf H1 H2.
    set (ym := full_year year + (month - 1) / 12) in *.
    set (mn := (month - 1) mod 12) in *.
    assert (Hmn : 0 <= mn <= 11) by (unfold mn; Z.to_euclidean_division_equations; lia).
    pose proof (day_number_first_of_month ym mn Hmn) as (Fy & Fm & Fd).
    pose proof (day_number_rollover (full_year year) (month - 1) 1) as R1.
    pose proof (day_number_rollover (full_year year) (month - 1) day) as R2.
    fold ym mn in R1, R2.
    assert (E : first = day_number ym mn 1 * msPerDay).
    { injection Hf as Ey Em Ed Ew.
      apply (first_of_month_unique first (day_number ym mn 1 * msPerDay));
        [congruence | congruence | congruence | exact Ew |].
      unfold TimeWithinDay. apply Z.mod_mul. unfold msPerDay; lia. }
    rewrite (parseUKDate_exact s a b c day month year Hs Ha Hb Hc)
      by (rewrite ?R1, ?R2; unfold msPerDay in *; lia).
    f_equal. rewrite R2. lia.
  - vm_compute. reflexivity.
  - vm_compute. reflexivity.
Qed.

(** The 31st of February 2024 (a leap year) is thirty days after the first
    of February 2024, which is the 2nd of March 2024; month 13 of 2025 is
    January 2026. *)
Lemma parseUKDate_rollover_witness :
  (exists first : Z,
      (YearFromTime first, MonthFromTime first, DateFromTime first,
       TimeWithinDay first) = (2024, 1, 1, 0) /\
      parseUKDate (lit "31/02/2024") = Some (first + 30 * msPerDay)) /\
  parseUKDate (lit "15/13/2025") = Some (1767225600000 + 14 * msPerDay).
Proof.
  destruct parseUKDate_rolls_over_instead_of_rejecting as (H & G & _).
  split.
  - exact (H (lit "31/02/2024") (lit "31") (lit "02") (lit "2024") 31 2 2024
             eq_refl eq_refl eq_refl eq_refl
             ltac:(vm_compute; discriminate) ltac:(vm_compute; discriminate)
             ltac:(vm_compute; discriminate)).
  - exact (G (lit "15/13/2025") (lit "15") (lit "13") (lit "2025") 15 13 2025
             1767225600000
             eq_refl eq_refl eq_refl eq_refl
             ltac:(vm_compute; discriminate) ltac:(vm_compute; discriminate)
             ltac:(vm_compute; discriminate) eq_refl
             ltac:(vm_compute; discriminate) ltac:(vm_compute; discriminate)).
Defined.

End FormatProps.


(** ** Decimal numerals: [String(n)] and [parseInt] *)

Module DecimalFacts.
Import JS FormatDates Predicates.
Local Open Scope Z_scope.

Lemma digits_value_eq ds : digits_value ds = fold_left step ds 0.
Proof. reflexivity. Qed.

Lemma uint_digits (d : Decimal.uint) :
  forallb is_digit (lit (NilEmpty.string_of_uint d)) = true.
Proof. induction d; cbn; auto. Qed.

Lemma fold_uint_acc (d : Decimal.uint) (acc : positive) :
  fold_left step (lit (NilEmpty.string_of_uint d)) (Zpos acc)
  = Zpos (Pos.of_uint_acc d acc).
Proof.
  revert acc. induction d; intros acc; cbn [NilEmpty.string_of_uint lit fold_left Pos.of_uint_acc];
    [reflexivity | ..]; rewrite <- IHd; f_equal; unfold step; simpl N_of_ascii; lia.
Qed.

Lemma fold_uint (d : Decimal.uint) :
  fold_left step (lit (NilEmpty.string_of_uint d)) 0 = Z.of_N (Pos.of_uint d).
Proof.
  induction d; cbn [NilEmpty.string_of_uint lit fold_left Pos.of_uint];
    [reflexivity | exact IHd | ..];
    cbn [Z.of_N]; rewrite <- fold_uint_acc; f_equal.
Qed.

Lemma is_digit_range c : is_digit c = true ->
  (c = 48 \/ c = 49 \/ c = 50 \/ c = 51 \/ c = 52 \/ c = 53 \/ c = 54 \/ c = 55 \/ c = 56 \/ c = 57)%N.
Proof.
  unfold is_digit. rewrite andb_true_iff, !N.leb_le. lia.
Qed.

Lemma digit_not_space c : is_digit c = true -> is_white_space c = false.
Proof.
  intros H. apply is_digit_range in H.
  repeat (destruct H as [-> | H]; [reflexivity|]). now subst.
Qed.

Lemma digits_prefix_all ds : forallb is_digit ds = true -> digits_prefix ds = ds.
Proof.
  induction ds as [|c ds IH]; cbn; [reflexivity|].
  rewrite andb_true_iff. intros [-> H]. now rewrite IH.
Qed.

Lemma Z_toString_cases (z : Z) :
  match z with
  | 0 => Z_toString z = [48%N]
  | Zpos p => Z_toString z = lit (NilEmpty.string_of_uint (Pos.to_uint p))
              /\ Pos.to_uint p <> Decimal.Nil
  | Zneg p => Z_toString z = 45%N :: lit (NilEmpty.string_of_uint (Pos.to_uint p))
              /\ Pos.to_uint p <> Decimal.Nil
  end.
Proof.
  destruct z as [|p|p]; [reflexivity| |];
    (split; [|apply DecimalPos.Unsigned.to_uint_nonnil]);
    unfold Z_toString, Z.to_int, NilZero.string_of_int, NilZero.string_of_uint;
    pose proof (DecimalPos.Unsigned.to_uint_nonnil p) as Hn;
    destruct (Pos.to_uint p); try reflexivity; contradiction.
Qed.

Lemma parseInt10_digits (ds : jsstring) :
  ds <> [] -> forallb is_digit ds = true ->
  parseInt10 ds = Some (digits_value ds).
Proof.
  intros Hne Hd. unfold parseInt10.
  destruct ds as [|c r]; [contradiction|].
  pose proof Hd as Hd'. cbn [forallb] in Hd'. apply andb_true_iff in Hd' as [Hc _].
  cbn [trimStart]. rewrite (digit_not_space c Hc).
  pose proof (is_digit_range c Hc) as Hr.
  assert (N.eqb c 45 = false /\ N.eqb c 43 = false) as [-> ->].
  { rewrite !N.eqb_neq. lia. }
  rewrite (digits_prefix_all _ Hd). rewrite Z.mul_1_l. reflexivity.
Qed.

Lemma lit_uint_nonnil (d : Decimal.uint) : d <> Decimal.Nil -> lit (NilEmpty.string_of_uint d) <> [].
Proof. destruct d; cbn; congruence. Qed.

Lemma parseInt10_Z_toString (z : Z) : parseInt10 (Z_toString z) = Some z.
Proof.
  pose proof (Z_toString_cases z) as H. destruct z as [|p|p].
  - rewrite H. reflexivity.
  - destruct H as [-> Hn].
    rewrite parseInt10_digits by (auto using lit_uint_nonnil, uint_digits).
    unfold digits_value. fold step. rewrite fold_uint, DecimalPos.Unsigned.of_to. reflexivity.
  - destruct H as [-> Hn].
    unfold parseInt10. cbn [trimStart]. change (is_white_space 45) with false.
    cbn [N.eqb Pos.eqb]. 
    rewrite (digits_prefix_all _ (uint_digits _)).
    pose proof (lit_uint_nonnil _ Hn) as Hne.
    destruct (lit (NilEmpty.string_of_uint (Pos.to_uint p))) as [|c r] eqn:E; [contradiction|].
    rewrite <- E. unfold digits_value. fold step. rewrite fold_uint, DecimalPos.Unsigned.of_to. reflexivity.
Qed.

Lemma split_no_sep (sep : N) (a : jsstring) :
  forallb (fun c => negb (N.eqb c sep)) a = true -> split sep a = [a].
Proof.
  induction a as [|c a IH]; cbn; [reflexivity|].
  rewrite andb_true_iff, negb_true_iff. intros [-> H]. now rewrite IH.
Qed.

Lemma split_app (sep : N) (a rest : jsstring) :
  forallb (fun c => negb (N.eqb c sep)) a = true ->
  split sep (a ++ [sep] ++ rest) = a :: split sep rest.
Proof.
  change ([sep] ++ rest) with (sep :: rest).
  induction a as [|c a IH]; cbn.
  - now rewrite N.eqb_refl.
  - rewrite andb_true_iff, negb_true_iff. intros [-> H]. now rewrite IH.
Qed.

Lemma digits_no_slash ds :
  forallb is_digit ds = true -> forallb (fun c => negb (N.eqb c 47)) ds = true.
Proof.
  induction ds as [|c ds IH]; cbn; [reflexivity|].
  rewrite !andb_true_iff. intros [Hc H]. split; [|auto].
  apply is_digit_range in Hc. rewrite negb_true_iff, N.eqb_neq. lia.
Qed.

Lemma Z_toString_no_slash z :
  forallb (fun c => negb (N.eqb c 47)) (Z_toString z) = true.
Proof.
  pose proof (Z_toString_cases z) as H. destruct z; [now rewrite H | |];
    destruct H as [-> _]; cbn [forallb]; rewrite ?digits_no_slash; auto using uint_digits.
Qed.

Lemma Z_toString_digits z : 0 <= z ->
  forallb is_digit (Z_toString z) = true /\ Z_toString z <> [].
Proof.
  intros Hz. pose proof (Z_toString_cases z) as H. destruct z; [now rewrite H | | lia].
  destruct H as [-> Hn]. split; [apply uint_digits | now apply lit_uint_nonnil].
Qed.

Lemma forallb_repeat {A} (f : A -> bool) x n : f x = true -> forallb f (repeat x n) = true.
Proof. intros H. induction n; cbn; [reflexivity|]. now rewrite H. Qed.

Lemma fold_zeros n ds : fold_left step (repeat 48%N n ++ ds) 0 = fold_left step ds 0.
Proof. induction n; cbn; auto. Qed.

Lemma padStart_digits n z : 0 <= z ->
  forallb is_digit (padStart n 48 (Z_toString z)) = true /\
  parseInt10 (padStart n 48 (Z_toString z)) = Some z.
Proof.
  intros Hz. destruct (Z_toString_digits z Hz) as [Hd Hne].
  assert (Hall : forallb is_digit (padStart n 48 (Z_toString z)) = true).
  { unfold padStart. rewrite forallb_app, Hd, forallb_repeat; reflexivity. }
  split; [exact Hall|].
  rewrite parseInt10_digits; [| |exact Hall].
  - unfold digits_value. fold step. unfold padStart. rewrite fold_zeros.
    pose proof (parseInt10_Z_toString z) as P.
    rewrite parseInt10_digits in P by assumption. exact P.
  - unfold padStart. destruct (Z_toString z); [contradiction|].
    destruct (repeat _ _); discriminate.
Qed.

Lemma padStart_length_2 z : 0 <= z <= 99 ->
  List.length (padStart 2 48 (Z_toString z)) = 2%nat.
Proof.
  intros Hz.
  assert (Hc : exists n, z = Z.of_nat n /\ (n < 100)%nat) by (exists (Z.to_nat z); lia).
  destruct Hc as (n & -> & Hn).
  do 100 (destruct n as [|n]; [reflexivity|]). lia.
Qed.

Lemma trimStart_app (s rest : jsstring) :
  trimStart s <> [] -> trimStart (s ++ rest) = trimStart s ++ rest.
Proof.
  induction s as [|c s IH]; cbn; [congruence|].
  destruct (is_white_space c); [exact IH | reflexivity].
Qed.

Lemma digits_prefix_app (ds : jsstring) (c : N) (rest : jsstring) :
  is_digit c = false -> digits_prefix (ds ++ c :: rest) = digits_prefix ds.
Proof.
  intros Hc. induction ds as [|x ds IH]; cbn; [now rewrite Hc|].
  destruct (is_digit x); [now rewrite IH | reflexivity].
Qed.

Lemma parseInt10_junk (s : jsstring) (v : Z) (c : N) (rest : jsstring) :
  parseInt10 s = Some v -> is_digit c = false ->
  parseInt10 (s ++ c :: rest) = Some v.
Proof.
  unfold parseInt10. intros H Hc.
  assert (Hne : trimStart s <> []).
  { intros E. rewrite E in H. discriminate. }
  rewrite (trimStart_app s (c :: rest) Hne).
  destruct (trimStart s) as [|x r] eqn:E; [contradiction|].
  change ((x :: r) ++ c :: rest) with (x :: (r ++ c :: rest)).
  cbn beta iota in *.
  destruct (N.eqb x 45) eqn:E45; [|destruct (N.eqb x 43) eqn:E43];
    cbn beta iota zeta in *.
  - destruct (digits_prefix r) eqn:D; [discriminate|].
    rewrite (digits_prefix_app r c rest Hc), D. exact H.
  - destruct (digits_prefix r) eqn:D; [discriminate|].
    rewrite (digits_prefix_app r c rest Hc), D. exact H.
  - change (x :: (r ++ c :: rest)) with ((x :: r) ++ c :: rest).
    rewrite (digits_prefix_app (x :: r) c rest Hc). exact H.
Qed.

Lemma parseInt10_junk_suffix s v j :
  parseInt10 s = Some v -> junk j -> parseInt10 (s ++ j) = Some v.
Proof.
  intros H Hj. destruct j as [|c rest]; [now rewrite app_nil_r|].
  now apply parseInt10_junk.
Qed.

End DecimalFacts.

(** ** Calendar fields of a time value *)

Module DateFacts.
Import JS ESDate FormatProps.
Local Open Scope Z_scope.

Lemma new_Date_range (tv : option Z) (t : Z) :
  new_Date tv = Some t -> Z.abs t <= 8640000000000000.
Proof.
  unfold new_Date, TimeClip. destruct tv as [x|]; [|discriminate].
  destruct (Z.ltb_spec 8640000000000000 (Z.abs x)); [discriminate|].
  intros [= <-]. assumption.
Qed.

Lemma TimeClip_in_range (t : Z) :
  Z.abs t <= 8640000000000000 -> TimeClip t = Some t.
Proof.
  intros H. unfold TimeClip.
  destruct (Z.ltb_spec 8640000000000000 (Z.abs t)); [lia|reflexivity].
Qed.

End DateFacts.

(** ** [formatCurrency] *)

Module CurrencyProps.
Import JS FormatDates FormatNumbers Amounts Predicates DecimalFacts.

Lemma mod3_cases (n : nat) :
  (n mod 3 = 0 \/ n mod 3 = 1 \/ n mod 3 = 2)%nat.
Proof. pose proof (Nat.mod_upper_bound n 3). lia. Qed.

Lemma mod3_succ (n : nat) : (S n mod 3 = (n mod 3 + 1) mod 3)%nat.
Proof.
  replace (S n) with (n + 1)%nat by lia.
  rewrite Nat.Div0.add_mod. reflexivity.
Qed.

(** Three more digits in front of whole groups. *)
Lemma group3_triple (a b c : N) (r : jsstring) :
  (List.length r mod 3 = 0)%nat ->
  group3 (a :: b :: c :: r)
  = a :: b :: c :: match r with [] => [] | _ :: _ => 44%N :: group3 r end.
Proof.
  intros H.
  assert (H1 : (S (List.length r) mod 3 = 1)%nat)
    by (rewrite mod3_succ, H; reflexivity).
  assert (H2 : (S (S (List.length r)) mod 3 = 2)%nat)
    by (rewrite mod3_succ, H1; reflexivity).
  cbn [group3 List.length]. rewrite H2, H1, H.
  cbn [Nat.eqb andb negb]. rewrite ?andb_false_r, ?andb_true_r.
  destruct r; reflexivity.
Qed.

(** One to three digits in front of whole groups. *)
Lemma group3_head (h r : jsstring) :
  (1 <= List.length h <= 3)%nat -> (List.length r mod 3 = 0)%nat ->
  group3 (h ++ r)
  = h ++ match r with [] => [] | _ :: _ => 44%N :: group3 r end.
Proof.
  intros Hh H.
  assert (H1 : (S (List.length r) mod 3 = 1)%nat)
    by (rewrite mod3_succ, H; reflexivity).
  assert (H2 : (S (S (List.length r)) mod 3 = 2)%nat)
    by (rewrite mod3_succ, H1; reflexivity).
  destruct h as [|a [|b [|c [|d h]]]]; cbn [List.length] in Hh; try lia;
    cbn [app group3 List.length]; rewrite ?H2, ?H1, ?H;
    cbn [Nat.eqb andb negb]; rewrite ?andb_false_r, ?andb_true_r;
    destruct r; reflexivity.
Qed.

Lemma comma_groups_group3 (m : nat) :
  forall r : jsstring,
    List.length r = (3 * m)%nat -> forallb is_digit r = true ->
    comma_groups match r with [] => [] | _ :: _ => 44%N :: group3 r end = true.
Proof.
  induction m as [|m IH]; intros r Hl Hd.
  - destruct r; [reflexivity | discriminate].
  - destruct r as [|a [|b [|c r]]]; cbn [List.length] in Hl; try lia.
    cbn [forallb] in Hd.
    apply andb_true_iff in Hd as [Ha Hd]. apply andb_true_iff in Hd as [Hb Hd].
    apply andb_true_iff in Hd as [Hc Hd].
    assert (Hr : List.length r = (3 * m)%nat) by lia.
    rewrite group3_triple
      by (rewrite Hr, Nat.mul_comm; apply Nat.Div0.mod_mul).
    cbn [comma_groups]. rewrite Ha, Hb, Hc. exact (IH r Hr Hd).
Qed.

Lemma group3_keeps_the_digits (ds : jsstring) :
  forallb is_digit ds = true -> filter is_digit (group3 ds) = ds.
Proof.
  induction ds as [|d r IH]; [reflexivity|].
  cbn [forallb group3]. intros H. apply andb_true_iff in H as [Hd Hr].
  destruct (negb _ && _); cbn [filter]; rewrite Hd;
    change (is_digit 44) with false; cbn iota; now rewrite (IH Hr).
Qed.

Lemma group3_no_stop (ds : jsstring) :
  forallb is_digit ds = true ->
  forallb (fun c => negb (N.eqb c 46)) (group3 ds) = true.
Proof.
  induction ds as [|d r IH]; [reflexivity|].
  cbn [forallb group3]. intros H. apply andb_true_iff in H as [Hd Hr].
  assert (Hn : negb (N.eqb d 46) = true).
  { destruct (N.eqb_spec d 46) as [->|]; [discriminate Hd | reflexivity]. }
  destruct (negb _ && _); cbn [forallb]; rewrite Hn, (IH Hr); reflexivity.
Qed.

Lemma digits_no_stop (ds : jsstring) :
  forallb is_digit ds = true ->
  forallb (fun c => negb (N.eqb c 46)) ds = true.
Proof.
  induction ds as [|d r IH]; [reflexivity|].
  cbn [forallb]. intros H. apply andb_true_iff in H as [Hd Hr].
  destruct (N.eqb_spec d 46) as [->|]; [discriminate Hd|].
  now rewrite (IH Hr).
Qed.

(** The digits of a number, grouped, read as an integer with thousands
    separators. *)
Lemma uk_integer_group3 (ds : jsstring) :
  ds <> [] -> forallb is_digit ds = true ->
  match ds with c :: _ :: _ => negb (N.eqb c 48) | _ => true end = true ->
  uk_integer (group3 ds) = true.
Proof.
  intros Hne Hd Hz.
  set (n := List.length ds).
  assert (Hn : (1 <= n)%nat) by (unfold n; destruct ds; [congruence | cbn; lia]).
  set (k := S ((n - 1) mod 3)).
  assert (Hk : (1 <= k <= 3)%nat)
    by (unfold k; pose proof (Nat.mod_upper_bound (n - 1) 3); lia).
  assert (Hkn : (k <= n)%nat)
    by (unfold k; pose proof (Nat.Div0.mod_le (n - 1) 3); lia).
  assert (Hsplit : ds = firstn k ds ++ skipn k ds) by (symmetry; apply firstn_skipn).
  set (h := firstn k ds) in *. set (r := skipn k ds) in *.
  assert (Hh : List.length h = k) by (unfold h; rewrite length_firstn; fold n; lia).
  assert (Hr : List.length r = (3 * ((n - 1) / 3))%nat).
  { unfold r. rewrite length_skipn. fold n. unfold k.
    pose proof (Nat.div_mod_eq (n - 1) 3). lia. }
  assert (Hdh : forallb is_digit h = true /\ forallb is_digit r = true).
  { rewrite Hsplit, forallb_app in Hd. now apply andb_true_iff in Hd. }
  destruct Hdh as [Hdh Hdr].
  assert (G : group3 ds
              = h ++ match r with [] => [] | _ :: _ => 44%N :: group3 r end).
  { rewrite Hsplit at 1. apply group3_head; [lia|].
    rewrite Hr, Nat.mul_comm. apply Nat.Div0.mod_mul. }
  assert (P : digits_prefix (group3 ds) = h).
  { rewrite G. destruct r as [|x r'].
    - rewrite app_nil_r. now apply digits_prefix_all.
    - rewrite digits_prefix_app by reflexivity. now apply digits_prefix_all. }
  unfold uk_integer. rewrite P, Hh.
  assert (Sk : skipn k (group3 ds)
              = match r with [] => [] | _ :: _ => 44%N :: group3 r end).
  { rewrite G, <- Hh. rewrite skipn_app, Nat.sub_diag, skipn_all. reflexivity. }
  rewrite Sk.
  destruct (Nat.leb_spec 1 k); [|lia]. destruct (Nat.leb_spec k 3); [|lia].
  cbn [andb]. apply andb_true_iff.
  split; [exact (comma_groups_group3 ((n - 1) / 3) r Hr Hdr)|].
  destruct ds as [|c [|c' ds']]; [congruence | reflexivity |].
  assert (E : exists x rest, group3 (c :: c' :: ds') = c :: x :: rest).
  { cbn [group3].
    destruct (negb (Nat.eqb (List.length (c' :: ds')) 0) && _); [eauto|].
    destruct (negb (Nat.eqb (List.length ds') 0) && _); eauto. }
  destruct E as (x & rest & ->). exact Hz.
Qed.

(** The decimal numeral of a number has no leading zero, unless it is 0. *)
Lemma to_uint_head (p : positive) :
  match Pos.to_uint p with Decimal.D0 _ => False | Decimal.Nil => False | _ => True end.
Proof.
  pose proof (DecimalPos.Unsigned.to_of (Pos.to_uint p)) as H.
  rewrite DecimalPos.Unsigned.of_to in H. cbn [N.to_uint] in H.
  pose proof (Stdlib.Numbers.DecimalFacts.nzhead_nonzero (Pos.to_uint p)) as Hnz.
  unfold Decimal.unorm in H.
  destruct (Decimal.nzhead (Pos.to_uint p)) eqn:E;
    try (rewrite H; exact I).
  - (* the numeral would be zero *)
    pose proof (DecimalPos.Unsigned.of_to p) as O. rewrite H in O. discriminate O.
  - exfalso. exact (Hnz _ eq_refl).
Qed.

Lemma Z_toString_no_leading_zero (n : N) :
  match Z_toString (Z.of_N n) with
  | c :: _ :: _ => negb (N.eqb c 48)
  | _ => true
  end = true.
Proof.
  destruct n as [|p]; [reflexivity|].
  pose proof (Z_toString_cases (Zpos p)) as [E _]. cbn [Z.of_N]. rewrite E.
  pose proof (to_uint_head p) as H.
  destruct (Pos.to_uint p); try contradiction;
    cbn; match goal with |- context [lit ?s] => destruct (lit s) end; reflexivity.
Qed.

Lemma digits_value_Z_toString (n : N) :
  digits_value (Z_toString (Z.of_N n)) = Z.of_N n.
Proof.
  destruct (Z_toString_digits (Z.of_N n) (N2Z.is_nonneg _)) as [Hd Hne].
  pose proof (parseInt10_Z_toString (Z.of_N n)) as P.
  rewrite (parseInt10_digits _ Hne Hd) in P. now injection P.
Qed.

Lemma digits_value_padStart (n : N) :
  digits_value (padStart 2 48 (Z_toString (Z.of_N n))) = Z.of_N n.
Proof.
  destruct (padStart_digits 2 (Z.of_N n) (N2Z.is_nonneg _)) as [Hd P].
  rewrite parseInt10_digits in P; [now injection P | | exact Hd].
  unfold padStart. destruct (Z_toString_digits (Z.of_N n) (N2Z.is_nonneg _)) as [_ Hne].
  intros E. apply app_eq_nil in E as [_ E]. contradiction.
Qed.

Lemma pence_range (n : N) : (0 <= Z.of_N (n mod 100) <= 99)%Z.
Proof.
  pose proof (N.mod_upper_bound n 100 ltac:(discriminate)) as H.
  split; [apply N2Z.is_nonneg|].
  apply N2Z.inj_lt in H. change (Z.of_N 100) with 100%Z in H. lia.
Qed.

(** [hundredths] is the nearest number of hundredths, a half going up. *)
Lemma hundredths_nearest (p : N) (q : positive) :
  (- Zpos q <= 2 * (100 * Z.of_N p - Z.of_N (hundredths p q) * Zpos q) < Zpos q)%Z.
Proof.
  unfold hundredths.
  pose proof (N.div_mod (200 * p + N.pos q) (2 * N.pos q) ltac:(lia)) as E.
  pose proof (N.mod_upper_bound (200 * p + N.pos q) (2 * N.pos q) ltac:(lia)) as B.
  set (n := ((200 * p + N.pos q) / (2 * N.pos q))%N) in *.
  set (m := ((200 * p + N.pos q) mod (2 * N.pos q))%N) in *.
  nia.
Qed.

Ltac split_is H :=
  match goal with
  | |- context [split 46 ?x] =>
      let E := fresh in
      assert (E : split 46 x = _) by exact H; rewrite E; clear E
  end.

Section Engine.
Variable Number_of_decimal : bool -> Z -> Z -> float.

(** A finite Number is shown as an amount: the pound sign, then the Number
    to the nearest hundredth with thousands separators. *)
Lemma formatCurrency_finite (negative : bool) (p : N) (q : positive) :
  uk_amount (formatCurrency Number_of_decimal (Num (Fraction negative p q)))
  = Some (negative, Z.of_N (hundredths p q)).
Proof.
  set (n := hundredths p q).
  set (int := Z_toString (Z.of_N (n / 100))).
  set (frac := padStart 2 48 (Z_toString (Z.of_N (n mod 100)))).
  destruct (Z_toString_digits (Z.of_N (n / 100)) (N2Z.is_nonneg _)) as [Hdi Hne].
  fold int in Hdi, Hne.
  destruct (padStart_digits 2 (Z.of_N (n mod 100)) (N2Z.is_nonneg _)) as [Hdf _].
  fold frac in Hdf.
  assert (Hlf : List.length frac = 2%nat).
  { apply padStart_length_2, pence_range. }
  assert (Hu : uk_integer (group3 int) = true).
  { apply uk_integer_group3; [exact Hne | exact Hdi |].
    apply Z_toString_no_leading_zero. }
  assert (Hs : split 46 (group3 int ++ 46%N :: frac) = [group3 int; frac]).
  { change (46%N :: frac) with ([46%N] ++ frac). rewrite split_app by (now apply group3_no_stop).
    rewrite split_no_sep by (now apply digits_no_stop). reflexivity. }
  assert (Hv : (digits_value (filter is_digit (group3 int)) * 100
                + digits_value frac = Z.of_N n)%Z).
  { rewrite group3_keeps_the_digits by exact Hdi.
    unfold int, frac. rewrite digits_value_Z_toString, digits_value_padStart.
    pose proof (N.div_mod n 100 ltac:(lia)). lia. }
  assert (Hg : match group3 int with
               | m :: u => if N.eqb m 45 then true else false
               | [] => false
               end = false).
  { destruct int as [|c int']; [congruence|]. cbn [forallb] in Hdi.
    apply andb_true_iff in Hdi as [Hc _].
    cbn [group3]. destruct (negb _ && _);
      (destruct (N.eqb_spec c 45) as [->|]; [discriminate Hc | reflexivity]). }
  unfold formatCurrency, isNaN, toLocaleString_en_GB_2. fold n int frac.
  cbn [uk_amount]. change (N.eqb 163 163) with true. cbn iota.
  destruct negative; cbn [minus_sign app].
  - change (N.eqb 45 45) with true. cbn iota.
    split_is Hs. rewrite Hu, Hlf, Hdf, Hv. reflexivity.
  - destruct (group3 int) as [|m u] eqn:Eg.
    + destruct int; [congruence|]. cbn [group3] in Eg.
      destruct (negb _ && _); discriminate Eg.
    + cbn [app]. destruct (N.eqb m 45); [discriminate Hg|].
      change (m :: u ++ 46%N :: frac) with ((m :: u) ++ 46%N :: frac).
      split_is Hs. rewrite Hu, Hlf, Hdf, Hv. reflexivity.
Qed.

(** What does not start as a decimal literal gives NaN. *)
Lemma parseFloat_nan (s : jsstring) :
  numeric_start (snd (read_sign (trimStart s))) = false ->
  parseFloat Number_of_decimal s = NaN.
Proof.
  unfold parseFloat. destruct (read_sign (trimStart s)) as [negative u].
  cbn [snd]. unfold numeric_start. intros H.
  apply orb_false_iff in H as [Hi H]. rewrite Hi.
  destruct u as [|c r]; [reflexivity|].
  apply orb_false_iff in H as [Hc H].
  cbn [digits_prefix]. rewrite Hc. cbn [List.length skipn].
  destruct (N.eqb c 46); [|reflexivity].
  cbn [andb] in H.
  destruct r as [|d r']; [reflexivity|].
  cbn [digits_prefix]. rewrite H. reflexivity.
Qed.


End Engine.


End CurrencyProps.

(** ** [formatDate], [formatDateTime], [formatTime] and [parseUKDate] *)

Module FormatDatesProps.
Import JS ESDate Format FormatDates Predicates DecimalFacts DateFacts FormatProps.
Local Open Scope Z_scope.

Section Fmt.
Variable Date_parse : jsstring -> option Z.

(** The parts of a formatted date. *)
Lemma formatDate_parts (date : date_input) (t : Z) :
  new_Date_from Date_parse date = Some t ->
  exists dd mm yyyy,
    formatDate Date_parse date = dd ++ lit "/" ++ mm ++ lit "/" ++ yyyy /\
    split 47 (formatDate Date_parse date) = [dd; mm; yyyy] /\
    List.length dd = 2%nat /\ List.length mm = 2%nat /\
    forallb is_digit dd = true /\ forallb is_digit mm = true /\
    parseInt10 dd = Some (DateFromTime t) /\ 1 <= DateFromTime t <= 31 /\
    parseInt10 mm = Some (MonthFromTime t + 1) /\ 1 <= MonthFromTime t + 1 <= 12 /\
    parseInt10 yyyy = Some (YearFromTime t).
Proof.
  intros Hd. unfold formatDate. rewrite Hd.
  destruct (calendar_fields t) as [Hm Hday].
  destruct (padStart_digits 2 (DateFromTime t) ltac:(lia)) as [Hdd Pdd].
  destruct (padStart_digits 2 (MonthFromTime t + 1) ltac:(lia)) as [Hmm Pmm].
  eexists _, _, _. split; [reflexivity|].
  split.
  { change (lit "/") with [47%N].
    rewrite split_app by (now apply digits_no_slash).
    rewrite split_app by (now apply digits_no_slash).
    rewrite split_no_sep by apply Z_toString_no_slash. reflexivity. }
  repeat split; auto using parseInt10_Z_toString; try lia;
    apply padStart_length_2; lia.
Qed.


(** X2.  [formatDate] returns the text "Invalid Date"
    exactly when the input does not denote a valid time value: never for a
    valid one. *)
Theorem formatDate_invalid_iff (date : date_input) :
  formatDate Date_parse date = lit "Invalid Date" <->
  new_Date_from Date_parse date = None.
Proof.
  split.
  - destruct (new_Date_from Date_parse date) as [t|] eqn:E; [|reflexivity].
    destruct (formatDate_parts date t E)
      as (dd & mm & yyyy & -> & _ & Hl & _ & Hd & _).
    destruct dd as [|c dd]; [discriminate|].
    cbn [forallb] in Hd. apply andb_true_iff in Hd as [Hc _].
    apply is_digit_range in Hc.
    intros H. cbn in H. injection H as H _. lia.
  - unfold formatDate. now intros ->.
Qed.

Lemma YearFromTime_bounds (t : Z) :
  Z.abs t <= 8640000000000000 -> -271822 <= YearFromTime t <= 275760.
Proof.
  intros H. pose proof (YearFromTime_spec t) as S.
  unfold TimeFromYear, DayFromYear, msPerDay in S.
  Z.to_euclidean_division_equations; lia.
Qed.

(** Midnight UTC of the first day of the month of [t]. *)
Lemma first_of_the_month (t : Z) :
  day_number (YearFromTime t) (MonthFromTime t) 1 * msPerDay
  = t - TimeWithinDay t - (DateFromTime t - 1) * msPerDay.
Proof.
  pose proof (day_number_inverse t) as I.
  destruct (calendar_fields t) as [Hm _].
  rewrite day_number_in_range in I |- * by exact Hm.
  unfold Day, TimeWithinDay, msPerDay in *.
  Z.to_euclidean_division_equations; lia.
Qed.

Lemma parse_formatted (date : date_input) (t : Z) :
  new_Date_from Date_parse date = Some t ->
  parseUKDate (formatDate Date_parse date)
  = new_Date (UTC (Finite (YearFromTime t)) (Finite (MonthFromTime t))
                  (Finite (DateFromTime t))).
Proof.
  intros Hd. pose proof (new_Date_range _ _ Hd) as Hr.
  pose proof (YearFromTime_bounds t Hr) as Hy.
  destruct (calendar_fields t) as [Hm Hday].
  destruct (formatDate_parts date t Hd)
    as (dd & mm & yyyy & _ & Hs & _ & _ & _ & _ & Pd & _ & Pm & _ & Py).
  unfold parseUKDate, parseInt. rewrite Hs, Pd, Pm, Py. cbn [option_map].
  rewrite !binary64_exact by lia. cbn [minus_one].
  rewrite binary64_exact by lia.
  replace (MonthFromTime t + 1 - 1) with (MonthFromTime t) by lia.
  now destruct (new_Date _).
Qed.

(** X3.  Round trip.  For a valid time value whose UTC
    year is outside 0..99, [parseUKDate(formatDate(d))] is the start of the
    UTC day of [d], provided that the first of its month is within the range
    of Date as well (which fails only in the first, partial month of the
    range).  For a year from 0 to 99 the round trip fails: the two digits
    are read by [Date.UTC] as a year of the 1900s, and the result is a later
    instant. *)
Theorem parseUKDate_formatDate (date : date_input) (t : Z) :
  new_Date_from Date_parse date = Some t ->
  (YearFromTime t < 0 \/ 99 < YearFromTime t ->
   -8640000000000000 <= t - TimeWithinDay t - (DateFromTime t - 1) * msPerDay ->
     parseUKDate (formatDate Date_parse date) = Some (t - TimeWithinDay t)) /\
  (0 <= YearFromTime t <= 99 ->
     exists t', parseUKDate (formatDate Date_parse date) = Some t' /\
                t' = day_number (1900 + YearFromTime t) (MonthFromTime t)
                                (DateFromTime t) * msPerDay /\
                t < t').
Proof.
  intros Hd. pose proof (new_Date_range _ _ Hd) as Hr.
  pose proof (YearFromTime_bounds t Hr) as Hyb.
  rewrite (parse_formatted date t Hd).
  destruct (calendar_fields t) as [Hm Hday].
  split.
  - intros Hy Hfirst.
    assert (E : full_year (YearFromTime t) = YearFromTime t).
    { unfold full_year.
      destruct (Z.leb_spec 0 (YearFromTime t)), (Z.leb_spec (YearFromTime t) 99);
        cbn; lia. }
    assert (Hs : day_number (YearFromTime t) (MonthFromTime t) (DateFromTime t)
                 * msPerDay = t - TimeWithinDay t).
    { rewrite day_number_inverse. unfold Day, TimeWithinDay, msPerDay.
      Z.to_euclidean_division_equations; lia. }
    assert (Hin : Z.abs (t - TimeWithinDay t) <= 8640000000000000).
    { unfold TimeWithinDay, msPerDay. Z.to_euclidean_division_equations; lia. }
    rewrite UTC_exact; rewrite ?E, ?Hs, ?first_of_the_month; try lia.
    + cbn [new_Date]. apply TimeClip_in_range, Hin.
    + pose proof (Z.mod_pos_bound t msPerDay ltac:(unfold msPerDay; lia)).
      unfold TimeWithinDay, msPerDay in *. lia.
  - intros Hy.
    assert (E : full_year (YearFromTime t) = 1900 + YearFromTime t).
    { unfold full_year.
      destruct (Z.leb_spec 0 (YearFromTime t)), (Z.leb_spec (YearFromTime t) 99);
        cbn; lia. }
    set (t' := day_number (1900 + YearFromTime t) (MonthFromTime t)
                          (DateFromTime t) * msPerDay).
    assert (H1 : -80000000 <= day_number (1900 + YearFromTime t) (MonthFromTime t) 1
                 <= 80000000)
      by (apply day_number_bounds; lia).
    assert (R : day_number (1900 + YearFromTime t) (MonthFromTime t) (DateFromTime t)
                = day_number (1900 + YearFromTime t) (MonthFromTime t) 1
                  + (DateFromTime t - 1))
      by (rewrite !day_number_in_range by exact Hm; lia).
    assert (Hb : t < t').
    { unfold t'. rewrite day_number_in_range by exact Hm.
      pose proof (YearFromTime_spec t) as S.
      pose proof (monthStart_bounds
                    (if DaysInYear (1900 + YearFromTime t) =? 366 then 1 else 0)
                    (MonthFromTime t) Hm
                    ltac:(destruct (_ =? _); auto)) as B.
      assert (L : (if DaysInYear (1900 + YearFromTime t) =? 366 then 1 else 0) <= 1)
        by (destruct (_ =? _); lia).
      unfold TimeFromYear, DayFromYear, msPerDay in *.
      Z.to_euclidean_division_equations; lia. }
    assert (Hin : Z.abs t' <= 8640000000000000)
      by (unfold t'; rewrite R; unfold msPerDay; lia).
    exists t'. rewrite UTC_exact; rewrite ?E; fold t';
      try (unfold msPerDay; lia).
    cbn [new_Date]. rewrite (TimeClip_in_range _ Hin). repeat split. exact Hb.
Qed.


End Fmt.

(** X5.  [parseUKDate] reads each segment
    as [parseInt] does: whatever follows the digits of a segment (any text
    without "/" that does not start with a digit) is ignored, so such an
    input is parsed as if the junk were not there. *)
Theorem parseUKDate_ignores_trailing_junk
    (a b c ja jb jc : jsstring) (day month year : Z) :
  no_slash (a ++ ja) -> no_slash (b ++ jb) -> no_slash (c ++ jc) ->
  parseInt10 a = Some day -> parseInt10 b = Some month -> parseInt10 c = Some year ->
  junk ja -> junk jb -> junk jc ->
  parseUKDate ((a ++ ja) ++ lit "/" ++ (b ++ jb) ++ lit "/" ++ (c ++ jc))
  = new_Date (UTC (binary64 year) (minus_one (binary64 month)) (binary64 day)).
Proof.
  intros Na Nb Nc Pa Pb Pc Ja Jb Jc.
  unfold parseUKDate, parseInt. change (lit "/") with [47%N].
  rewrite split_app by exact Na. rewrite split_app by exact Nb.
  rewrite split_no_sep by exact Nc.
  rewrite (parseInt10_junk_suffix a day ja Pa Ja), (parseInt10_junk_suffix b month jb Pb Jb),
    (parseInt10_junk_suffix c year jc Pc Jc).
  cbn [option_map]. now destruct (new_Date _).
Qed.

(** *** Concrete runs *)


Lemma formatDate_invalid_witness :
  formatDate (fun _ => None) (DateString (lit "next Tuesday")) = lit "Invalid Date".
Proof.
  exact (proj2 (formatDate_invalid_iff (fun _ => None)
                  (DateString (lit "next Tuesday"))) eq_refl).
Defined.

(** 2026-01-27T14:30:00Z comes back as 2026-01-27T00:00:00Z; the first day
    of year 26 comes back in 1926. *)
Lemma parseUKDate_formatDate_witness :
  parseUKDate (formatDate (fun _ => None) (TimeNumber (Some 1769524200000)))
  = Some 1769472000000 /\
  exists t', parseUKDate (formatDate (fun _ => None)
                            (TimeNumber (Some (-61346592000000))))
             = Some t' /\
             t' = day_number (1900 + YearFromTime (-61346592000000))
                             (MonthFromTime (-61346592000000))
                             (DateFromTime (-61346592000000)) * msPerDay /\
             -61346592000000 < t'.
Proof.
  split.
  - refine (proj1 (parseUKDate_formatDate (fun _ => None)
                     (TimeNumber (Some 1769524200000)) 1769524200000 eq_refl) _ _).
    + right. vm_compute. reflexivity.
    + vm_compute. discriminate.
  - refine (proj2 (parseUKDate_formatDate (fun _ => None)
                     (TimeNumber (Some (-61346592000000))) (-61346592000000) eq_refl) _).
    vm_compute. split; discriminate.
Defined.


Lemma parseUKDate_junk_witness :
  parseUKDate (lit "27th/01 (Jan)/2026 approx") = Some 1769472000000.
Proof.
  refine (eq_trans
            (parseUKDate_ignores_trailing_junk (lit "27") (lit "01") (lit "2026")
               (lit "th") (lit " (Jan)") (lit " approx") 27 1 2026
               eq_refl eq_refl eq_refl eq_refl eq_refl eq_refl _ _ _)
            _); vm_compute; reflexivity.
Defined.

End FormatDatesProps.

(** ** The API client: the three call families *)

Module ClientFamilies.
Import JS Net Client ClientRest ClientContract StringFacts.

Ltac run_call :=
  unfold run, bind, fetch, throw, ret, eval, json, throw_backend_error;
  cbn beta iota zeta.

(** Replaces the server's answer in the goal by what [H] says it is. *)
Ltac answer server H :=
  match goal with
  | |- context [server ?t ?q] =>
      let E := fresh "E" in
      assert (E : server t q = _) by exact H; rewrite E; clear E
  end.

(** One tactic settles each member of a family once it is unfolded. *)
Ltac list_read_tac server :=
  intros t; repeat apply conj;
  [ run_call; destruct (server t _) as [r|e]; [|reflexivity];
    destruct (ok r); cbn; [|reflexivity];
    destruct (body_json r) as [m|v]; [reflexivity|];
    destruct v; reflexivity
  | intros e He; run_call; answer server He; reflexivity
  | intros r Hr; split;
    [ intros Hok; run_call; answer server Hr; rewrite Hok; reflexivity
    | intros Hok; repeat apply conj;
      [ intros fields Hb | intros Hb; eexists | intros m Hb ];
      run_call; answer server Hr; rewrite Hok; cbn;
      match goal with H : body_json _ = _ |- _ => rewrite H end;
      reflexivity ] ].

Ltac record_read_tac server :=
  intros t r fields Hr Hok Hb; run_call; answer server Hr; rewrite Hok; cbn;
  rewrite Hb; reflexivity.

Ltac write_outcome_tac server Hr :=
  split; intros Hok; split;
  [ intros v Hb | intros m Hb | intros fields Hb | intros m Hb ];
  run_call; answer server Hr; rewrite Hok; cbn; unfold json;
  match goal with H : body_json _ = _ |- _ => rewrite H end;
  reflexivity.

Ltac json_write_tac server :=
  intros t; repeat apply conj;
  [ run_call; destruct (server t _) as [r|e]; [|reflexivity];
    destruct (ok r); cbn; unfold json;
    [ destruct (body_json r) as [m|v]; reflexivity
    | destruct (body_json r) as [m|v]; [reflexivity|];
      destruct v; reflexivity ]
  | intros e He; run_call; answer server He; reflexivity
  | intros r Hr; unfold write_outcome; write_outcome_tac server Hr ].

Section Props.
Context {Num : Number}.
Variable server : Server.

Lemma getVenues_list
    (tenantId : jsstring) :
  list_read server (getVenues server tenantId)
    (GET (API_BASE ++ lit "/venues/" ++ tenantId))
    (lit "Failed to fetch venues: ") (lit "venues") (VArr []).
Proof. unfold getVenues. list_read_tac server. Qed.

Lemma getMondayBriefs_list
    (tenantId venueId : jsstring) :
  list_read server (getMondayBriefs server tenantId venueId)
    (GET (API_BASE ++ lit "/monday-briefs/" ++ tenantId ++ lit "/venue/" ++
      venueId ++ lit "/list"))
    (lit "Failed to fetch Monday briefs: ") (lit "briefs") (VArr []).
Proof. unfold getMondayBriefs. list_read_tac server. Qed.

Lemma getVariances_list
    (tenantId venueId : jsstring) :
  list_read server (getVariances server tenantId venueId)
    (GET (API_BASE ++ lit "/variances/" ++ tenantId ++ lit "/venue/" ++
      venueId))
    (lit "Failed to fetch variances: ") (lit "variances") (VArr []).
Proof. unfold getVariances. list_read_tac server. Qed.

Lemma getVariancesByPeriod_list
    (tenantId venueId periodStart periodEnd : jsstring) :
  list_read server (getVariancesByPeriod server tenantId venueId periodStart
    periodEnd)
    (GET (API_BASE ++ lit "/variances/" ++ tenantId ++ lit "/venue/" ++
      venueId ++ lit "?periodStartDate=" ++ periodStart ++
      lit "&periodEndDate=" ++ periodEnd))
    (lit "Failed to fetch variances: ") (lit "variances") (VArr []).
Proof. unfold getVariancesByPeriod. list_read_tac server. Qed.

Lemma getGuardianFindings_list
    (tenantId venueId : jsstring) (filter : option jsstring) :
  list_read server (getGuardianFindings server tenantId venueId filter)
    (GET (optional_query (API_BASE ++ lit "/guardian/" ++ tenantId ++
      lit "/venue/" ++ venueId) (lit "?weekStartDate=") filter))
    (lit "Failed to fetch Guardian findings: ") (lit "findings") (VArr []).
Proof. unfold getGuardianFindings. list_read_tac server. Qed.

Lemma getGuardianFindingsSummary_list
    (tenantId : jsstring) :
  list_read server (getGuardianFindingsSummary server tenantId)
    (GET (API_BASE ++ lit "/guardian/" ++ tenantId ++ lit "/summary"))
    (lit "Failed to fetch Guardian summary: ") (lit "summary") (VObj []).
Proof. unfold getGuardianFindingsSummary. list_read_tac server. Qed.

Lemma getBudgets_list
    (tenantId venueId : jsstring) (filter : option jsstring) :
  list_read server (getBudgets server tenantId venueId filter)
    (GET (optional_query (API_BASE ++ lit "/budgets/" ++ tenantId ++
      lit "/venue/" ++ venueId) (lit "?status=") filter))
    (lit "Failed to fetch budgets: ") (lit "budgets") (VArr []).
Proof. unfold getBudgets. list_read_tac server. Qed.

Lemma getBudgetVersions_list
    (tenantId recordId : jsstring) :
  list_read server (getBudgetVersions server tenantId recordId)
    (GET (API_BASE ++ lit "/budgets/" ++ tenantId ++ lit "/" ++ recordId ++
      lit "/versions"))
    (lit "Failed to fetch budget versions: ") (lit "versions") (VArr []).
Proof. unfold getBudgetVersions. list_read_tac server. Qed.

Lemma getLabourPlans_list
    (tenantId venueId : jsstring) (filter : option jsstring) :
  list_read server (getLabourPlans server tenantId venueId filter)
    (GET (optional_query (API_BASE ++ lit "/labour-plans/" ++ tenantId ++
      lit "/venue/" ++ venueId) (lit "?status=") filter))
    (lit "Failed to fetch labour plans: ") (lit "labourPlans") (VArr []).
Proof. unfold getLabourPlans. list_read_tac server. Qed.

Lemma getLabourPlanVersions_list
    (tenantId recordId : jsstring) :
  list_read server (getLabourPlanVersions server tenantId recordId)
    (GET (API_BASE ++ lit "/labour-plans/" ++ tenantId ++ lit "/" ++ recordId
      ++ lit "/versions"))
    (lit "Failed to fetch labour plan versions: ") (lit "versions") (VArr []).
Proof. unfold getLabourPlanVersions. list_read_tac server. Qed.

Lemma getCashSnapshots_list
    (tenantId venueId : jsstring) :
  list_read server (getCashSnapshots server tenantId venueId)
    (GET (API_BASE ++ lit "/cash-snapshots/" ++ tenantId ++ lit "/venue/" ++
      venueId))
    (lit "Failed to fetch cash snapshots: ") (lit "snapshots") (VArr []).
Proof. unfold getCashSnapshots. list_read_tac server. Qed.

Lemma getCashSnapshotHistory_list
    (tenantId venueId week : jsstring) :
  list_read server (getCashSnapshotHistory server tenantId venueId week)
    (GET (API_BASE ++ lit "/cash-snapshots/" ++ tenantId ++ lit "/venue/" ++
      venueId ++ lit "/week/" ++ week ++ lit "/history"))
    (lit "Failed to fetch cash snapshot history: ") (lit "snapshots") (VArr []).
Proof. unfold getCashSnapshotHistory. list_read_tac server. Qed.

Lemma getEvidenceByVenue_list
    (tenantId venueId : jsstring) (filter : option jsstring) :
  list_read server (getEvidenceByVenue server tenantId venueId filter)
    (GET (optional_query (API_BASE ++ lit "/evidence/" ++ tenantId ++
      lit "/venue/" ++ venueId) (lit "?source=") filter))
    (lit "Failed to fetch evidence: ") (lit "evidence") (VArr []).
Proof. unfold getEvidenceByVenue. list_read_tac server. Qed.

Lemma getCandidatesByEvidence_list
    (tenantId recordId : jsstring) :
  list_read server (getCandidatesByEvidence server tenantId recordId)
    (GET (API_BASE ++ lit "/evidence/" ++ tenantId ++ lit "/" ++ recordId ++
      lit "/candidates"))
    (lit "Failed to fetch candidates: ") (lit "candidates") (VArr []).
Proof. unfold getCandidatesByEvidence. list_read_tac server. Qed.

Lemma getPendingCandidates_list
    (tenantId : jsstring) :
  list_read server (getPendingCandidates server tenantId)
    (GET (API_BASE ++ lit "/evidence/" ++ tenantId ++
      lit "/candidates/pending"))
    (lit "Failed to fetch pending candidates: ") (lit "candidates") (VArr []).
Proof. unfold getPendingCandidates. list_read_tac server. Qed.

Lemma getMondayBrief_success
    (tenantId venueId week : jsstring) :
  record_read_success server (getMondayBrief server tenantId venueId week)
    (GET (API_BASE ++ lit "/monday-briefs/" ++ tenantId ++ lit "/venue/" ++
      venueId ++ lit "/week?weekStartDate=" ++ week))
    (lit "brief").
Proof. unfold getMondayBrief. record_read_tac server. Qed.

Lemma getBudget_success
    (tenantId recordId : jsstring) :
  record_read_success server (getBudget server tenantId recordId)
    (GET (API_BASE ++ lit "/budgets/" ++ tenantId ++ lit "/" ++ recordId))
    (lit "budget").
Proof. unfold getBudget. record_read_tac server. Qed.

Lemma getConfirmedBudget_success
    (tenantId venueId : jsstring) :
  record_read_success server (getConfirmedBudget server tenantId venueId)
    (GET (API_BASE ++ lit "/budgets/" ++ tenantId ++ lit "/venue/" ++ venueId
      ++ lit "/confirmed"))
    (lit "budget").
Proof. unfold getConfirmedBudget. record_read_tac server. Qed.

Lemma getLabourPlan_success
    (tenantId recordId : jsstring) :
  record_read_success server (getLabourPlan server tenantId recordId)
    (GET (API_BASE ++ lit "/labour-plans/" ++ tenantId ++ lit "/" ++
      recordId))
    (lit "labourPlan").
Proof. unfold getLabourPlan. record_read_tac server. Qed.

Lemma getConfirmedLabourPlan_success
    (tenantId venueId : jsstring) :
  record_read_success server (getConfirmedLabourPlan server tenantId venueId)
    (GET (API_BASE ++ lit "/labour-plans/" ++ tenantId ++ lit "/venue/" ++
      venueId ++ lit "/confirmed"))
    (lit "labourPlan").
Proof. unfold getConfirmedLabourPlan. record_read_tac server. Qed.

Lemma getCashSnapshotByWeek_success
    (tenantId venueId week : jsstring) :
  record_read_success server (getCashSnapshotByWeek server tenantId venueId
    week)
    (GET (API_BASE ++ lit "/cash-snapshots/" ++ tenantId ++ lit "/venue/" ++
      venueId ++ lit "/week/" ++ week))
    (lit "snapshot").
Proof. unfold getCashSnapshotByWeek. record_read_tac server. Qed.

Lemma getEvidence_success
    (tenantId recordId : jsstring) :
  record_read_success server (getEvidence server tenantId recordId)
    (GET (API_BASE ++ lit "/evidence/" ++ tenantId ++ lit "/" ++ recordId))
    (lit "evidence").
Proof. unfold getEvidence. record_read_tac server. Qed.

Lemma createBudget_write
    (tenantId venueId : jsstring) (payload : value) (user : jsstring) :
  json_write server (createBudget server tenantId venueId payload user)
    (POST_json (API_BASE ++ lit "/budgets/" ++ tenantId ++ lit "/venue/" ++
      venueId) (VObj [(lit "payload", payload); (lit "createdBy", VStr
      user)]))
    (lit "Failed to create budget: ").
Proof. unfold createBudget. json_write_tac server. Qed.

Lemma confirmBudget_write
    (tenantId recordId : jsstring) (payload : value) (user : jsstring) :
  json_write server (confirmBudget server tenantId recordId payload user)
    (POST_json (API_BASE ++ lit "/budgets/" ++ tenantId ++ lit "/" ++ recordId
      ++ lit "/confirm") (VObj [(lit "payload", payload); (lit "confirmedBy",
      VStr user)]))
    (lit "Failed to confirm budget: ").
Proof. unfold confirmBudget. json_write_tac server. Qed.

Lemma createLabourPlan_write
    (tenantId venueId : jsstring) (payload : value) (user : jsstring) :
  json_write server (createLabourPlan server tenantId venueId payload user)
    (POST_json (API_BASE ++ lit "/labour-plans/" ++ tenantId ++ lit "/venue/"
      ++ venueId) (VObj [(lit "payload", payload); (lit "createdBy", VStr
      user)]))
    (lit "Failed to create labour plan: ").
Proof. unfold createLabourPlan. json_write_tac server. Qed.

Lemma confirmLabourPlan_write
    (tenantId recordId : jsstring) (payload : value) (user : jsstring) :
  json_write server (confirmLabourPlan server tenantId recordId payload user)
    (POST_json (API_BASE ++ lit "/labour-plans/" ++ tenantId ++ lit "/" ++
      recordId ++ lit "/confirm") (VObj [(lit "payload", payload);
      (lit "confirmedBy", VStr user)]))
    (lit "Failed to confirm labour plan: ").
Proof. unfold confirmLabourPlan. json_write_tac server. Qed.

Lemma createCashSnapshot_write
    (tenantId venueId week : jsstring) (payload : value) (user : jsstring) :
  json_write server (createCashSnapshot server tenantId venueId week payload
    user)
    (POST_json (API_BASE ++ lit "/cash-snapshots/" ++ tenantId ++
      lit "/venue/" ++ venueId) (VObj [(lit "weekStartDate", VStr week);
      (lit "payload", payload); (lit "createdBy", VStr user)]))
    (lit "Failed to create cash snapshot: ").
Proof. unfold createCashSnapshot. json_write_tac server. Qed.

Lemma createCorrectionSnapshot_write
    (tenantId recordId week : jsstring) (payload : value) (user reason : jsstring) :
  json_write server (createCorrectionSnapshot server tenantId recordId week
    payload user reason)
    (POST_json (API_BASE ++ lit "/cash-snapshots/" ++ tenantId ++ lit "/" ++
      recordId ++ lit "/correct") (VObj [(lit "weekStartDate", VStr week);
      (lit "payload", payload); (lit "createdBy", VStr user); (lit "reason",
      VStr reason)]))
    (lit "Failed to create correction: ").
Proof. unfold createCorrectionSnapshot. json_write_tac server. Qed.

Lemma extractFromEvidence_write
    (tenantId recordId : jsstring) :
  json_write server (extractFromEvidence server tenantId recordId)
    {| url := API_BASE ++ lit "/evidence/" ++ tenantId ++ lit "/" ++ recordId
      ++ lit "/extract"; method := lit "POST"; headers := []; body := None |}
    (lit "Failed to extract from evidence: ").
Proof. unfold extractFromEvidence. json_write_tac server. Qed.

Lemma confirmCandidate_write
    (tenantId recordId user : jsstring) (payload : value) :
  json_write server (confirmCandidate server tenantId recordId user payload)
    (POST_json (API_BASE ++ lit "/evidence/" ++ tenantId ++ lit "/candidate/"
      ++ recordId ++ lit "/confirm") (VObj [(lit "reviewedBy", VStr user);
      (lit "overridePayload", payload)]))
    (lit "Failed to confirm candidate: ").
Proof. unfold confirmCandidate. json_write_tac server. Qed.

Lemma rejectCandidate_write
    (tenantId recordId user reason : jsstring) :
  json_write server (rejectCandidate server tenantId recordId user reason)
    (POST_json (API_BASE ++ lit "/evidence/" ++ tenantId ++ lit "/candidate/"
      ++ recordId ++ lit "/reject") (VObj [(lit "reviewedBy", VStr user);
      (lit "reason", VStr reason)]))
    (lit "Failed to reject candidate: ").
Proof. unfold rejectCandidate. json_write_tac server. Qed.

(** X6.  Every list read of the API client ([getVenues],
    [getMondayBriefs], [getVariances], [getVariancesByPeriod],
    [getGuardianFindings], [getGuardianFindingsSummary], [getBudgets],
    [getBudgetVersions], [getLabourPlans], [getLabourPlanVersions],
    [getCashSnapshots], [getCashSnapshotHistory], [getEvidenceByVenue],
    [getCandidatesByEvidence], [getPendingCandidates]) issues exactly one
    GET to its URL and nothing else, whatever the outcome.  A status
    outside 200..299 (a 404 too: only the single-record reads treat it
    apart) raises the function's fixed text followed by the status text; a
    2xx JSON object gives the collection under the function's key, or the
    empty collection ([[]], and [{}] for the findings summary) when the key
    is absent or falsy; a 2xx body that is the JSON [null] raises a
    TypeError, one that is not JSON the parser's SyntaxError; a rejected
    fetch rejects the call unchanged.  An optional filter that is
    [undefined] or the empty string adds no query to the URL. *)
Theorem list_reads_give_the_collection_or_the_status_text :
  forall (tenantId venueId recordId week periodStart periodEnd : jsstring)
         (filter : option jsstring),
    list_read server (getVenues server tenantId)
      (GET (API_BASE ++ lit "/venues/" ++ tenantId))
      (lit "Failed to fetch venues: ") (lit "venues") (VArr []) /\
    list_read server (getMondayBriefs server tenantId venueId)
      (GET (API_BASE ++ lit "/monday-briefs/" ++ tenantId ++ lit "/venue/" ++
        venueId ++ lit "/list"))
      (lit "Failed to fetch Monday briefs: ") (lit "briefs") (VArr []) /\
    list_read server (getVariances server tenantId venueId)
      (GET (API_BASE ++ lit "/variances/" ++ tenantId ++ lit "/venue/" ++
        venueId))
      (lit "Failed to fetch variances: ") (lit "variances") (VArr []) /\
    list_read server (getVariancesByPeriod server tenantId venueId periodStart
      periodEnd)
      (GET (API_BASE ++ lit "/variances/" ++ tenantId ++ lit "/venue/" ++
        venueId ++ lit "?periodStartDate=" ++ periodStart ++
        lit "&periodEndDate=" ++ periodEnd))
      (lit "Failed to fetch variances: ") (lit "variances") (VArr []) /\
    list_read server (getGuardianFindings server tenantId venueId filter)
      (GET (optional_query (API_BASE ++ lit "/guardian/" ++ tenantId ++
        lit "/venue/" ++ venueId) (lit "?weekStartDate=") filter))
      (lit "Failed to fetch Guardian findings: ") (lit "findings") (VArr []) /\
    list_read server (getGuardianFindingsSummary server tenantId)
      (GET (API_BASE ++ lit "/guardian/" ++ tenantId ++ lit "/summary"))
      (lit "Failed to fetch Guardian summary: ") (lit "summary") (VObj []) /\
    list_read server (getBudgets server tenantId venueId filter)
      (GET (optional_query (API_BASE ++ lit "/budgets/" ++ tenantId ++
        lit "/venue/" ++ venueId) (lit "?status=") filter))
      (lit "Failed to fetch budgets: ") (lit "budgets") (VArr []) /\
    list_read server (getBudgetVersions server tenantId recordId)
      (GET (API_BASE ++ lit "/budgets/" ++ tenantId ++ lit "/" ++ recordId ++
        lit "/versions"))
      (lit "Failed to fetch budget versions: ") (lit "versions") (VArr []) /\
    list_read server (getLabourPlans server tenantId venueId filter)
      (GET (optional_query (API_BASE ++ lit "/labour-plans/" ++ tenantId ++
        lit "/venue/" ++ venueId) (lit "?status=") filter))
      (lit "Failed to fetch labour plans: ") (lit "labourPlans") (VArr []) /\
    list_read server (getLabourPlanVersions server tenantId recordId)
      (GET (API_BASE ++ lit "/labour-plans/" ++ tenantId ++ lit "/" ++
        recordId ++ lit "/versions"))
      (lit "Failed to fetch labour plan versions: ") (lit "versions") (VArr []) /\
    list_read server (getCashSnapshots server tenantId venueId)
      (GET (API_BASE ++ lit "/cash-snapshots/" ++ tenantId ++ lit "/venue/" ++
        venueId))
      (lit "Failed to fetch cash snapshots: ") (lit "snapshots") (VArr []) /\
    list_read server (getCashSnapshotHistory server tenantId venueId week)
      (GET (API_BASE ++ lit "/cash-snapshots/" ++ tenantId ++ lit "/venue/" ++
        venueId ++ lit "/week/" ++ week ++ lit "/history"))
      (lit "Failed to fetch cash snapshot history: ") (lit "snapshots") (VArr []) /\
    list_read server (getEvidenceByVenue server tenantId venueId filter)
      (GET (optional_query (API_BASE ++ lit "/evidence/" ++ tenantId ++
        lit "/venue/" ++ venueId) (lit "?source=") filter))
      (lit "Failed to fetch evidence: ") (lit "evidence") (VArr []) /\
    list_read server (getCandidatesByEvidence server tenantId recordId)
      (GET (API_BASE ++ lit "/evidence/" ++ tenantId ++ lit "/" ++ recordId ++
        lit "/candidates"))
      (lit "Failed to fetch candidates: ") (lit "candidates") (VArr []) /\
    list_read server (getPendingCandidates server tenantId)
      (GET (API_BASE ++ lit "/evidence/" ++ tenantId ++
        lit "/candidates/pending"))
      (lit "Failed to fetch pending candidates: ") (lit "candidates") (VArr []).
Proof.
  intros. repeat apply conj;
    [ apply getVenues_list
    | apply getMondayBriefs_list
    | apply getVariances_list
    | apply getVariancesByPeriod_list
    | apply getGuardianFindings_list
    | apply getGuardianFindingsSummary_list
    | apply getBudgets_list
    | apply getBudgetVersions_list
    | apply getLabourPlans_list
    | apply getLabourPlanVersions_list
    | apply getCashSnapshots_list
    | apply getCashSnapshotHistory_list
    | apply getEvidenceByVenue_list
    | apply getCandidatesByEvidence_list
    | apply getPendingCandidates_list ].
Qed.

(** X7.  The success path of every single-record read
    ([getMondayBrief], [getBudget], [getConfirmedBudget], [getLabourPlan],
    [getConfirmedLabourPlan], [getCashSnapshotByWeek], [getEvidence]): on a
    2xx answer whose body is a JSON object the call returns the record under
    the function's key, and [null] when the key is absent or its value is
    falsy; one request is issued. *)
Theorem record_reads_give_the_record_or_null :
  forall (tenantId venueId recordId week : jsstring),
    record_read_success server (getMondayBrief server tenantId venueId week)
      (GET (API_BASE ++ lit "/monday-briefs/" ++ tenantId ++ lit "/venue/" ++
        venueId ++ lit "/week?weekStartDate=" ++ week))
      (lit "brief") /\
    record_read_success server (getBudget server tenantId recordId)
      (GET (API_BASE ++ lit "/budgets/" ++ tenantId ++ lit "/" ++ recordId))
      (lit "budget") /\
    record_read_success server (getConfirmedBudget server tenantId venueId)
      (GET (API_BASE ++ lit "/budgets/" ++ tenantId ++ lit "/venue/" ++
        venueId ++ lit "/confirmed"))
      (lit "budget") /\
    record_read_success server (getLabourPlan server tenantId recordId)
      (GET (API_BASE ++ lit "/labour-plans/" ++ tenantId ++ lit "/" ++
        recordId))
      (lit "labourPlan") /\
    record_read_success server (getConfirmedLabourPlan server tenantId
      venueId)
      (GET (API_BASE ++ lit "/labour-plans/" ++ tenantId ++ lit "/venue/" ++
        venueId ++ lit "/confirmed"))
      (lit "labourPlan") /\
    record_read_success server (getCashSnapshotByWeek server tenantId venueId
      week)
      (GET (API_BASE ++ lit "/cash-snapshots/" ++ tenantId ++ lit "/venue/" ++
        venueId ++ lit "/week/" ++ week))
      (lit "snapshot") /\
    record_read_success server (getEvidence server tenantId recordId)
      (GET (API_BASE ++ lit "/evidence/" ++ tenantId ++ lit "/" ++ recordId))
      (lit "evidence").
Proof.
  intros. repeat apply conj;
    [ apply getMondayBrief_success
    | apply getBudget_success
    | apply getConfirmedBudget_success
    | apply getLabourPlan_success
    | apply getConfirmedLabourPlan_success
    | apply getCashSnapshotByWeek_success
    | apply getEvidence_success ].
Qed.

(** X8.  Every JSON write of the API client ([createBudget],
    [confirmBudget], [createLabourPlan], [confirmLabourPlan],
    [createCashSnapshot], [createCorrectionSnapshot], [extractFromEvidence],
    [confirmCandidate], [rejectCandidate]) issues exactly one POST and
    nothing else, whatever the outcome.  A 2xx answer returns the parsed
    body as it is.  On any other status the body is parsed: a JSON object
    raises an [Error] whose message is the body's [error] field when truthy
    and the function's fixed text followed by the status text otherwise; a
    body that is not JSON raises the parser's SyntaxError instead, so the
    status text is lost.  A rejected fetch rejects the call unchanged. *)
Theorem writes_report_the_backend_error_or_the_status_text :
  forall (tenantId venueId recordId week user reason : jsstring)
         (payload : value),
    json_write server (createBudget server tenantId venueId payload user)
      (POST_json (API_BASE ++ lit "/budgets/" ++ tenantId ++ lit "/venue/" ++
        venueId) (VObj [(lit "payload", payload); (lit "createdBy", VStr
        user)]))
      (lit "Failed to create budget: ") /\
    json_write server (confirmBudget server tenantId recordId payload user)
      (POST_json (API_BASE ++ lit "/budgets/" ++ tenantId ++ lit "/" ++
        recordId ++ lit "/confirm") (VObj [(lit "payload", payload);
        (lit "confirmedBy", VStr user)]))
      (lit "Failed to confirm budget: ") /\
    json_write server (createLabourPlan server tenantId venueId payload user)
      (POST_json (API_BASE ++ lit "/labour-plans/" ++ tenantId ++
        lit "/venue/" ++ venueId) (VObj [(lit "payload", payload);
        (lit "createdBy", VStr user)]))
      (lit "Failed to create labour plan: ") /\
    json_write server (confirmLabourPlan server tenantId recordId payload
      user)
      (POST_json (API_BASE ++ lit "/labour-plans/" ++ tenantId ++ lit "/" ++
        recordId ++ lit "/confirm") (VObj [(lit "payload", payload);
        (lit "confirmedBy", VStr user)]))
      (lit "Failed to confirm labour plan: ") /\
    json_write server (createCashSnapshot server tenantId venueId week payload
      user)
      (POST_json (API_BASE ++ lit "/cash-snapshots/" ++ tenantId ++
        lit "/venue/" ++ venueId) (VObj [(lit "weekStartDate", VStr week);
        (lit "payload", payload); (lit "createdBy", VStr user)]))
      (lit "Failed to create cash snapshot: ") /\
    json_write server (createCorrectionSnapshot server tenantId recordId week
      payload user reason)
      (POST_json (API_BASE ++ lit "/cash-snapshots/" ++ tenantId ++ lit "/" ++
        recordId ++ lit "/correct") (VObj [(lit "weekStartDate", VStr week);
        (lit "payload", payload); (lit "createdBy", VStr user); (lit "reason",
        VStr reason)]))
      (lit "Failed to create correction: ") /\
    json_write server (extractFromEvidence server tenantId recordId)
      {| url := API_BASE ++ lit "/evidence/" ++ tenantId ++ lit "/" ++
        recordId ++ lit "/extract"; method := lit "POST"; headers := []; body
        := None |}
      (lit "Failed to extract from evidence: ") /\
    json_write server (confirmCandidate server tenantId recordId user payload)
      (POST_json (API_BASE ++ lit "/evidence/" ++ tenantId ++
        lit "/candidate/" ++ recordId ++ lit "/confirm") (VObj [(lit
        "reviewedBy", VStr user); (lit "overridePayload", payload)]))
      (lit "Failed to confirm candidate: ") /\
    json_write server (rejectCandidate server tenantId recordId user reason)
      (POST_json (API_BASE ++ lit "/evidence/" ++ tenantId ++
        lit "/candidate/" ++ recordId ++ lit "/reject") (VObj [(lit
        "reviewedBy", VStr user); (lit "reason", VStr reason)]))
      (lit "Failed to reject candidate: ").
Proof.
  intros. repeat apply conj;
    [ apply createBudget_write
    | apply confirmBudget_write
    | apply createLabourPlan_write
    | apply confirmLabourPlan_write
    | apply createCashSnapshot_write
    | apply createCorrectionSnapshot_write
    | apply extractFromEvidence_write
    | apply confirmCandidate_write
    | apply rejectCandidate_write ].
Qed.

(** X9.  When the answer to [uploadEvidence] carries a content-type
    header that mentions "application/json", the upload behaves as the other
    writes do: a 2xx body is returned as parsed, another status raises the
    body's [error] text or "Failed to upload evidence: " and the status
    text, nothing is logged to the console, and the one event of the call is
    its multipart POST.  A rejected fetch rejects the call unchanged. *)
Theorem uploadEvidence_with_json_answer_is_a_plain_write :
  forall (tenantId venueId : jsstring) (file : File)
         (source uploadedBy : jsstring) (t : trace),
    let req :=
      {| url := API_BASE ++ lit "/evidence/" ++ tenantId ++ lit "/venue/"
                  ++ venueId ++ lit "/upload";
         method := lit "POST"; headers := [];
         body := Some (FormData [(lit "file", FormFile file);
                                 (lit "source", FormText source);
                                 (lit "uploadedBy", FormText uploadedBy)]) |} in
    let call := uploadEvidence server tenantId venueId file source uploadedBy in
    (forall e, server t req = Throw e ->
       run call t = (Throw e, t ++ [Fetch req])) /\
    (forall r ct,
       server t req = Ok r ->
       content_type r = Some ct ->
       includes ct (lit "application/json") = true ->
       snd (run call t) = t ++ [Fetch req] /\
       write_outcome call (lit "Failed to upload evidence: ") t r).
Proof.
  intros tenantId venueId file source uploadedBy t req call. split.
  - intros e He. unfold call, uploadEvidence. run_call. fold req.
    rewrite He. reflexivity.
  - intros r ct Hr Hct Hinc.
    assert (Hne : str_truthy ct = true).
    { destruct ct; [vm_compute in Hinc; discriminate | reflexivity]. }
    split.
    + unfold call, uploadEvidence. run_call. fold req. rewrite Hr, Hct, Hne, Hinc.
      cbn. destruct (ok r); cbn; unfold json;
        destruct (body_json r) as [m|v]; try reflexivity.
      destruct v; reflexivity.
    + unfold write_outcome. split; intros Hok; split;
        [ intros v Hb | intros m Hb | intros fields Hb | intros m Hb ];
        unfold call, uploadEvidence; run_call; fold req;
        rewrite Hr, Hct, Hne, Hinc, Hok; cbn; unfold json; rewrite Hb;
        reflexivity.
Qed.

End Props.

(** Runs of the list reads: a 404 is a failure, a body without the key an
    empty list. *)
Lemma list_reads_witness :
  fst (run (getBudgets (Scenario.always Scenario.notFound) Scenario.tenant
              Scenario.venue None) [])
    = Throw (Error (lit "Failed to fetch budgets: Not Found")) /\
  fst (run (getPendingCandidates (Scenario.always (Scenario.jsonOK (VObj [])))
              Scenario.tenant) [])
    = Ok (VArr []).
Proof.
  split.
  - destruct (@list_reads_give_the_collection_or_the_status_text Z_Number
                (Scenario.always Scenario.notFound) Scenario.tenant Scenario.venue
                (lit "budget-7") (lit "2026-01-26") (lit "2026-01-01")
                (lit "2026-01-31") None)
      as (_ & _ & _ & _ & _ & _ & HB & _).
    destruct (HB []) as (_ & _ & H).
    exact (proj1 (H Scenario.notFound eq_refl) eq_refl).
  - destruct (@list_reads_give_the_collection_or_the_status_text Z_Number
                (Scenario.always (Scenario.jsonOK (VObj []))) Scenario.tenant
                Scenario.venue (lit "budget-7") (lit "2026-01-26")
                (lit "2026-01-01") (lit "2026-01-31") None)
      as (_ & _ & _ & _ & _ & _ & _ & _ & _ & _ & _ & _ & _ & _ & HP).
    destruct (HP []) as (_ & _ & H).
    exact (proj1 (proj2 (H (Scenario.jsonOK (VObj [])) eq_refl) eq_refl)
             [] eq_refl).
Defined.

(** A run of a single-record read: a 200 without the key gives [null]. *)
Lemma record_reads_witness :
  run (getEvidence (Scenario.always (Scenario.jsonOK (VObj []))) Scenario.tenant
         (lit "ev-1")) []
    = (Ok VNull, [Fetch (GET (lit "/api/evidence/tenant-1/ev-1"))]).
Proof.
  destruct (@record_reads_give_the_record_or_null Z_Number
              (Scenario.always (Scenario.jsonOK (VObj []))) Scenario.tenant
              Scenario.venue (lit "ev-1") (lit "2026-01-26"))
    as (_ & _ & _ & _ & _ & _ & HE).
  exact (HE [] (Scenario.jsonOK (VObj [])) [] eq_refl eq_refl eq_refl).
Defined.

(** Runs of a write: a 422 with a JSON error body, and a 502 whose body is
    not JSON. *)
Lemma writes_witness :
  fst (run (rejectCandidate Scenario.refusing Scenario.tenant (lit "cand-1")
              (lit "operator-user") (lit "duplicate")) [])
    = Throw (Error (lit "name is required")) /\
  fst (run (extractFromEvidence (Scenario.always Scenario.badGateway)
              Scenario.tenant (lit "ev-1")) [])
    = Throw (SyntaxError (lit "Unexpected token 'u'")).
Proof.
  split.
  - destruct (@writes_report_the_backend_error_or_the_status_text Z_Number
                Scenario.refusing Scenario.tenant Scenario.venue (lit "cand-1")
                (lit "2026-01-26") (lit "operator-user") (lit "duplicate") VNull)
      as (_ & _ & _ & _ & _ & _ & _ & _ & HR).
    destruct (HR []) as (_ & _ & H).
    refine (proj1 (proj2 (H _ eq_refl) eq_refl) _ eq_refl).
  - destruct (@writes_report_the_backend_error_or_the_status_text Z_Number
                (Scenario.always Scenario.badGateway) Scenario.tenant
                Scenario.venue (lit "ev-1") (lit "2026-01-26")
                (lit "operator-user") (lit "duplicate") VNull)
      as (_ & _ & _ & _ & _ & _ & HX & _).
    destruct (HX []) as (_ & _ & H).
    exact (proj2 (proj2 (H Scenario.badGateway eq_refl) eq_refl) _ eq_refl).
Defined.

(** A run of the upload against a backend that refuses it with a JSON
    body. *)
Lemma uploadEvidence_json_answer_witness :
  fst (run (uploadEvidence Scenario.refusing Scenario.tenant Scenario.venue
              Scenario.rotaCsv (lit "rota") (lit "operator-user")) [])
    = Throw (Error (lit "name is required")).
Proof.
  destruct (@uploadEvidence_with_json_answer_is_a_plain_write Z_Number
              Scenario.refusing Scenario.tenant Scenario.venue Scenario.rotaCsv
              (lit "rota") (lit "operator-user") []) as (_ & H).
  destruct (H _ (lit "application/json") eq_refl eq_refl eq_refl) as (_ & _ & Hbad).
  exact (proj1 (Hbad eq_refl) _ eq_refl).
Defined.

End ClientFamilies.

(** ** Page handlers: shared facts *)

Module HandlerFacts.
Import JS Net PageContract StringFacts NetFacts.
Local Open Scope Z_scope.

#[export] Hint Unfold
  BudgetPageRest.setVersions BudgetPageRest.setLoading
  LabourPageRest.setVersions LabourPageRest.setLoading
  CashPageRest.setLoading CashPageRest.setCorrectionData
  EvidencePageRest.setLoading EvidencePageRest.console_log
  console_error emit
  : handler.

Section Facts.
Context {Num : Number}.

(** A body wrapped in [try { } catch (err) { ... } finally { setFlag(false) }]
    whose catch block cannot throw never throws, and ends with the flag
    lowered. *)
Lemma guarded_settles_with {S : Type} (body : M S unit)
    (handler : thrown -> M S unit) (with_flag : bool -> S -> S)
    (flag : S -> bool) :
  (forall b s, flag (with_flag b s) = b) ->
  (forall e s t, exists s' t', handler e s t = (Ok tt, s', t')) ->
  forall s t, exists s' t',
    try_finally (try_catch body handler) (modify (with_flag false)) s t
      = (Ok tt, s', t') /\
    flag s' = false.
Proof.
  intros Hflag Hh s t. unfold try_finally, try_catch, modify.
  destruct (body s t) as [[[[]|e] s1] t1].
  - eexists; eexists; split; [reflexivity|apply Hflag].
  - destruct (Hh e s1 t1) as (s2 & t2 & ->).
    eexists; eexists; split; [reflexivity|apply Hflag].
Qed.

Lemma guarded_settles {S : Type} (body : M S unit)
    (with_error : option jsstring -> S -> S) (with_flag : bool -> S -> S)
    (flag : S -> bool) (fallback : jsstring) :
  (forall b s, flag (with_flag b s) = b) ->
  forall s t, exists s' t',
    try_finally
      (try_catch body
         (fun err => modify (with_error (Some (message_or err fallback)))))
      (modify (with_flag false)) s t = (Ok tt, s', t') /\
    flag s' = false.
Proof.
  intros Hflag. apply guarded_settles_with; [exact Hflag|].
  intros e s t. eexists; eexists; reflexivity.
Qed.

Lemma get_of_object_like (v : value) (k : jsstring) :
  v <> VNull -> v <> VUndefined -> exists x, get v k = Ok x.
Proof.
  intros Hn Hu. destruct v; try contradiction; eexists; reflexivity.
Qed.

Lemma truthy_get (v : value) (k : jsstring) :
  truthy v = true -> get v k = Ok (field v k).
Proof.
  unfold field. destruct v; cbn; try discriminate; reflexivity.
Qed.

End Facts.

(** Runs the two setters that open a write handler, then closes the goal
    with [guarded_settles]. *)
Ltac settle with_error with_flag flag fallback :=
  unfold bind at 1 2; unfold modify at 1 2; cbn beta iota;
  match goal with
  | |- exists st' t', try_finally (try_catch ?body _) _ ?s ?t = _ /\ _ =>
      let s' := fresh "s'" in
      let t' := fresh "t'" in
      let Hrun := fresh "Hrun" in
      let Hb := fresh "Hb" in
      destruct (guarded_settles body with_error with_flag flag fallback
                  ltac:(reflexivity) s t) as (s' & t' & Hrun & Hb);
      exists s', t'; split; [exact Hrun|];
      split; [discriminate | intros _; exact Hb]
  end.

Section Settle.
Context {Num : Number}.
Variable server : Server.
Variables tenantId venueId selectedWeek : jsstring.

Lemma handleCreateBudget_settles :
  settles (fun _ => negb (str_truthy venueId)) BudgetPage.submitting
    (BudgetPage.handleCreateBudget server tenantId venueId).
Proof.
  intros st t. unfold BudgetPage.handleCreateBudget.
  destruct (str_truthy venueId); cbn [negb].
  - unfold BudgetPage.setSubmitting, BudgetPage.setError.
    settle BudgetPage.with_error BudgetPage.with_submitting BudgetPage.submitting
      (lit "Failed to create budget").
  - exists st, t. repeat split; discriminate.
Qed.

Lemma handleConfirmBudget_settles (budget : value) :
  settles (fun _ => false) BudgetPage.submitting
    (fun st => BudgetPage.handleConfirmBudget server tenantId venueId st budget).
Proof.
  intros st t. unfold BudgetPage.handleConfirmBudget.
  unfold BudgetPage.setSubmitting, BudgetPage.setError.
  settle BudgetPage.with_error BudgetPage.with_submitting BudgetPage.submitting
    (lit "Failed to confirm budget").
Qed.

Lemma handleCreateLabourPlan_settles :
  settles (fun _ => negb (str_truthy venueId)) LabourPage.submitting
    (LabourPage.handleCreateLabourPlan server tenantId venueId).
Proof.
  intros st t. unfold LabourPage.handleCreateLabourPlan.
  destruct (str_truthy venueId); cbn [negb].
  - unfold LabourPage.setSubmitting, LabourPage.setError.
    settle LabourPage.with_error LabourPage.with_submitting LabourPage.submitting
      (lit "Failed to create labour plan").
  - exists st, t. repeat split; discriminate.
Qed.

Lemma handleConfirmLabourPlan_settles (plan : value) :
  settles (fun _ => false) LabourPage.submitting
    (fun st => LabourPage.handleConfirmLabourPlan server tenantId venueId st plan).
Proof.
  intros st t. unfold LabourPage.handleConfirmLabourPlan.
  unfold LabourPage.setSubmitting, LabourPage.setError.
  settle LabourPage.with_error LabourPage.with_submitting LabourPage.submitting
    (lit "Failed to confirm labour plan").
Qed.

Lemma handleCreateSnapshot_settles :
  settles (fun _ => negb (str_truthy venueId)) CashPage.submitting
    (CashPage.handleCreateSnapshot server tenantId venueId selectedWeek).
Proof.
  intros st t. unfold CashPage.handleCreateSnapshot.
  destruct (str_truthy venueId); cbn [negb].
  - unfold CashPage.setSubmitting, CashPage.setError.
    settle CashPage.with_error CashPage.with_submitting CashPage.submitting
      (lit "Failed to create snapshot").
  - exists st, t. repeat split; discriminate.
Qed.

Lemma handleSubmitCorrection_settles :
  settles
    (fun st => negb (truthy (CashPage.correctionTarget st))
               || negb (str_truthy (trim (CashPage.correctionReason st))))
    CashPage.submitting
    (CashPage.handleSubmitCorrection server tenantId selectedWeek).
Proof.
  intros st t. unfold CashPage.handleSubmitCorrection.
  destruct (negb (truthy (CashPage.correctionTarget st))
            || negb (str_truthy (trim (CashPage.correctionReason st)))).
  - exists st, t. repeat split; discriminate.
  - unfold CashPage.setSubmitting, CashPage.setError.
    settle CashPage.with_error CashPage.with_submitting CashPage.submitting
      (lit "Failed to create correction").
Qed.

Lemma handleUpload_settles :
  settles
    (fun st => negb (str_truthy venueId)
               || match EvidencePage.selectedFile st with
                  | Some _ => false
                  | None => true
                  end)
    EvidencePage.submitting
    (EvidencePage.handleUpload server tenantId venueId).
Proof.
  intros st t. unfold EvidencePage.handleUpload.
  destruct (str_truthy venueId); cbn [negb orb].
  - destruct (EvidencePage.selectedFile st) as [file|].
    + unfold EvidencePage.setSubmitting, EvidencePage.setError.
      settle EvidencePage.with_error EvidencePage.with_submitting
        EvidencePage.submitting (lit "Failed to upload evidence").
    + exists st, t. repeat split; discriminate.
  - exists st, t. repeat split; discriminate.
Qed.

Lemma handleConfirm_settles (candidate : value) :
  settles (fun _ => false) EvidencePage.submitting
    (fun st => EvidencePage.handleConfirm server tenantId st candidate).
Proof.
  intros st t. unfold EvidencePage.handleConfirm.
  unfold EvidencePage.setSubmitting, EvidencePage.setError.
  settle EvidencePage.with_error EvidencePage.with_submitting
    EvidencePage.submitting (lit "Failed to confirm candidate").
Qed.

Lemma handleReject_settles :
  settles
    (fun st => negb (truthy (EvidencePage.rejectTarget st))
               || negb (str_truthy (trim (EvidencePage.rejectReason st))))
    EvidencePage.submitting
    (EvidencePage.handleReject server tenantId).
Proof.
  intros st t. unfold EvidencePage.handleReject.
  destruct (negb (truthy (EvidencePage.rejectTarget st))
            || negb (str_truthy (trim (EvidencePage.rejectReason st)))).
  - exists st, t. repeat split; discriminate.
  - unfold EvidencePage.setSubmitting, EvidencePage.setError.
    settle EvidencePage.with_error EvidencePage.with_submitting
      EvidencePage.submitting (lit "Failed to reject candidate").
Qed.

Lemma handleExtract_settles (number_of_nat : nat -> number) (evidence : value) :
  evidence <> VNull -> evidence <> VUndefined ->
  settles (fun _ => false) EvidencePage.submitting
    (fun _ => EvidencePageRest.handleExtract server number_of_nat tenantId
                evidence).
Proof.
  intros Hn Hu st t. unfold EvidencePageRest.handleExtract.
  destruct (get_of_object_like evidence (lit "id") Hn Hu) as (id & Hid).
  destruct (get_of_object_like evidence (lit "fileName") Hn Hu) as (name & Hname).
  rewrite Hid, Hname.
  unfold bind at 1 2 3 4 5. unfold eval at 1 2.
  unfold EvidencePageRest.console_log at 1. unfold emit at 1.
  unfold EvidencePage.setSubmitting, EvidencePage.setError.
  unfold modify at 1 2. cbn beta iota.
  match goal with
  | |- exists st' t', try_finally (try_catch ?body ?hd) _ ?s ?t0 = _ /\ _ =>
      destruct (guarded_settles_with body hd EvidencePage.with_submitting
                  EvidencePage.submitting ltac:(reflexivity)
                  ltac:(intros; eexists; eexists; reflexivity) s t0)
        as (s' & t' & Hrun & Hb)
  end.
  exists s', t'. split; [exact Hrun|]. split; [discriminate|intros _; exact Hb].
Qed.

End Settle.
End HandlerFacts.

(** ** Objects and arrays *)

Module ObjectFacts.
Import JS JSObject StringFacts.
Local Open Scope Z_scope.

Section Facts.
Context {Num : Number}.

Lemma str_eqb_refl (a : jsstring) : str_eqb a a = true.
Proof.
  induction a as [|x a IH]; [reflexivity|].
  cbn. now rewrite N.eqb_refl, IH.
Qed.

Lemma str_eqb_neq (a b : jsstring) : a <> b -> str_eqb a b = false.
Proof.
  intros H. destruct (str_eqb a b) eqn:E; [|reflexivity].
  now apply str_eqb_eq in E.
Qed.

Lemma lookup_set_prop (k : jsstring) (v : value) (fields : list (jsstring * value)) :
  lookup k (set_prop k v fields) = v.
Proof.
  induction fields as [|[k' v'] r IH]; cbn.
  - now rewrite str_eqb_refl.
  - destruct (str_eqb k k') eqn:E; cbn; now rewrite E.
Qed.

Lemma lookup_set_prop_other (k k0 : jsstring) (v : value)
    (fields : list (jsstring * value)) :
  k0 <> k -> lookup k0 (set_prop k v fields) = lookup k0 fields.
Proof.
  intros Hne. induction fields as [|[k' v'] r IH]; cbn.
  - now rewrite (str_eqb_neq _ _ Hne).
  - destruct (str_eqb k k') eqn:E; cbn.
    + apply str_eqb_eq in E. subst k'. now rewrite (str_eqb_neq _ _ Hne).
    + destruct (str_eqb k0 k'); [reflexivity|exact IH].
Qed.

Lemma splice1_length (index : nat) (items : list value) :
  (index < List.length items)%nat ->
  List.length (splice1 index items) = (List.length items - 1)%nat.
Proof.
  intros H. unfold splice1.
  rewrite length_app, length_firstn, length_skipn. lia.
Qed.

Lemma splice1_last (items : list value) (x : value) :
  splice1 (List.length items) (items ++ [x]) = items.
Proof.
  unfold splice1.
  rewrite firstn_app, firstn_all, Nat.sub_diag. cbn [firstn].
  rewrite skipn_all2 by (rewrite length_app; cbn; lia).
  now rewrite !app_nil_r.
Qed.

Lemma splice1_nth_error (index j : nat) (items : list value) :
  (index < List.length items)%nat ->
  nth_error (splice1 index items) j
  = if Nat.ltb j index then nth_error items j else nth_error items (S j).
Proof.
  intros Hi. unfold splice1.
  assert (Hlen : List.length (firstn index items) = index)
    by (rewrite length_firstn; lia).
  destruct (Nat.ltb_spec j index) as [Hlt|Hge].
  - rewrite nth_error_app1 by lia. rewrite nth_error_firstn.
    destruct (Nat.ltb_spec j index); [reflexivity|lia].
  - rewrite nth_error_app2 by lia. rewrite Hlen, nth_error_skipn.
    f_equal. lia.
Qed.

Lemma assign_index_length (index : nat) (x : value) (items : list value) :
  (index < List.length items)%nat ->
  List.length (assign_index index x items) = List.length items.
Proof.
  intros Hi. unfold assign_index.
  destruct (Nat.ltb_spec index (List.length items)); [|lia].
  rewrite length_app, length_firstn. cbn [List.length]. rewrite length_skipn. lia.
Qed.

Lemma assign_index_nth_error (index j : nat) (x : value) (items : list value) :
  (index < List.length items)%nat ->
  nth_error (assign_index index x items) j
  = if Nat.eqb j index then Some x else nth_error items j.
Proof.
  intros Hi. unfold assign_index.
  destruct (Nat.ltb_spec index (List.length items)); [|lia].
  assert (Hlen : List.length (firstn index items) = index)
    by (rewrite length_firstn; lia).
  destruct (Nat.eqb_spec j index) as [->|Hne].
  - rewrite nth_error_app2 by lia. now rewrite Hlen, Nat.sub_diag.
  - destruct (Nat.lt_ge_cases j index) as [Hlt|Hge].
    + rewrite nth_error_app1 by lia. rewrite nth_error_firstn.
      destruct (Nat.ltb_spec j index); [reflexivity|lia].
    + rewrite nth_error_app2 by lia. rewrite Hlen.
      destruct (j - index)%nat as [|d] eqn:Ed; [lia|].
      cbn [nth_error]. rewrite nth_error_skipn. f_equal. lia.
Qed.

Lemma at_index_nth_error (index : nat) (items : list value) (x : value) :
  nth_error items index = Some x -> at_index index items = x.
Proof. intros H. unfold at_index. now apply nth_error_nth. Qed.

End Facts.
End ObjectFacts.

(** ** Workflow pages: what the handlers leave behind *)

Module WorkflowProps.
Import JS Net JSObject PageContract StringFacts NetFacts HandlerFacts ObjectFacts.
Local Open Scope Z_scope.

Section Confirm.
Context {Num : Number}.
Variable server : Server.
Variables tenantId venueId : jsstring.

Lemma budget_confirm_outcomes (st : BudgetPage.state)
    (fields : list (jsstring * value)) (t t1 : trace) (result : value) :
  Net.run (Client.confirmBudget server tenantId
             (ToString (lookup (lit "id") fields)) (lookup (lit "payload") fields)
             BudgetPage.CURRENT_USER_ID) t = (Ok result, t1) ->
  forall (r : JS.result value) (t2 : trace),
    Net.run (Client.getBudgets server tenantId venueId
               (BudgetPage.filterArg (BudgetPage.statusFilter st))) t1 = (r, t2) ->
    BudgetPage.run
      (fun s => BudgetPage.handleConfirmBudget server tenantId venueId s
                  (VObj fields)) st t
    = (Ok tt,
       match r with
       | Ok data =>
           match get result (lit "budget") with
           | Ok confirmed =>
               BudgetPage.with_submitting false
                 (BudgetPage.with_selectedBudget confirmed
                    (BudgetPage.with_budgets data (BudgetPage.with_error None st)))
           | Throw e =>
               BudgetPage.with_submitting false
                 (BudgetPage.with_error
                    (Some (message_or e (lit "Failed to confirm budget")))
                    (BudgetPage.with_budgets data st))
           end
       | Throw e =>
           BudgetPage.with_submitting false
             (BudgetPage.with_error
                (Some (message_or e (lit "Failed to confirm budget"))) st)
       end, t2).
Proof.
  intros Hc r t2 Hr.
  unfold BudgetPage.run, BudgetPage.handleConfirmBudget. run_handler.
  rewrite (lift_run _ _ _ _ _ Hc). cbn beta iota.
  rewrite (lift_run _ _ _ _ _ Hr).
  destruct r as [data|e]; cbn beta iota.
  - destruct (get result (lit "budget")); reflexivity.
  - reflexivity.
Qed.

Lemma labour_confirm_outcomes (st : LabourPage.state)
    (fields : list (jsstring * value)) (t t1 : trace) (result : value) :
  Net.run (Client.confirmLabourPlan server tenantId
             (ToString (lookup (lit "id") fields)) (lookup (lit "payload") fields)
             LabourPage.CURRENT_USER_ID) t = (Ok result, t1) ->
  forall (r : JS.result value) (t2 : trace),
    Net.run (Client.getLabourPlans server tenantId venueId
               (LabourPage.filterArg (LabourPage.statusFilter st))) t1 = (r, t2) ->
    LabourPage.run
      (fun s => LabourPage.handleConfirmLabourPlan server tenantId venueId s
                  (VObj fields)) st t
    = (Ok tt,
       match r with
       | Ok data =>
           match get result (lit "labourPlan") with
           | Ok confirmed =>
               LabourPage.with_submitting false
                 (LabourPage.with_selectedPlan confirmed
                    (LabourPage.with_labourPlans data
                       (LabourPage.with_error None st)))
           | Throw e =>
               LabourPage.with_submitting false
                 (LabourPage.with_error
                    (Some (message_or e (lit "Failed to confirm labour plan")))
                    (LabourPage.with_labourPlans data st))
           end
       | Throw e =>
           LabourPage.with_submitting false
             (LabourPage.with_error
                (Some (message_or e (lit "Failed to confirm labour plan"))) st)
       end, t2).
Proof.
  intros Hc r t2 Hr.
  unfold LabourPage.run, LabourPage.handleConfirmLabourPlan. run_handler.
  rewrite (lift_run _ _ _ _ _ Hc). cbn beta iota.
  rewrite (lift_run _ _ _ _ _ Hr).
  destruct r as [data|e]; cbn beta iota.
  - destruct (get result (lit "labourPlan")); reflexivity.
  - reflexivity.
Qed.

End Confirm.

Section Review.
Context {Num : Number}.
Variable server : Server.
Variable tenantId : jsstring.
Import EvidencePage.

Lemma handleConfirm_outcomes (st : state) (fields efields : list (jsstring * value))
    (t t1 t2 t3 : trace) (w : value) (r1 r2 : JS.result value) :
  Net.run (Client.confirmCandidate server tenantId
             (ToString (lookup (lit "id") fields)) CURRENT_USER_ID VUndefined) t
    = (Ok w, t1) ->
  selectedEvidence st = VObj efields ->
  Net.run (Client.getCandidatesByEvidence server tenantId
             (ToString (lookup (lit "id") efields))) t1 = (r1, t2) ->
  Net.run (Client.getPendingCandidates server tenantId) t2 = (r2, t3) ->
  run (fun s => handleConfirm server tenantId s (VObj fields)) st t
  = match r1 with
    | Throw e =>
        (Ok tt,
         with_submitting false
           (with_error (Some (message_or e (lit "Failed to confirm candidate")))
              st), t2)
    | Ok data =>
        match r2 with
        | Ok pending =>
            (Ok tt,
             with_submitting false
               (with_pendingCandidates pending
                  (with_candidates data (with_error None st))), t3)
        | Throw e =>
            (Ok tt,
             with_submitting false
               (with_error
                  (Some (message_or e (lit "Failed to confirm candidate")))
                  (with_candidates data st)), t3)
        end
    end.
Proof.
  intros Hw Hsel H1 H2.
  unfold run, handleConfirm. run_handler.
  rewrite (lift_run _ _ _ _ _ Hw). cbn beta iota.
  rewrite Hsel. cbn beta iota delta [truthy lookup get].
  rewrite (lift_run _ _ _ _ _ H1).
  destruct r1 as [data|e]; cbn beta iota; [|reflexivity].
  rewrite (lift_run _ _ _ _ _ H2).
  destruct r2 as [pending|e]; reflexivity.
Qed.

Lemma handleConfirm_unselected (st : state) (fields : list (jsstring * value))
    (t t1 t2 : trace) (w : value) (r : JS.result value) :
  Net.run (Client.confirmCandidate server tenantId
             (ToString (lookup (lit "id") fields)) CURRENT_USER_ID VUndefined) t
    = (Ok w, t1) ->
  selectedEvidence st = VNull ->
  Net.run (Client.getPendingCandidates server tenantId) t1 = (r, t2) ->
  run (fun s => handleConfirm server tenantId s (VObj fields)) st t
  = (Ok tt,
     match r with
     | Ok pending =>
         with_submitting false
           (with_pendingCandidates pending (with_error None st))
     | Throw e =>
         with_submitting false
           (with_error (Some (message_or e (lit "Failed to confirm candidate")))
              st)
     end, t2).
Proof.
  intros Hw Hsel H1.
  unfold run, handleConfirm. run_handler.
  rewrite (lift_run _ _ _ _ _ Hw). cbn beta iota.
  rewrite Hsel. cbn beta iota delta [truthy].
  rewrite (lift_run _ _ _ _ _ H1).
  destruct r as [pending|e]; reflexivity.
Qed.

Lemma handleReject_outcomes (st : state) (efields : list (jsstring * value))
    (t t1 t2 t3 : trace) (id w : value) (r1 r2 : JS.result value) :
  truthy (rejectTarget st) = true ->
  str_truthy (trim (rejectReason st)) = true ->
  get (rejectTarget st) (lit "id") = Ok id ->
  Net.run (Client.rejectCandidate server tenantId (ToString id) CURRENT_USER_ID
             (rejectReason st)) t = (Ok w, t1) ->
  selectedEvidence st = VObj efields ->
  Net.run (Client.getCandidatesByEvidence server tenantId
             (ToString (lookup (lit "id") efields))) t1 = (r1, t2) ->
  Net.run (Client.getPendingCandidates server tenantId) t2 = (r2, t3) ->
  run (handleReject server tenantId) st t
  = match r1 with
    | Throw e =>
        (Ok tt,
         with_submitting false
           (with_error (Some (message_or e (lit "Failed to reject candidate")))
              st), t2)
    | Ok data =>
        match r2 with
        | Ok pending =>
            (Ok tt,
             with_submitting false
               (with_rejectReason []
                  (with_rejectTarget VNull
                     (with_showRejectForm false
                        (with_pendingCandidates pending
                           (with_candidates data (with_error None st)))))), t3)
        | Throw e =>
            (Ok tt,
             with_submitting false
               (with_error
                  (Some (message_or e (lit "Failed to reject candidate")))
                  (with_candidates data st)), t3)
        end
    end.
Proof.
  intros Htarget Hreason Hid Hw Hsel H1 H2.
  unfold run, handleReject. rewrite Htarget, Hreason. run_handler.
  rewrite Hid. rewrite (lift_run _ _ _ _ _ Hw). cbn beta iota.
  rewrite Hsel. cbn beta iota delta [truthy lookup get].
  rewrite (lift_run _ _ _ _ _ H1).
  destruct r1 as [data|e]; cbn beta iota; [|reflexivity].
  rewrite (lift_run _ _ _ _ _ H2).
  destruct r2 as [pending|e]; reflexivity.
Qed.

End Review.

Section Extract.
Context {Num : Number}.
Variable server : Server.
Variable number_of_nat : nat -> number.
Variable tenantId : jsstring.
Import EvidencePage EvidencePageRest.

Lemma handleExtract_failure (st : state) (fields : list (jsstring * value))
    (t t1 : trace) (e : thrown) :
  Net.run (ClientRest.extractFromEvidence server tenantId
             (ToString (lookup (lit "id") fields)))
    (extract_started tenantId t fields) = (Throw e, t1) ->
  run (fun _ => handleExtract server number_of_nat tenantId (VObj fields)) st t
  = (Ok tt,
     with_submitting false
       (with_error (Some (message_or e (lit "Failed to extract from evidence")))
          st),
     t1 ++ [Console (lit "error")
              [VStr (lit "[EXTRACT] Error:"); thrown_value e]]).
Proof.
  intros Hx. unfold run, handleExtract. run_handler.
  unfold extract_started in Hx.
  rewrite (lift_run _ _ _ _ _ Hx). reflexivity.
Qed.

Lemma handleExtract_success (st : state) (fields rfields : list (jsstring * value))
    (t t1 t2 : trace) (r : JS.result value) :
  Net.run (ClientRest.extractFromEvidence server tenantId
             (ToString (lookup (lit "id") fields)))
    (extract_started tenantId t fields) = (Ok (VObj rfields), t1) ->
  Net.run (Client.getPendingCandidates server tenantId)
    (t1 ++ [Console (lit "log")
              [VStr (lit "[EXTRACT] API response:"); VObj rfields]])
    = (r, t2) ->
  run (fun _ => handleExtract server number_of_nat tenantId (VObj fields)) st t
  = match r with
    | Ok pending =>
        match get_length number_of_nat pending with
        | Ok n =>
            (Ok tt,
             with_submitting false
               (with_pendingCandidates pending
                  (with_candidates (lookup (lit "candidates") rfields)
                     (with_error None st))),
             t2 ++ [Console (lit "log")
                      [VStr (lit "[EXTRACT] Pending candidates refreshed:"); n]])
        | Throw e =>
            (Ok tt,
             with_submitting false
               (with_error
                  (Some (message_or e (lit "Failed to extract from evidence")))
                  (with_candidates (lookup (lit "candidates") rfields) st)),
             t2 ++ [Console (lit "error")
                      [VStr (lit "[EXTRACT] Error:"); thrown_value e]])
        end
    | Throw e =>
        (Ok tt,
         with_submitting false
           (with_error
              (Some (message_or e (lit "Failed to extract from evidence")))
              (with_candidates (lookup (lit "candidates") rfields) st)),
         t2 ++ [Console (lit "error")
                  [VStr (lit "[EXTRACT] Error:"); thrown_value e]])
    end.
Proof.
  intros Hx Hp. unfold run, handleExtract. run_handler.
  unfold extract_started in Hx.
  rewrite (lift_run _ _ _ _ _ Hx). cbn beta iota delta [get].
  rewrite (lift_run _ _ _ _ _ Hp).
  destruct r as [pending|e]; cbn beta iota; [|reflexivity].
  destruct (get_length number_of_nat pending); reflexivity.
Qed.

End Extract.

Section Cash.
Context {Num : Number}.
Variable server : Server.
Variables tenantId venueId selectedWeek : jsstring.
Import CashPage CashPageRest.

Lemma correctButtonRendered_not_latest (snapshot : value) :
  correctButtonRendered false snapshot = false.
Proof.
  unfold correctButtonRendered. destruct (get snapshot (lit "isCorrection"));
    reflexivity.
Qed.

Lemma no_button_after_the_first (k : nat) (items : list value) :
  filter (fun card : nat * value =>
            correctButtonRendered (Nat.eqb (fst card) 0) (snd card))
    (combine (seq (S k) (List.length items)) items) = [].
Proof.
  revert k. induction items as [|x rest IH]; intros k; [reflexivity|].
  cbn [List.length seq combine filter fst snd Nat.eqb].
  rewrite correctButtonRendered_not_latest. apply IH.
Qed.

Lemma correctButtons_cons (s : state) (x : value) (rest : list value) :
  weekHistory s = VArr (x :: rest) ->
  correctButtons s = if correctButtonRendered true x then [x] else [].
Proof.
  intros H. unfold correctButtons. rewrite H.
  cbn [List.length seq combine filter fst snd Nat.eqb].
  rewrite no_button_after_the_first.
  destruct (correctButtonRendered true x); reflexivity.
Qed.

Lemma handleSubmitCorrection_success (st : state) (t t1 : trace)
    (id result record : value) (items history : list value) :
  truthy (correctionTarget st) = true ->
  str_truthy (trim (correctionReason st)) = true ->
  get (correctionTarget st) (lit "id") = Ok id ->
  snapshots st = VArr items ->
  weekHistory st = VArr history ->
  Net.run (Client.createCorrectionSnapshot server tenantId (ToString id)
             selectedWeek (correctionData st) CURRENT_USER_ID
             (correctionReason st)) t = (Ok result, t1) ->
  get result (lit "snapshot") = Ok record ->
  run (handleSubmitCorrection server tenantId selectedWeek) st t
  = (Ok tt,
     with_submitting false
       (with_correctionReason []
          (with_correctionTarget VNull
             (with_showCorrectionForm false
                (with_weekHistory (VArr (record :: history))
                   (with_snapshots (VArr (record :: items))
                      (with_error None st)))))), t1).
Proof.
  intros Htarget Hreason Hid Hs Hw Hrun Hget.
  unfold run, handleSubmitCorrection. rewrite Htarget, Hreason. run_handler.
  rewrite Hid. rewrite (lift_run _ _ _ _ _ Hrun), Hget, Hs, Hw. reflexivity.
Qed.

Lemma handleStartCorrection_run (st : state) (t : trace)
    (sfields pfields : list (jsstring * value)) :
  lookup (lit "payload") sfields = VObj pfields ->
  run (fun _ => handleStartCorrection (VObj sfields)) st t
  = (Ok tt,
     with_showCorrectionForm true
       (with_correctionReason []
          (with_correctionData
             (VObj [(lit "revenue",
                     or_else (lookup (lit "revenue") pfields) (VNum number_zero));
                    (lit "costs",
                     or_else (lookup (lit "costs") pfields) (VNum number_zero));
                    (lit "notes",
                     or_else (lookup (lit "notes") pfields) (VStr []))])
             (with_correctionTarget (VObj sfields) st))), t).
Proof.
  intros Hp. unfold run, handleStartCorrection. run_handler.
  rewrite Hp. reflexivity.
Qed.

End Cash.

Section Roles.
Context {Num : Number}.
Import LabourPage LabourPageRest.

Lemma rolesCopy_array (st : state) (fields : list (jsstring * value))
    (items : list value) :
  formData st = VObj fields ->
  or_else (lookup (lit "roles") fields) (VArr []) = VArr items ->
  rolesCopy st = Ok items.
Proof.
  intros Hf Hr. unfold rolesCopy. rewrite Hf. cbn [get]. now rewrite Hr.
Qed.

(** Every role handler stores the form with only its [roles] replaced. *)
Lemma roles_replaced (st : state) (fields : list (jsstring * value))
    (rows : list value) :
  formData st = VObj fields ->
  roles_become st
    (with_formData
       (VObj (set_prop (lit "roles") (VArr rows) (own_props (formData st)))) st)
    fields rows.
Proof.
  intros Hf. rewrite Hf. cbn [own_props]. eexists. split; [reflexivity|]. split.
  - apply lookup_set_prop.
  - intros k Hk. now apply lookup_set_prop_other.
Qed.

Lemma handleAddRole_run (st : state) (fields : list (jsstring * value))
    (items : list value) (t : trace) :
  formData st = VObj fields ->
  or_else (lookup (lit "roles") fields) (VArr []) = VArr items ->
  exists st1,
    run handleAddRole st t = (Ok tt, st1, t) /\
    roles_become st st1 fields (items ++ [blankRole]).
Proof.
  intros Hf Hr. unfold run, handleAddRole. run_handler.
  rewrite (rolesCopy_array st fields items Hf Hr).
  eexists. split; [reflexivity|]. now apply roles_replaced.
Qed.

Lemma handleRemoveRole_run (st : state) (fields : list (jsstring * value))
    (items : list value) (index : nat) (t : trace) :
  formData st = VObj fields ->
  or_else (lookup (lit "roles") fields) (VArr []) = VArr items ->
  exists st1,
    run (fun s => handleRemoveRole s index) st t = (Ok tt, st1, t) /\
    roles_become st st1 fields (splice1 index items).
Proof.
  intros Hf Hr. unfold run, handleRemoveRole. run_handler.
  rewrite (rolesCopy_array st fields items Hf Hr).
  eexists. split; [reflexivity|]. now apply roles_replaced.
Qed.

Lemma handleRoleChange_run (st : state) (fields : list (jsstring * value))
    (items : list value) (index : nat) (k : jsstring) (v : value) (t : trace) :
  formData st = VObj fields ->
  or_else (lookup (lit "roles") fields) (VArr []) = VArr items ->
  exists st1,
    run (fun s => handleRoleChange s index k v) st t = (Ok tt, st1, t) /\
    roles_become st st1 fields
      (assign_index index
         (VObj (set_prop k v (own_props (at_index index items)))) items).
Proof.
  intros Hf Hr. unfold run, handleRoleChange. run_handler.
  rewrite (rolesCopy_array st fields items Hf Hr).
  eexists. split; [reflexivity|]. now apply roles_replaced.
Qed.

End Roles.

Section Loaders.
Context {Num : Number}.
Variable server : Server.
Variables tenantId venueId selectedWeek : jsstring.

Ltac list_loader_tac Hv :=
  run_handler;
  match goal with
  | H : Net.run _ _ = _ |- _ => rewrite (lift_run _ _ _ _ _ H)
  end; reflexivity.

Lemma loadBudgets_loader :
  list_loader (BudgetPageRest.loadBudgets server tenantId venueId)
    (negb (str_truthy venueId))
    (fun st => Client.getBudgets server tenantId venueId
                 (BudgetPage.filterArg (BudgetPage.statusFilter st)))
    BudgetPage.with_budgets BudgetPageRest.with_loading BudgetPage.with_error
    (lit "Failed to load budgets").
Proof.
  intros st t. unfold BudgetPageRest.loadBudgets.
  split; intros Hv; rewrite Hv; [reflexivity|].
  split; [intros data t' Hrun | intros e t' Hrun]; list_loader_tac Hv.
Qed.

Lemma loadLabourPlans_loader :
  list_loader (LabourPageRest.loadLabourPlans server tenantId venueId)
    (negb (str_truthy venueId))
    (fun st => Client.getLabourPlans server tenantId venueId
                 (LabourPage.filterArg (LabourPage.statusFilter st)))
    LabourPage.with_labourPlans LabourPageRest.with_loading LabourPage.with_error
    (lit "Failed to load labour plans").
Proof.
  intros st t. unfold LabourPageRest.loadLabourPlans.
  split; intros Hv; rewrite Hv; [reflexivity|].
  split; [intros data t' Hrun | intros e t' Hrun]; list_loader_tac Hv.
Qed.

Lemma loadSnapshots_loader :
  list_loader (fun _ => CashPageRest.loadSnapshots server tenantId venueId)
    (negb (str_truthy venueId))
    (fun _ => ClientRest.getCashSnapshots server tenantId venueId)
    CashPage.with_snapshots CashPageRest.with_loading CashPage.with_error
    (lit "Failed to load snapshots").
Proof.
  intros st t. unfold CashPageRest.loadSnapshots.
  split; intros Hv; rewrite Hv; [reflexivity|].
  split; [intros data t' Hrun | intros e t' Hrun]; list_loader_tac Hv.
Qed.

Lemma loadEvidence_loader :
  list_loader (EvidencePageRest.loadEvidence server tenantId venueId)
    (negb (str_truthy venueId))
    (fun st => ClientRest.getEvidenceByVenue server tenantId venueId
                 (EvidencePageRest.sourceArg (EvidencePage.sourceFilter st)))
    EvidencePage.with_evidenceList EvidencePageRest.with_loading
    EvidencePage.with_error (lit "Failed to load evidence").
Proof.
  intros st t. unfold EvidencePageRest.loadEvidence.
  split; intros Hv; rewrite Hv; [reflexivity|].
  split; [intros data t' Hrun | intros e t' Hrun]; list_loader_tac Hv.
Qed.

Ltac detail_tac :=
  run_handler;
  match goal with
  | H : Net.run _ _ = _ |- _ => rewrite (lift_run _ _ _ _ _ H)
  end; reflexivity.

Lemma budget_loadVersions_loader :
  detail_loader (BudgetPageRest.loadVersions server tenantId)
    (fun st => negb (truthy (BudgetPage.selectedBudget st)))
    (fun st => ClientRest.getBudgetVersions server tenantId
                 (ToString (field (BudgetPage.selectedBudget st) (lit "id"))))
    BudgetPageRest.with_versions (lit "Failed to load versions:") (fun st => st).
Proof.
  intros st t. unfold BudgetPageRest.loadVersions.
  split; intros Hv; rewrite Hv; [reflexivity|].
  apply negb_false_iff in Hv.
  rewrite (truthy_get _ (lit "id") Hv).
  split; [intros data t' Hrun | intros e t' Hrun]; detail_tac.
Qed.

Lemma labour_loadVersions_loader :
  detail_loader (LabourPageRest.loadVersions server tenantId)
    (fun st => negb (truthy (LabourPage.selectedPlan st)))
    (fun st => ClientRest.getLabourPlanVersions server tenantId
                 (ToString (field (LabourPage.selectedPlan st) (lit "id"))))
    LabourPageRest.with_versions (lit "Failed to load versions:") (fun st => st).
Proof.
  intros st t. unfold LabourPageRest.loadVersions.
  split; intros Hv; rewrite Hv; [reflexivity|].
  apply negb_false_iff in Hv.
  rewrite (truthy_get _ (lit "id") Hv).
  split; [intros data t' Hrun | intros e t' Hrun]; detail_tac.
Qed.

Lemma loadCandidates_loader :
  detail_loader (EvidencePageRest.loadCandidates server tenantId)
    (fun st => negb (truthy (EvidencePage.selectedEvidence st)))
    (fun st => Client.getCandidatesByEvidence server tenantId
                 (ToString (field (EvidencePage.selectedEvidence st) (lit "id"))))
    EvidencePage.with_candidates (lit "Failed to load candidates:")
    (fun st => st).
Proof.
  intros st t. unfold EvidencePageRest.loadCandidates.
  split; intros Hv; rewrite Hv; [reflexivity|].
  apply negb_false_iff in Hv.
  rewrite (truthy_get _ (lit "id") Hv).
  split; [intros data t' Hrun | intros e t' Hrun]; detail_tac.
Qed.

Lemma loadPendingCandidates_loader :
  detail_loader (fun _ => EvidencePageRest.loadPendingCandidates server tenantId)
    (fun _ => false)
    (fun _ => Client.getPendingCandidates server tenantId)
    EvidencePage.with_pendingCandidates
    (lit "Failed to load pending candidates:") (fun st => st).
Proof.
  intros st t. unfold EvidencePageRest.loadPendingCandidates.
  split; intros Hv; [discriminate|].
  split; [intros data t' Hrun | intros e t' Hrun]; detail_tac.
Qed.

Lemma loadWeekHistory_loader :
  detail_loader
    (fun _ => CashPageRest.loadWeekHistory server tenantId venueId selectedWeek)
    (fun _ => negb (str_truthy venueId) || negb (str_truthy selectedWeek))
    (fun _ => ClientRest.getCashSnapshotHistory server tenantId venueId
                selectedWeek)
    CashPage.with_weekHistory (lit "Failed to load week history:")
    (CashPage.with_weekHistory (VArr [])).
Proof.
  intros st t. unfold CashPageRest.loadWeekHistory.
  split; intros Hv; rewrite Hv; [reflexivity|].
  split; [intros data t' Hrun | intros e t' Hrun]; detail_tac.
Qed.

End Loaders.

Section Statements.
Context {Num : Number}.

(** X10.  No exception escapes a write handler of the workflow pages
    ([handleCreateBudget], [handleConfirmBudget], [handleCreateLabourPlan],
    [handleConfirmLabourPlan], [handleCreateSnapshot],
    [handleSubmitCorrection], [handleUpload], [handleExtract],
    [handleConfirm], [handleReject]), whatever the backend answers and
    whatever the state.  A call its guard turns away (no venue, no file, no
    correction or rejection target, a blank reason) changes nothing and
    issues nothing; every other call ends with [submitting] false, so the
    buttons it disabled are enabled again.  ([handleExtract] reads the
    evidence's [id] for a log line before its [try], hence the condition
    that the evidence is an object.) *)
Theorem write_handlers_never_throw_and_lower_the_busy_flag :
  forall (server : Server) (number_of_nat : nat -> number)
         (tenantId venueId selectedWeek : jsstring),
    settles (fun _ => negb (str_truthy venueId)) BudgetPage.submitting
      (BudgetPage.handleCreateBudget server tenantId venueId) /\
    (forall budget,
        settles (fun _ => false) BudgetPage.submitting
          (fun st => BudgetPage.handleConfirmBudget server tenantId venueId st
                       budget)) /\
    settles (fun _ => negb (str_truthy venueId)) LabourPage.submitting
      (LabourPage.handleCreateLabourPlan server tenantId venueId) /\
    (forall plan,
        settles (fun _ => false) LabourPage.submitting
          (fun st => LabourPage.handleConfirmLabourPlan server tenantId venueId
                       st plan)) /\
    settles (fun _ => negb (str_truthy venueId)) CashPage.submitting
      (CashPage.handleCreateSnapshot server tenantId venueId selectedWeek) /\
    settles
      (fun st => negb (truthy (CashPage.correctionTarget st))
                 || negb (str_truthy (trim (CashPage.correctionReason st))))
      CashPage.submitting
      (CashPage.handleSubmitCorrection server tenantId selectedWeek) /\
    settles
      (fun st => negb (str_truthy venueId)
                 || match EvidencePage.selectedFile st with
                    | Some _ => false
                    | None => true
                    end)
      EvidencePage.submitting
      (EvidencePage.handleUpload server tenantId venueId) /\
    (forall evidence,
        evidence <> VNull -> evidence <> VUndefined ->
        settles (fun _ => false) EvidencePage.submitting
          (fun _ => EvidencePageRest.handleExtract server number_of_nat tenantId
                      evidence)) /\
    (forall candidate,
        settles (fun _ => false) EvidencePage.submitting
          (fun st => EvidencePage.handleConfirm server tenantId st candidate)) /\
    settles
      (fun st => negb (truthy (EvidencePage.rejectTarget st))
                 || negb (str_truthy (trim (EvidencePage.rejectReason st))))
      EvidencePage.submitting
      (EvidencePage.handleReject server tenantId).
Proof.
  intros server number_of_nat tenantId venueId selectedWeek.
  repeat apply conj.
  - apply handleCreateBudget_settles.
  - apply handleConfirmBudget_settles.
  - apply handleCreateLabourPlan_settles.
  - apply handleConfirmLabourPlan_settles.
  - apply handleCreateSnapshot_settles.
  - apply handleSubmitCorrection_settles.
  - apply handleUpload_settles.
  - intros evidence Hn Hu. now apply handleExtract_settles.
  - apply handleConfirm_settles.
  - apply handleReject_settles.
Qed.

(** X11.  Confirming a budget or a labour plan, once the confirm
    request has succeeded.  The handler then re-reads the list with the
    page's status filter.  When that read succeeds, the list is replaced by
    what was read, the record the confirm returned becomes the selection,
    and no error is shown.  When the read fails, the failure's message is
    shown as the error, and list and selection stay as they were although
    the record is confirmed at the backend.  Either way [submitting] is
    false at the end and the two requests are the only events. *)
Theorem confirm_rereads_the_list_and_selects_the_record :
  forall (server : Server) (tenantId venueId : jsstring),
    (forall (st : BudgetPage.state) (fields : list (jsstring * value))
            (t t1 t2 : trace) (result : value),
        Net.run (Client.confirmBudget server tenantId
                   (ToString (lookup (lit "id") fields))
                   (lookup (lit "payload") fields)
                   BudgetPage.CURRENT_USER_ID) t = (Ok result, t1) ->
        (forall data confirmed,
            Net.run (Client.getBudgets server tenantId venueId
                       (BudgetPage.filterArg (BudgetPage.statusFilter st))) t1
              = (Ok data, t2) ->
            get result (lit "budget") = Ok confirmed ->
            BudgetPage.run
              (fun s => BudgetPage.handleConfirmBudget server tenantId venueId s
                          (VObj fields)) st t
            = (Ok tt,
               BudgetPage.with_submitting false
                 (BudgetPage.with_selectedBudget confirmed
                    (BudgetPage.with_budgets data
                       (BudgetPage.with_error None st))), t2)) /\
        (forall e,
            Net.run (Client.getBudgets server tenantId venueId
                       (BudgetPage.filterArg (BudgetPage.statusFilter st))) t1
              = (Throw e, t2) ->
            BudgetPage.run
              (fun s => BudgetPage.handleConfirmBudget server tenantId venueId s
                          (VObj fields)) st t
            = (Ok tt,
               BudgetPage.with_submitting false
                 (BudgetPage.with_error
                    (Some (message_or e (lit "Failed to confirm budget"))) st),
               t2))) /\
    (forall (st : LabourPage.state) (fields : list (jsstring * value))
            (t t1 t2 : trace) (result : value),
        Net.run (Client.confirmLabourPlan server tenantId
                   (ToString (lookup (lit "id") fields))
                   (lookup (lit "payload") fields)
                   LabourPage.CURRENT_USER_ID) t = (Ok result, t1) ->
        (forall data confirmed,
            Net.run (Client.getLabourPlans server tenantId venueId
                       (LabourPage.filterArg (LabourPage.statusFilter st))) t1
              = (Ok data, t2) ->
            get result (lit "labourPlan") = Ok confirmed ->
            LabourPage.run
              (fun s => LabourPage.handleConfirmLabourPlan server tenantId venueId
                          s (VObj fields)) st t
            = (Ok tt,
               LabourPage.with_submitting false
                 (LabourPage.with_selectedPlan confirmed
                    (LabourPage.with_labourPlans data
                       (LabourPage.with_error None st))), t2)) /\
        (forall e,
            Net.run (Client.getLabourPlans server tenantId venueId
                       (LabourPage.filterArg (LabourPage.statusFilter st))) t1
              = (Throw e, t2) ->
            LabourPage.run
              (fun s => LabourPage.handleConfirmLabourPlan server tenantId venueId
                          s (VObj fields)) st t
            = (Ok tt,
               LabourPage.with_submitting false
                 (LabourPage.with_error
                    (Some (message_or e (lit "Failed to confirm labour plan")))
                    st), t2))).
Proof.
  intros server tenantId venueId. split.
  - intros st fields t t1 t2 result Hc. split.
    + intros data confirmed Hr Hget.
      rewrite (budget_confirm_outcomes server tenantId venueId st fields t t1
                 result Hc _ _ Hr), Hget. reflexivity.
    + intros e Hr.
      rewrite (budget_confirm_outcomes server tenantId venueId st fields t t1
                 result Hc _ _ Hr). reflexivity.
  - intros st fields t t1 t2 result Hc. split.
    + intros data confirmed Hr Hget.
      rewrite (labour_confirm_outcomes server tenantId venueId st fields t t1
                 result Hc _ _ Hr), Hget. reflexivity.
    + intros e Hr.
      rewrite (labour_confirm_outcomes server tenantId venueId st fields t t1
                 result Hc _ _ Hr). reflexivity.
Qed.

(** X12.  Confirming or rejecting a candidate while an evidence is
    selected, once the review request has succeeded.  The handler re-reads
    the evidence's candidates and then the tenant's pending candidates, in
    that order.  When both reads succeed both lists are replaced (and a
    rejection also closes its form and clears target and reason).  When the
    first read fails nothing but the error changes and the second read is
    not issued.  When only the second fails, the candidates are the fresh
    ones while the pending list is the old one, and the error is shown; a
    rejection form then stays open with its target and reason.  With no
    evidence selected a confirmation re-reads the pending list alone. *)
Theorem review_refreshes_candidates_then_pending :
  forall (server : Server) (tenantId : jsstring) (st : EvidencePage.state)
         (t t1 t2 t3 : trace) (w : value),
    (forall fields efields,
        Net.run (Client.confirmCandidate server tenantId
                   (ToString (lookup (lit "id") fields))
                   EvidencePage.CURRENT_USER_ID VUndefined) t = (Ok w, t1) ->
        EvidencePage.selectedEvidence st = VObj efields ->
        (forall data pending,
            Net.run (Client.getCandidatesByEvidence server tenantId
                       (ToString (lookup (lit "id") efields))) t1 = (Ok data, t2) ->
            Net.run (Client.getPendingCandidates server tenantId) t2
              = (Ok pending, t3) ->
            EvidencePage.run
              (fun s => EvidencePage.handleConfirm server tenantId s (VObj fields))
              st t
            = (Ok tt,
               EvidencePage.with_submitting false
                 (EvidencePage.with_pendingCandidates pending
                    (EvidencePage.with_candidates data
                       (EvidencePage.with_error None st))), t3)) /\
        (forall data e,
            Net.run (Client.getCandidatesByEvidence server tenantId
                       (ToString (lookup (lit "id") efields))) t1 = (Ok data, t2) ->
            Net.run (Client.getPendingCandidates server tenantId) t2
              = (Throw e, t3) ->
            EvidencePage.run
              (fun s => EvidencePage.handleConfirm server tenantId s (VObj fields))
              st t
            = (Ok tt,
               EvidencePage.with_submitting false
                 (EvidencePage.with_error
                    (Some (message_or e (lit "Failed to confirm candidate")))
                    (EvidencePage.with_candidates data st)), t3)) /\
        (forall e,
            Net.run (Client.getCandidatesByEvidence server tenantId
                       (ToString (lookup (lit "id") efields))) t1 = (Throw e, t2) ->
            EvidencePage.run
              (fun s => EvidencePage.handleConfirm server tenantId s (VObj fields))
              st t
            = (Ok tt,
               EvidencePage.with_submitting false
                 (EvidencePage.with_error
                    (Some (message_or e (lit "Failed to confirm candidate")))
                    st), t2))) /\
    (forall fields pending,
        Net.run (Client.confirmCandidate server tenantId
                   (ToString (lookup (lit "id") fields))
                   EvidencePage.CURRENT_USER_ID VUndefined) t = (Ok w, t1) ->
        EvidencePage.selectedEvidence st = VNull ->
        Net.run (Client.getPendingCandidates server tenantId) t1
          = (Ok pending, t2) ->
        EvidencePage.run
          (fun s => EvidencePage.handleConfirm server tenantId s (VObj fields))
          st t
        = (Ok tt,
           EvidencePage.with_submitting false
             (EvidencePage.with_pendingCandidates pending
                (EvidencePage.with_error None st)), t2)) /\
    (forall id efields,
        truthy (EvidencePage.rejectTarget st) = true ->
        str_truthy (trim (EvidencePage.rejectReason st)) = true ->
        get (EvidencePage.rejectTarget st) (lit "id") = Ok id ->
        Net.run (Client.rejectCandidate server tenantId (ToString id)
                   EvidencePage.CURRENT_USER_ID (EvidencePage.rejectReason st)) t
          = (Ok w, t1) ->
        EvidencePage.selectedEvidence st = VObj efields ->
        (forall data pending,
            Net.run (Client.getCandidatesByEvidence server tenantId
                       (ToString (lookup (lit "id") efields))) t1 = (Ok data, t2) ->
            Net.run (Client.getPendingCandidates server tenantId) t2
              = (Ok pending, t3) ->
            EvidencePage.run (EvidencePage.handleReject server tenantId) st t
            = (Ok tt,
               EvidencePage.with_submitting false
                 (EvidencePage.with_rejectReason []
                    (EvidencePage.with_rejectTarget VNull
                       (EvidencePage.with_showRejectForm false
                          (EvidencePage.with_pendingCandidates pending
                             (EvidencePage.with_candidates data
                                (EvidencePage.with_error None st)))))), t3)) /\
        (forall data e,
            Net.run (Client.getCandidatesByEvidence server tenantId
                       (ToString (lookup (lit "id") efields))) t1 = (Ok data, t2) ->
            Net.run (Client.getPendingCandidates server tenantId) t2
              = (Throw e, t3) ->
            EvidencePage.run (EvidencePage.handleReject server tenantId) st t
            = (Ok tt,
               EvidencePage.with_submitting false
                 (EvidencePage.with_error
                    (Some (message_or e (lit "Failed to reject candidate")))
                    (EvidencePage.with_candidates data st)), t3)) /\
        (forall e,
            Net.run (Client.getCandidatesByEvidence server tenantId
                       (ToString (lookup (lit "id") efields))) t1 = (Throw e, t2) ->
            EvidencePage.run (EvidencePage.handleReject server tenantId) st t
            = (Ok tt,
               EvidencePage.with_submitting false
                 (EvidencePage.with_error
                    (Some (message_or e (lit "Failed to reject candidate")))
                    st), t2))).
Proof.
  intros server tenantId st t t1 t2 t3 w. repeat apply conj.
  - intros fields efields Hw Hsel. repeat apply conj.
    + intros data pending H1 H2.
      now rewrite (handleConfirm_outcomes server tenantId st fields efields
                     t t1 t2 t3 w _ _ Hw Hsel H1 H2).
    + intros data e H1 H2.
      now rewrite (handleConfirm_outcomes server tenantId st fields efields
                     t t1 t2 t3 w _ _ Hw Hsel H1 H2).
    + intros e H1.
      destruct (Net.run (Client.getPendingCandidates server tenantId) t2)
        as [r2 t4] eqn:H2.
      now rewrite (handleConfirm_outcomes server tenantId st fields efields
                     t t1 t2 t4 w _ _ Hw Hsel H1 H2).
  - intros fields pending Hw Hsel H1.
    now rewrite (handleConfirm_unselected server tenantId st fields t t1 t2 w _
                   Hw Hsel H1).
  - intros id efields Htarget Hreason Hid Hw Hsel. repeat apply conj.
    + intros data pending H1 H2.
      now rewrite (handleReject_outcomes server tenantId st efields t t1 t2 t3
                     id w _ _ Htarget Hreason Hid Hw Hsel H1 H2).
    + intros data e H1 H2.
      now rewrite (handleReject_outcomes server tenantId st efields t t1 t2 t3
                     id w _ _ Htarget Hreason Hid Hw Hsel H1 H2).
    + intros e H1.
      destruct (Net.run (Client.getPendingCandidates server tenantId) t2)
        as [r2 t4] eqn:H2.
      now rewrite (handleReject_outcomes server tenantId st efields t t1 t2 t4
                     id w _ _ Htarget Hreason Hid Hw Hsel H1 H2).
Qed.

(** X13.  [handleExtract] on an evidence object.  It logs two lines,
    then issues the extract request with the evidence's id.  When the
    request fails, the exception is logged to the console and its message
    shown as the error; the lists are untouched.  When it succeeds with a
    JSON object, the candidates become that object's [candidates] as it is
    (so [undefined] when the answer has none), the answer is logged, and the
    pending candidates are re-read: on success they replace the pending list
    and their number is logged; on failure the error is shown while the
    candidates are already the new ones. *)
Theorem extract_stores_the_candidates_and_rereads_pending :
  forall (server : Server) (number_of_nat : nat -> number) (tenantId : jsstring)
         (st : EvidencePage.state) (fields : list (jsstring * value))
         (t t1 : trace),
    (forall e,
        Net.run (ClientRest.extractFromEvidence server tenantId
                   (ToString (lookup (lit "id") fields)))
          (extract_started tenantId t fields) = (Throw e, t1) ->
        EvidencePage.run
          (fun _ => EvidencePageRest.handleExtract server number_of_nat tenantId
                      (VObj fields)) st t
        = (Ok tt,
           EvidencePage.with_submitting false
             (EvidencePage.with_error
                (Some (message_or e (lit "Failed to extract from evidence"))) st),
           t1 ++ [Console (lit "error")
                    [VStr (lit "[EXTRACT] Error:"); thrown_value e]])) /\
    (forall rfields t2,
        Net.run (ClientRest.extractFromEvidence server tenantId
                   (ToString (lookup (lit "id") fields)))
          (extract_started tenantId t fields) = (Ok (VObj rfields), t1) ->
        (forall pending n,
            Net.run (Client.getPendingCandidates server tenantId)
              (t1 ++ [Console (lit "log")
                        [VStr (lit "[EXTRACT] API response:"); VObj rfields]])
              = (Ok pending, t2) ->
            EvidencePageRest.get_length number_of_nat pending = Ok n ->
            EvidencePage.run
              (fun _ => EvidencePageRest.handleExtract server number_of_nat
                          tenantId (VObj fields)) st t
            = (Ok tt,
               EvidencePage.with_submitting false
                 (EvidencePage.with_pendingCandidates pending
                    (EvidencePage.with_candidates
                       (lookup (lit "candidates") rfields)
                       (EvidencePage.with_error None st))),
               t2 ++ [Console (lit "log")
                        [VStr (lit "[EXTRACT] Pending candidates refreshed:");
                         n]])) /\
        (forall e,
            Net.run (Client.getPendingCandidates server tenantId)
              (t1 ++ [Console (lit "log")
                        [VStr (lit "[EXTRACT] API response:"); VObj rfields]])
              = (Throw e, t2) ->
            EvidencePage.run
              (fun _ => EvidencePageRest.handleExtract server number_of_nat
                          tenantId (VObj fields)) st t
            = (Ok tt,
               EvidencePage.with_submitting false
                 (EvidencePage.with_error
                    (Some (message_or e (lit "Failed to extract from evidence")))
                    (EvidencePage.with_candidates
                       (lookup (lit "candidates") rfields) st)),
               t2 ++ [Console (lit "error")
                        [VStr (lit "[EXTRACT] Error:"); thrown_value e]]))).
Proof.
  intros server number_of_nat tenantId st fields t t1. split.
  - intros e Hx. now apply handleExtract_failure.
  - intros rfields t2 Hx. split.
    + intros pending n Hp Hn.
      rewrite (handleExtract_success server number_of_nat tenantId st fields
                 rfields t t1 t2 _ Hx Hp), Hn. reflexivity.
    + intros e Hp.
      now rewrite (handleExtract_success server number_of_nat tenantId st fields
                     rfields t t1 t2 _ Hx Hp).
Qed.

(** X14.  A successful correction of a cash snapshot.  The
    record the backend returned is put first in the list of all snapshots
    and first in the week's history, the entries held before following in
    their order; the correction form is closed, its target and reason are
    cleared (the figures typed stay in [correctionData]), no error is shown
    and [submitting] is false.  When the returned record is flagged
    [isCorrection], no card of the week's history offers a correction any
    more. *)
Theorem correction_is_prepended_and_the_form_closed :
  forall (server : Server) (tenantId selectedWeek : jsstring)
         (st : CashPage.state) (t t1 : trace) (id result record : value)
         (items history : list value),
    truthy (CashPage.correctionTarget st) = true ->
    str_truthy (trim (CashPage.correctionReason st)) = true ->
    get (CashPage.correctionTarget st) (lit "id") = Ok id ->
    CashPage.snapshots st = VArr items ->
    CashPage.weekHistory st = VArr history ->
    Net.run (Client.createCorrectionSnapshot server tenantId (ToString id)
               selectedWeek (CashPage.correctionData st) CashPage.CURRENT_USER_ID
               (CashPage.correctionReason st)) t = (Ok result, t1) ->
    get result (lit "snapshot") = Ok record ->
    exists st',
      CashPage.run (CashPage.handleSubmitCorrection server tenantId selectedWeek)
        st t = (Ok tt, st', t1) /\
      st' = CashPage.with_submitting false
              (CashPage.with_correctionReason []
                 (CashPage.with_correctionTarget VNull
                    (CashPage.with_showCorrectionForm false
                       (CashPage.with_weekHistory (VArr (record :: history))
                          (CashPage.with_snapshots (VArr (record :: items))
                             (CashPage.with_error None st)))))) /\
      CashPage.correctionData st' = CashPage.correctionData st /\
      (forall c, get record (lit "isCorrection") = Ok c -> truthy c = true ->
                 CashPageRest.correctButtons st' = []).
Proof.
  intros server tenantId selectedWeek st t t1 id result record items history
    Htarget Hreason Hid Hs Hw Hrun Hget.
  eexists. split.
  - exact (handleSubmitCorrection_success server tenantId selectedWeek st t t1
             id result record items history Htarget Hreason Hid Hs Hw Hrun Hget).
  - split; [reflexivity|]. split; [reflexivity|].
    intros c Hc Htrue.
    rewrite (correctButtons_cons _ record history) by reflexivity.
    unfold CashPageRest.correctButtonRendered. rewrite Hc, Htrue. reflexivity.
Qed.

(** X15.  The week's history offers at most one correction, and only
    on its first card: a snapshot carries the "Submit Correction" button
    only if it is the first of the history and its [isCorrection] is
    falsy. *)
Theorem only_the_latest_original_offers_a_correction :
  forall (s : CashPage.state) (x : value),
    In x (CashPageRest.correctButtons s) ->
    exists rest c,
      CashPage.weekHistory s = VArr (x :: rest) /\
      CashPageRest.correctButtons s = [x] /\
      get x (lit "isCorrection") = Ok c /\
      truthy c = false.
Proof.
  intros s x Hin.
  destruct (CashPage.weekHistory s) as [| | | | |items|] eqn:Hw;
    try (unfold CashPageRest.correctButtons in Hin; rewrite Hw in Hin;
         contradiction).
  destruct items as [|x0 rest].
  - unfold CashPageRest.correctButtons in Hin. rewrite Hw in Hin. contradiction.
  - rewrite (correctButtons_cons s x0 rest Hw) in *.
    destruct (CashPageRest.correctButtonRendered true x0) eqn:E;
      [|contradiction].
    destruct Hin as [<-|[]].
    unfold CashPageRest.correctButtonRendered in E.
    destruct (get x0 (lit "isCorrection")) as [c|e]; [|discriminate].
    exists rest, c. repeat split.
    cbn in E. now apply negb_true_iff in E.
Qed.

(** X16.  Opening a correction or a rejection form always empties the
    reason, so a submit from the form as opened is turned away: it issues no
    request and changes nothing.  Opening the correction form on a snapshot
    also copies the snapshot's figures into the form, with 0 for a revenue
    or costs that is missing or zero and the empty string for missing
    notes. *)
Theorem a_form_just_opened_is_not_submitted :
  forall (server : Server) (tenantId selectedWeek : jsstring),
    (forall (st : CashPage.state) (t : trace)
            (sfields pfields : list (jsstring * value)),
        lookup (lit "payload") sfields = VObj pfields ->
        exists st1,
          CashPage.run (fun _ => CashPageRest.handleStartCorrection (VObj sfields))
            st t = (Ok tt, st1, t) /\
          CashPage.correctionTarget st1 = VObj sfields /\
          CashPage.correctionData st1
            = VObj [(lit "revenue",
                     or_else (lookup (lit "revenue") pfields) (VNum number_zero));
                    (lit "costs",
                     or_else (lookup (lit "costs") pfields) (VNum number_zero));
                    (lit "notes",
                     or_else (lookup (lit "notes") pfields) (VStr []))] /\
          CashPage.correctionReason st1 = [] /\
          CashPage.showCorrectionForm st1 = true /\
          CashPage.run
            (CashPage.handleSubmitCorrection server tenantId selectedWeek) st1 t
            = (Ok tt, st1, t)) /\
    (forall (st : EvidencePage.state) (t : trace) (candidate : value),
        exists st1,
          EvidencePage.run (fun _ => EvidencePageRest.handleStartReject candidate)
            st t = (Ok tt, st1, t) /\
          EvidencePage.rejectTarget st1 = candidate /\
          EvidencePage.rejectReason st1 = [] /\
          EvidencePage.showRejectForm st1 = true /\
          EvidencePage.run (EvidencePage.handleReject server tenantId) st1 t
            = (Ok tt, st1, t)).
Proof.
  intros server tenantId selectedWeek. split.
  - intros st t sfields pfields Hp. eexists. split.
    + exact (handleStartCorrection_run st t sfields pfields Hp).
    + repeat split.
  - intros st t candidate. eexists. split; [reflexivity|].
    repeat split.
    unfold EvidencePage.run, EvidencePage.handleReject. cbn.
    rewrite orb_true_r. reflexivity.
Qed.

(** X17.  The role rows of the labour plan form.  [handleAddRole] puts
    one blank row ([role] empty, [hours] and [rate] 0) after the rows held;
    removing that row again gives back the rows as they were.
    [handleRemoveRole] at the index of a row drops that row alone: the rows
    before keep their place and the rows after move up by one.
    [handleRoleChange] at the index of a row sets the one field named in
    that row and leaves its other fields, and every other row, as they were.
    Each of the three leaves all the other fields of the form, and the rest
    of the page state, untouched, and never throws. *)
Theorem role_rows_are_edited_in_place :
  forall (st : LabourPage.state) (fields : list (jsstring * value))
         (items : list value) (t : trace),
    LabourPage.formData st = VObj fields ->
    or_else (lookup (lit "roles") fields) (VArr []) = VArr items ->
    (exists st1 st2,
        LabourPage.run LabourPageRest.handleAddRole st t = (Ok tt, st1, t) /\
        roles_become st st1 fields (items ++ [LabourPageRest.blankRole]) /\
        LabourPage.run
          (fun s => LabourPageRest.handleRemoveRole s (List.length items)) st1 t
          = (Ok tt, st2, t) /\
        roles_become st st2 fields items) /\
    (forall index,
        (index < List.length items)%nat ->
        exists st1 rows,
          LabourPage.run (fun s => LabourPageRest.handleRemoveRole s index) st t
            = (Ok tt, st1, t) /\
          roles_become st st1 fields rows /\
          List.length rows = (List.length items - 1)%nat /\
          (forall j, nth_error rows j
                     = if Nat.ltb j index then nth_error items j
                       else nth_error items (S j))) /\
    (forall index k v rfields,
        nth_error items index = Some (VObj rfields) ->
        exists st1 rows rfields1,
          LabourPage.run
            (fun s => LabourPageRest.handleRoleChange s index k v) st t
            = (Ok tt, st1, t) /\
          roles_become st st1 fields rows /\
          List.length rows = List.length items /\
          nth_error rows index = Some (VObj rfields1) /\
          lookup k rfields1 = v /\
          (forall k', k' <> k -> lookup k' rfields1 = lookup k' rfields) /\
          (forall j, j <> index -> nth_error rows j = nth_error items j)).
Proof.
  intros st fields items t Hf Hr. repeat apply conj.
  - destruct (handleAddRole_run st fields items t Hf Hr) as (st1 & Hrun1 & Hb1).
    destruct Hb1 as (fields1 & Hst1 & Hroles1 & Hother1).
    assert (Hf1 : LabourPage.formData st1 = VObj fields1) by (now subst st1).
    assert (Hr1 : or_else (lookup (lit "roles") fields1) (VArr [])
                  = VArr (items ++ [LabourPageRest.blankRole]))
      by (now rewrite Hroles1).
    destruct (handleRemoveRole_run st1 fields1 _ (List.length items) t Hf1 Hr1)
      as (st2 & Hrun2 & fields2 & Hst2 & Hroles2 & Hother2).
    exists st1, st2. split; [exact Hrun1|].
    split; [now exists fields1|]. split; [exact Hrun2|].
    exists fields2. split; [now subst st2 st1|]. split.
    + now rewrite Hroles2, splice1_last.
    + intros k' Hk. now rewrite Hother2, Hother1.
  - intros index Hi.
    destruct (handleRemoveRole_run st fields items index t Hf Hr)
      as (st1 & Hrun1 & Hb1).
    exists st1, (splice1 index items). split; [exact Hrun1|].
    split; [exact Hb1|]. split; [now apply splice1_length|].
    intros j. now apply splice1_nth_error.
  - intros index k v rfields Hrow.
    assert (Hi : (index < List.length items)%nat)
      by (apply nth_error_Some; now rewrite Hrow).
    destruct (handleRoleChange_run st fields items index k v t Hf Hr)
      as (st1 & Hrun1 & Hb1).
    rewrite (at_index_nth_error index items _ Hrow) in Hb1. cbn [own_props] in Hb1.
    eexists st1, _, (set_prop k v rfields). split; [exact Hrun1|].
    split; [exact Hb1|]. split; [now apply assign_index_length|].
    split; [rewrite assign_index_nth_error by exact Hi;
            now rewrite Nat.eqb_refl|].
    split; [apply lookup_set_prop|].
    split; [intros k' Hk; now apply lookup_set_prop_other|].
    intros j Hj. rewrite assign_index_nth_error by exact Hi.
    destruct (Nat.eqb_spec j index); [contradiction|reflexivity].
Qed.

(** X18.  The four list loaders ([loadBudgets], [loadLabourPlans],
    [loadSnapshots], [loadEvidence]).  With no venue selected the loader
    empties its list and does nothing else: no request is issued, and an
    error shown before stays.  With a venue it clears the error and issues
    its one read, with the page's filter as the optional argument; when the
    read succeeds the list is what was read; when it fails the list stays as
    it was and the failure's message is the error.  In both cases [loading]
    is false at the end, and no exception escapes. *)
Theorem list_loaders_keep_the_list_on_failure :
  forall (server : Server) (tenantId venueId : jsstring),
    list_loader (BudgetPageRest.loadBudgets server tenantId venueId)
      (negb (str_truthy venueId))
      (fun st => Client.getBudgets server tenantId venueId
                   (BudgetPage.filterArg (BudgetPage.statusFilter st)))
      BudgetPage.with_budgets BudgetPageRest.with_loading BudgetPage.with_error
      (lit "Failed to load budgets") /\
    list_loader (LabourPageRest.loadLabourPlans server tenantId venueId)
      (negb (str_truthy venueId))
      (fun st => Client.getLabourPlans server tenantId venueId
                   (LabourPage.filterArg (LabourPage.statusFilter st)))
      LabourPage.with_labourPlans LabourPageRest.with_loading
      LabourPage.with_error (lit "Failed to load labour plans") /\
    list_loader (fun _ => CashPageRest.loadSnapshots server tenantId venueId)
      (negb (str_truthy venueId))
      (fun _ => ClientRest.getCashSnapshots server tenantId venueId)
      CashPage.with_snapshots CashPageRest.with_loading CashPage.with_error
      (lit "Failed to load snapshots") /\
    list_loader (EvidencePageRest.loadEvidence server tenantId venueId)
      (negb (str_truthy venueId))
      (fun st => ClientRest.getEvidenceByVenue server tenantId venueId
                   (EvidencePageRest.sourceArg (EvidencePage.sourceFilter st)))
      EvidencePage.with_evidenceList EvidencePageRest.with_loading
      EvidencePage.with_error (lit "Failed to load evidence").
Proof.
  intros server tenantId venueId. repeat apply conj.
  - apply loadBudgets_loader.
  - apply loadLabourPlans_loader.
  - apply loadSnapshots_loader.
  - apply loadEvidence_loader.
Qed.

(** X19.  The five detail loaders (the two [loadVersions],
    [loadCandidates], [loadPendingCandidates], [loadWeekHistory]).  With
    nothing selected (no budget, plan or evidence; for the week's history no
    venue or no week) the loader empties its list without a request.
    Otherwise it issues its one read; success replaces the list.  A failure
    is written to the console and never shown as the page's error: versions,
    candidates and pending candidates stay as they were, so those of an
    earlier selection remain on display, while the week's history is
    emptied.  No exception escapes. *)
Theorem detail_loaders_report_to_the_console_only :
  forall (server : Server) (tenantId venueId selectedWeek : jsstring),
    detail_loader (BudgetPageRest.loadVersions server tenantId)
      (fun st => negb (truthy (BudgetPage.selectedBudget st)))
      (fun st => ClientRest.getBudgetVersions server tenantId
                   (ToString (field (BudgetPage.selectedBudget st) (lit "id"))))
      BudgetPageRest.with_versions (lit "Failed to load versions:")
      (fun st => st) /\
    detail_loader (LabourPageRest.loadVersions server tenantId)
      (fun st => negb (truthy (LabourPage.selectedPlan st)))
      (fun st => ClientRest.getLabourPlanVersions server tenantId
                   (ToString (field (LabourPage.selectedPlan st) (lit "id"))))
      LabourPageRest.with_versions (lit "Failed to load versions:")
      (fun st => st) /\
    detail_loader (EvidencePageRest.loadCandidates server tenantId)
      (fun st => negb (truthy (EvidencePage.selectedEvidence st)))
      (fun st => Client.getCandidatesByEvidence server tenantId
                   (ToString (field (EvidencePage.selectedEvidence st)
                                (lit "id"))))
      EvidencePage.with_candidates (lit "Failed to load candidates:")
      (fun st => st) /\
    detail_loader
      (fun _ => EvidencePageRest.loadPendingCandidates server tenantId)
      (fun _ => false)
      (fun _ => Client.getPendingCandidates server tenantId)
      EvidencePage.with_pendingCandidates
      (lit "Failed to load pending candidates:") (fun st => st) /\
    detail_loader
      (fun _ => CashPageRest.loadWeekHistory server tenantId venueId selectedWeek)
      (fun _ => negb (str_truthy venueId) || negb (str_truthy selectedWeek))
      (fun _ => ClientRest.getCashSnapshotHistory server tenantId venueId
                  selectedWeek)
      CashPage.with_weekHistory (lit "Failed to load week history:")
      (CashPage.with_weekHistory (VArr [])).
Proof.
  intros server tenantId venueId selectedWeek. repeat apply conj.
  - apply budget_loadVersions_loader.
  - apply labour_loadVersions_loader.
  - apply loadCandidates_loader.
  - apply loadPendingCandidates_loader.
  - apply loadWeekHistory_loader.
Qed.

(** X20.  [getNextAction] of the Evidence page.  With no evidence in
    the venue's list the action is "upload", whatever the number of pending
    candidates (which are the tenant's, not the venue's).  With evidence and
    pending candidates it is "review", and the text starts with their
    number in decimal.  With evidence and nothing pending it is
    "extract". *)
Theorem next_action_is_upload_review_or_extract :
  forall (evidenceList pendingCandidates : list value),
    (evidenceList = [] ->
       EvidencePageRest.getNextAction evidenceList pendingCandidates
       = {| EvidencePageRest.action := lit "upload";
            EvidencePageRest.text := lit "Upload evidence to begin." |}) /\
    (evidenceList <> [] -> pendingCandidates <> [] ->
       EvidencePageRest.getNextAction evidenceList pendingCandidates
       = {| EvidencePageRest.action := lit "review";
            EvidencePageRest.text :=
              Z_toString (Z.of_nat (List.length pendingCandidates))
                ++ lit " candidate(s) require review." |} /\
       parseInt10
         (EvidencePageRest.text
            (EvidencePageRest.getNextAction evidenceList pendingCandidates))
       = Some (Z.of_nat (List.length pendingCandidates))) /\
    (evidenceList <> [] -> pendingCandidates = [] ->
       EvidencePageRest.getNextAction evidenceList pendingCandidates
       = {| EvidencePageRest.action := lit "extract";
            EvidencePageRest.text :=
              lit "Select evidence and extract candidates." |}).
Proof.
  intros ev pend. repeat apply conj.
  - intros ->. reflexivity.
  - intros Hev Hp.
    assert (E : EvidencePageRest.getNextAction ev pend
                = {| EvidencePageRest.action := lit "review";
                     EvidencePageRest.text :=
                       Z_toString (Z.of_nat (List.length pend))
                         ++ lit " candidate(s) require review." |}).
    { unfold EvidencePageRest.getNextAction.
      destruct ev; [contradiction|]. destruct pend; [contradiction|].
      reflexivity. }
    split; [exact E|]. rewrite E. cbn [EvidencePageRest.text].
    apply DecimalFacts.parseInt10_junk_suffix.
    + apply DecimalFacts.parseInt10_Z_toString.
    + reflexivity.
  - intros Hev ->. unfold EvidencePageRest.getNextAction.
    destruct ev; [contradiction|]. reflexivity.
Qed.

End Statements.

(** *** Concrete runs *)

#[local] Existing Instance Z_Number.

(** An extraction refused by the backend: no exception escapes and the page
    is released. *)
Lemma write_handlers_settle_witness :
  exists st' t',
    EvidencePage.run
      (fun _ => EvidencePageRest.handleExtract Scenario.refusing Z.of_nat
                  Scenario.tenant (VObj [(lit "id", VStr (lit "ev-1"))]))
      (Scenario.evidencePage []) [] = (Ok tt, st', t') /\
    EvidencePage.submitting st' = false.
Proof.
  destruct (write_handlers_never_throw_and_lower_the_busy_flag Scenario.refusing
              Z.of_nat Scenario.tenant Scenario.venue (lit "2026-01-26"))
    as (_ & _ & _ & _ & _ & _ & _ & HX & _).
  destruct (HX (VObj [(lit "id", VStr (lit "ev-1"))])
              ltac:(discriminate) ltac:(discriminate)
              (Scenario.evidencePage []) [])
    as (st' & t' & Hrun & _ & Hb).
  exists st', t'. split; [exact Hrun|exact (Hb eq_refl)].
Defined.

(** The draft budget of the Budget page is confirmed: the list is the one
    re-read and the confirmed record is selected. *)
Lemma confirm_rereads_witness :
  exists t2,
    BudgetPage.run
      (fun s => BudgetPage.handleConfirmBudget Scenario.budgetBackend
                  Scenario.tenant Scenario.venue s
                  (Scenario.budget "budget-7" "draft"))
      Scenario.budgetPage []
    = (Ok tt,
       BudgetPage.with_submitting false
         (BudgetPage.with_selectedBudget (Scenario.budget "budget-7" "confirmed")
            (BudgetPage.with_budgets
               (VArr [Scenario.budget "budget-7" "confirmed";
                      Scenario.budget "budget-3" "superseded"])
               (BudgetPage.with_error None Scenario.budgetPage))), t2).
Proof.
  destruct (confirm_rereads_the_list_and_selects_the_record
              Scenario.budgetBackend Scenario.tenant Scenario.venue) as (HB & _).
  eexists.
  exact (proj1 (HB Scenario.budgetPage _ [] _ _ _ eq_refl) _ _ eq_refl eq_refl).
Defined.

(** A rejection with a reason, both re-reads succeeding. *)
Lemma review_refreshes_witness :
  exists t3,
    EvidencePage.run
      (EvidencePage.handleReject
         (Scenario.backend (Scenario.jsonOK (VObj []))
            (Scenario.jsonOK (VObj [(lit "candidates", VArr [])])))
         Scenario.tenant)
      (Scenario.evidencePage (lit "duplicate")) []
    = (Ok tt,
       EvidencePage.with_submitting false
         (EvidencePage.with_rejectReason []
            (EvidencePage.with_rejectTarget VNull
               (EvidencePage.with_showRejectForm false
                  (EvidencePage.with_pendingCandidates (VArr [])
                     (EvidencePage.with_candidates (VArr [])
                        (EvidencePage.with_error None
                           (Scenario.evidencePage (lit "duplicate")))))))), t3).
Proof.
  eexists.
  exact (proj1
           (proj2 (proj2
              (review_refreshes_candidates_then_pending
                 (Scenario.backend (Scenario.jsonOK (VObj []))
                    (Scenario.jsonOK (VObj [(lit "candidates", VArr [])])))
                 Scenario.tenant (Scenario.evidencePage (lit "duplicate"))
                 [] _ _ _ (VObj [])))
              _ _ eq_refl eq_refl eq_refl eq_refl eq_refl)
           _ _ eq_refl eq_refl).
Defined.

(** An extraction whose answer has no [candidates]: the candidates cell is
    [undefined] afterwards. *)
Lemma extract_stores_witness :
  exists st' t',
    EvidencePage.run
      (fun _ => EvidencePageRest.handleExtract
                  (Scenario.always (Scenario.jsonOK (VObj []))) Z.of_nat
                  Scenario.tenant (VObj [(lit "id", VStr (lit "ev-1"))]))
      (Scenario.evidencePage []) [] = (Ok tt, st', t') /\
    EvidencePage.candidates st' = VUndefined /\
    EvidencePage.pendingCandidates st' = VArr [].
Proof.
  eexists. eexists. split.
  - exact (proj1
             (proj2
                (extract_stores_the_candidates_and_rereads_pending
                   (Scenario.always (Scenario.jsonOK (VObj []))) Z.of_nat
                   Scenario.tenant (Scenario.evidencePage [])
                   [(lit "id", VStr (lit "ev-1"))] [] _)
                _ _ eq_refl)
             _ _ eq_refl eq_refl).
  - split; reflexivity.
Defined.

(** The correction of the Cash page's one snapshot: the correction comes
    first in both lists and no card offers a further correction. *)
Lemma correction_is_prepended_witness :
  exists st',
    fst (CashPage.run
           (CashPage.handleSubmitCorrection Scenario.cashBackend Scenario.tenant
              (lit "2026-01-26")) (Scenario.cashPage (lit "typo")) [])
      = (Ok tt, st') /\
    CashPage.weekHistory st'
      = VArr [Scenario.snapshot "snap-2" true; Scenario.snapshot "snap-1" false] /\
    CashPageRest.correctButtons st' = [].
Proof.
  destruct (correction_is_prepended_and_the_form_closed Scenario.cashBackend
              Scenario.tenant (lit "2026-01-26") (Scenario.cashPage (lit "typo"))
              [] _ _ _ _ _ _ eq_refl eq_refl eq_refl eq_refl eq_refl eq_refl
              eq_refl) as (st' & Hrun & Hst & _ & Hbuttons).
  exists st'. split; [now rewrite Hrun|]. split.
  - now rewrite Hst.
  - exact (Hbuttons _ eq_refl eq_refl).
Defined.

(** The one snapshot of the Cash page is an original and the latest: it
    offers the correction. *)
Lemma only_the_latest_original_witness :
  exists rest c,
    CashPage.weekHistory (Scenario.cashPage [])
      = VArr (Scenario.snapshot "snap-1" false :: rest) /\
    CashPageRest.correctButtons (Scenario.cashPage [])
      = [Scenario.snapshot "snap-1" false] /\
    get (Scenario.snapshot "snap-1" false) (lit "isCorrection") = Ok c /\
    truthy c = false.
Proof.
  apply (only_the_latest_original_offers_a_correction (Scenario.cashPage [])
           (Scenario.snapshot "snap-1" false)).
  left. reflexivity.
Defined.

(** Opening the correction form on a snapshot without notes. *)
Lemma a_form_just_opened_witness :
  exists st1,
    CashPage.run
      (fun _ => CashPageRest.handleStartCorrection
                  (Scenario.snapshot "snap-1" false))
      (Scenario.cashPage (lit "typo")) [] = (Ok tt, st1, []) /\
    CashPage.correctionData st1
      = VObj [(lit "revenue", VNum 900); (lit "costs", VNum 400);
              (lit "notes", VStr [])] /\
    CashPage.correctionReason st1 = [] /\
    CashPage.run
      (CashPage.handleSubmitCorrection Scenario.cashBackend Scenario.tenant
         (lit "2026-01-26")) st1 [] = (Ok tt, st1, []).
Proof.
  destruct (a_form_just_opened_is_not_submitted Scenario.cashBackend
              Scenario.tenant (lit "2026-01-26")) as (HC & _).
  destruct (HC (Scenario.cashPage (lit "typo")) []
              match Scenario.snapshot "snap-1" false with
              | VObj sfields => sfields
              | _ => []
              end _ eq_refl)
    as (st1 & Hrun & _ & Hdata & Hreason & _ & Hsubmit).
  exists st1. split; [exact Hrun|]. split; [exact Hdata|].
  split; [exact Hreason|exact Hsubmit].
Defined.

(** A form with two role rows: the hours of the second row are set. *)
Lemma role_rows_witness :
  exists st1 rows rfields1,
    LabourPage.run
      (fun s => LabourPageRest.handleRoleChange s 1 (lit "hours") (VNum (Num := Z_Number) 38))
      (LabourPage.with_formData
         (VObj [(lit "name", VStr (lit "Week 5"));
                (lit "roles",
                 VArr [VObj [(lit "role", VStr (lit "Chef"));
                             (lit "hours", VNum (Num := Z_Number) 40); (lit "rate", VNum (Num := Z_Number) 18)];
                       VObj [(lit "role", VStr (lit "Porter"));
                             (lit "hours", VNum (Num := Z_Number) 0); (lit "rate", VNum (Num := Z_Number) 12)]])])
         Scenario.labourPage) []
      = (Ok tt, st1, []) /\
    lookup (lit "roles") rfields1 = VUndefined /\
    nth_error rows 1 = Some (VObj rfields1) /\
    lookup (lit "hours") rfields1 = VNum (Num := Z_Number) 38 /\
    lookup (lit "rate") rfields1 = VNum (Num := Z_Number) 12.
Proof.
  destruct (role_rows_are_edited_in_place
              (LabourPage.with_formData
                 (VObj [(lit "name", VStr (lit "Week 5"));
                        (lit "roles",
                         VArr [VObj [(lit "role", VStr (lit "Chef"));
                                     (lit "hours", VNum (Num := Z_Number) 40);
                                     (lit "rate", VNum (Num := Z_Number) 18)];
                               VObj [(lit "role", VStr (lit "Porter"));
                                     (lit "hours", VNum (Num := Z_Number) 0);
                                     (lit "rate", VNum (Num := Z_Number) 12)]])])
                 Scenario.labourPage) _ _ [] eq_refl eq_refl) as (_ & _ & HC).
  destruct (HC 1%nat (lit "hours") (VNum (Num := Z_Number) 38) _ eq_refl)
    as (st1 & rows & rfields1 & Hrun & _ & _ & Hrow & Hset & Hother & _).
  exists st1, rows, rfields1. split; [exact Hrun|].
  split; [now rewrite Hother by (vm_compute; discriminate)|].
  split; [exact Hrow|]. split; [exact Hset|].
  now rewrite Hother by (vm_compute; discriminate).
Defined.

(** The budget list fails to load: the budgets shown stay, the message is
    the error. *)
Lemma list_loaders_witness :
  BudgetPage.run
    (BudgetPageRest.loadBudgets (Scenario.always Scenario.storeDown)
       Scenario.tenant Scenario.venue) Scenario.budgetPage []
  = (Ok tt,
     BudgetPageRest.with_loading false
       (BudgetPage.with_error
          (Some (lit "Failed to fetch budgets: Internal Server Error"))
          Scenario.budgetPage),
     [Fetch (GET (lit "/api/budgets/tenant-1/venue/venue-1"))]).
Proof.
  destruct (list_loaders_keep_the_list_on_failure
              (Scenario.always Scenario.storeDown) Scenario.tenant Scenario.venue)
    as (HB & _).
  exact (proj2 (proj2 (HB Scenario.budgetPage []) eq_refl) _ _ eq_refl).
Defined.

(** The week's history fails to load: it is emptied and the failure goes to
    the console. *)
Lemma detail_loaders_witness :
  exists t',
    CashPage.run
      (fun _ => CashPageRest.loadWeekHistory (Scenario.always Scenario.storeDown)
                  Scenario.tenant Scenario.venue (lit "2026-01-26"))
      (Scenario.cashPage []) []
    = (Ok tt, CashPage.with_weekHistory (VArr []) (Scenario.cashPage []), t') /\
    CashPage.error (CashPage.with_weekHistory (VArr []) (Scenario.cashPage []))
      = None.
Proof.
  destruct (detail_loaders_report_to_the_console_only
              (Scenario.always Scenario.storeDown) Scenario.tenant Scenario.venue
              (lit "2026-01-26")) as (_ & _ & _ & _ & HW).
  eexists. split; [|reflexivity].
  exact (proj2 (proj2 (HW (Scenario.cashPage []) []) eq_refl) _ _ eq_refl).
Defined.

(** No evidence in the venue, one candidate pending for the tenant. *)
Lemma next_action_witness :
  EvidencePageRest.action
    (EvidencePageRest.getNextAction [] [Scenario.candidate "cand-1" "pending"])
    = lit "upload" /\
  parseInt10
    (EvidencePageRest.text
       (EvidencePageRest.getNextAction
          [VObj [(lit "id", VStr (lit "ev-1"))]]
          [Scenario.candidate "cand-1" "pending";
           Scenario.candidate "cand-2" "pending"]))
    = Some 2.
Proof.
  split.
  - destruct (next_action_is_upload_review_or_extract []
                [Scenario.candidate "cand-1" "pending"]) as (H & _).
    now rewrite (H eq_refl).
  - destruct (next_action_is_upload_review_or_extract
                [VObj [(lit "id", VStr (lit "ev-1"))]]
                [Scenario.candidate "cand-1" "pending";
                 Scenario.candidate "cand-2" "pending"]) as (_ & H & _).
    exact (proj2 (H ltac:(discriminate) ltac:(discriminate))).
Defined.

End WorkflowProps.


(** ** Read-only views *)

Module ViewProps.
Import JS Net Views PageContract StringFacts NetFacts HandlerFacts.
Local Open Scope Z_scope.

#[export] Hint Unfold
  BriefPage.setBrief BriefPage.setLoading BriefPage.setError
  VariancePage.setVariances VariancePage.setLoading VariancePage.setError
  FindingsPage.setFindings FindingsPage.setLoading FindingsPage.setError
  : handler.

Ltac run_read :=
  unfold Net.run, bind, fetch, throw, ret, eval, json; cbn beta iota zeta.

Section Loaders.
Context {Num : Number}.
Variable server : Server.
Variables tenantId venueId weekStartDate : jsstring.

Lemma loadBrief_run (st : BriefPage.state) (t t' : trace) (r : JS.result value) :
  str_truthy venueId = true ->
  str_truthy weekStartDate = true ->
  Net.run (Client.getMondayBrief server tenantId venueId weekStartDate) t
    = (r, t') ->
  BriefPage.loadBrief server tenantId venueId weekStartDate st t
  = (Ok tt,
     match r with
     | Ok data =>
         BriefPage.with_loading false
           (BriefPage.with_brief data (BriefPage.with_error None st))
     | Throw e =>
         BriefPage.with_loading false
           (BriefPage.with_error
              (Some (message_or e (lit "Failed to load brief"))) st)
     end, t').
Proof.
  intros Hv Hw Hrun. unfold BriefPage.loadBrief. rewrite Hv, Hw. run_handler.
  rewrite (lift_run _ _ _ _ _ Hrun). destruct r; reflexivity.
Qed.

Lemma loadVariances_run (st : VariancePage.state) (t t' : trace)
    (r : JS.result value) :
  str_truthy venueId = true ->
  Net.run (ClientRest.getVariances server tenantId venueId) t = (r, t') ->
  VariancePage.loadVariances server tenantId venueId st t
  = (Ok tt,
     match r with
     | Ok data =>
         VariancePage.with_loading false
           (VariancePage.with_variances data (VariancePage.with_error None st))
     | Throw e =>
         VariancePage.with_loading false
           (VariancePage.with_error
              (Some (message_or e (lit "Failed to load variances"))) st)
     end, t').
Proof.
  intros Hv Hrun. unfold VariancePage.loadVariances. rewrite Hv. run_handler.
  rewrite (lift_run _ _ _ _ _ Hrun). destruct r; reflexivity.
Qed.

Lemma loadFindings_run (st : FindingsPage.state) (t t' : trace)
    (r : JS.result value) :
  str_truthy venueId = true ->
  Net.run (ClientRest.getGuardianFindings server tenantId venueId
             (FindingsPage.weekArg weekStartDate)) t = (r, t') ->
  FindingsPage.loadFindings server tenantId venueId weekStartDate st t
  = (Ok tt,
     match r with
     | Ok data =>
         FindingsPage.with_loading false
           (FindingsPage.with_findings data (FindingsPage.with_error None st))
     | Throw e =>
         FindingsPage.with_loading false
           (FindingsPage.with_error
              (Some (message_or e (lit "Failed to load findings"))) st)
     end, t').
Proof.
  intros Hv Hrun. unfold FindingsPage.loadFindings. rewrite Hv. run_handler.
  rewrite (lift_run _ _ _ _ _ Hrun). destruct r; reflexivity.
Qed.

(** A message that starts with a fixed non-empty text is shown. *)
Lemma shown_prefixed (prefix rest : string) (tail : jsstring) :
  prefix <> EmptyString ->
  shown (Some (lit prefix ++ tail)) = true.
Proof. destruct prefix; [contradiction|reflexivity]. Qed.

(** What the three reads return for an answer of the server. *)
Lemma getMondayBrief_answer (t : trace) (r : Response) :
  server t (GET (Client.API_BASE ++ lit "/monday-briefs/" ++ tenantId
                   ++ lit "/venue/" ++ venueId ++ lit "/week?weekStartDate="
                   ++ weekStartDate)) = Ok r ->
  Net.run (Client.getMondayBrief server tenantId venueId weekStartDate) t
  = (if negb (ok r) then
       if Z.eqb (status r) 404 then Ok VNull
       else Throw (Error (lit "Failed to fetch Monday brief: " ++ statusText r))
     else
       match body_json r with
       | inl m => Throw (SyntaxError m)
       | inr v => match get v (lit "brief") with
                  | Ok b => Ok (or_else b VNull)
                  | Throw e => Throw e
                  end
       end,
     t ++ [Fetch (GET (Client.API_BASE ++ lit "/monday-briefs/" ++ tenantId
                         ++ lit "/venue/" ++ venueId
                         ++ lit "/week?weekStartDate=" ++ weekStartDate))]).
Proof.
  intros Hr. unfold Client.getMondayBrief. run_read. rewrite Hr.
  destruct (ok r); cbn beta iota delta [negb].
  - destruct (body_json r) as [m|v]; unfold ret, throw; cbn beta iota;
      [reflexivity|].
    destruct (get v (lit "brief")); reflexivity.
  - destruct (Z.eqb (status r) 404); reflexivity.
Qed.

Lemma getVariances_answer (t : trace) (r : Response) :
  server t (GET (Client.API_BASE ++ lit "/variances/" ++ tenantId
                   ++ lit "/venue/" ++ venueId)) = Ok r ->
  Net.run (ClientRest.getVariances server tenantId venueId) t
  = (if negb (ok r) then
       Throw (Error (lit "Failed to fetch variances: " ++ statusText r))
     else
       match body_json r with
       | inl m => Throw (SyntaxError m)
       | inr v => match get v (lit "variances") with
                  | Ok b => Ok (or_else b (VArr []))
                  | Throw e => Throw e
                  end
       end,
     t ++ [Fetch (GET (Client.API_BASE ++ lit "/variances/" ++ tenantId
                         ++ lit "/venue/" ++ venueId))]).
Proof.
  intros Hr. unfold ClientRest.getVariances. run_read. rewrite Hr.
  destruct (ok r); cbn beta iota delta [negb]; [|reflexivity].
  destruct (body_json r) as [m|v]; unfold ret, throw; cbn beta iota;
    [reflexivity|].
  destruct (get v (lit "variances")); reflexivity.
Qed.

Lemma getGuardianFindings_answer (t : trace) (r : Response) :
  server t (GET (ClientContract.optional_query
                   (Client.API_BASE ++ lit "/guardian/" ++ tenantId
                      ++ lit "/venue/" ++ venueId)
                   (lit "?weekStartDate=")
                   (FindingsPage.weekArg weekStartDate))) = Ok r ->
  Net.run (ClientRest.getGuardianFindings server tenantId venueId
             (FindingsPage.weekArg weekStartDate)) t
  = (if negb (ok r) then
       Throw (Error (lit "Failed to fetch Guardian findings: " ++ statusText r))
     else
       match body_json r with
       | inl m => Throw (SyntaxError m)
       | inr v => match get v (lit "findings") with
                  | Ok b => Ok (or_else b (VArr []))
                  | Throw e => Throw e
                  end
       end,
     t ++ [Fetch (GET (ClientContract.optional_query
                         (Client.API_BASE ++ lit "/guardian/" ++ tenantId
                            ++ lit "/venue/" ++ venueId)
                         (lit "?weekStartDate=")
                         (FindingsPage.weekArg weekStartDate)))]).
Proof.
  intros Hr. unfold ClientRest.getGuardianFindings. run_read.
  match goal with
  | |- context [server t ?q] =>
      let E := fresh "E" in
      assert (E : server t q = Ok r) by exact Hr; rewrite E; clear E
  end.
  destruct (ok r); cbn beta iota delta [negb]; [|reflexivity].
  destruct (body_json r) as [m|v]; unfold ret, throw; cbn beta iota;
    [reflexivity|].
  destruct (get v (lit "findings")); reflexivity.
Qed.

End Loaders.

Section Statements.
Context {Num : Number}.

(** X21.  The three read-only views, once their loader has run with a
    venue selected (and, for the brief, a week).  The loader issues its one
    read and ends with [loading] false, so the view leaves "Loading...".
    When the read fails with a status outside 200..299, the view shows its
    fixed text "Unable to load ... data."; the failure's own message is kept
    in the state but never displayed, and the data shown before stays in the
    state.  The brief treats a 404 apart: it shows "No Monday Brief available
    for the selected venue and week.", as it does for a 2xx answer without a
    brief.  Variances and findings show their "No ..." text exactly when the
    list read is empty, and their content otherwise. *)
Theorem read_views_answer_a_failure_with_a_fixed_text :
  forall (server : Server) (tenantId venueId weekStartDate : jsstring),
    str_truthy venueId = true ->
    (str_truthy weekStartDate = true ->
     forall (st : BriefPage.state) (t : trace) (r : Response),
       let req := GET (Client.API_BASE ++ lit "/monday-briefs/" ++ tenantId
                         ++ lit "/venue/" ++ venueId
                         ++ lit "/week?weekStartDate=" ++ weekStartDate) in
       server t req = Ok r ->
       exists st',
         BriefPage.loadBrief server tenantId venueId weekStartDate st t
           = (Ok tt, st', t ++ [Fetch req]) /\
         BriefPage.loading st' = false /\
         (status r = 404 ->
            BriefPage.render venueId st'
            = Message (lit "No Monday Brief available for the selected venue and week.")) /\
         (ok r = false -> status r <> 404 ->
            BriefPage.render venueId st'
              = Message (lit "Unable to load brief data.") /\
            BriefPage.error st'
              = Some (lit "Failed to fetch Monday brief: " ++ statusText r) /\
            BriefPage.brief st' = BriefPage.brief st) /\
         (ok r = true -> forall fields, body_json r = inr (VObj fields) ->
            BriefPage.render venueId st'
            = if truthy (lookup (lit "brief") fields) then Content
              else Message (lit "No Monday Brief available for the selected venue and week."))) /\
    (forall (st : VariancePage.state) (t : trace) (r : Response),
       let req := GET (Client.API_BASE ++ lit "/variances/" ++ tenantId
                         ++ lit "/venue/" ++ venueId) in
       server t req = Ok r ->
       exists st',
         VariancePage.loadVariances server tenantId venueId st t
           = (Ok tt, st', t ++ [Fetch req]) /\
         VariancePage.loading st' = false /\
         (ok r = false ->
            (forall items, VariancePage.render venueId st' items
                           = Message (lit "Unable to load variance data.")) /\
            VariancePage.error st'
              = Some (lit "Failed to fetch variances: " ++ statusText r) /\
            VariancePage.variances st' = VariancePage.variances st) /\
         (ok r = true -> forall fields items,
            body_json r = inr (VObj fields) ->
            or_else (lookup (lit "variances") fields) (VArr []) = VArr items ->
            VariancePage.variances st' = VArr items /\
            VariancePage.render venueId st' items
            = match items with
              | [] => Message (lit "No variance data available for the selected venue.")
              | _ :: _ => Content
              end)) /\
    (forall (st : FindingsPage.state) (t : trace) (r : Response),
       let req := GET (ClientContract.optional_query
                         (Client.API_BASE ++ lit "/guardian/" ++ tenantId
                            ++ lit "/venue/" ++ venueId)
                         (lit "?weekStartDate=")
                         (FindingsPage.weekArg weekStartDate)) in
       server t req = Ok r ->
       exists st',
         FindingsPage.loadFindings server tenantId venueId weekStartDate st t
           = (Ok tt, st', t ++ [Fetch req]) /\
         FindingsPage.loading st' = false /\
         (ok r = false ->
            (forall items, FindingsPage.render venueId st' items
                           = Message (lit "Unable to load findings data.")) /\
            FindingsPage.error st'
              = Some (lit "Failed to fetch Guardian findings: " ++ statusText r) /\
            FindingsPage.findings st' = FindingsPage.findings st) /\
         (ok r = true -> forall fields items,
            body_json r = inr (VObj fields) ->
            or_else (lookup (lit "findings") fields) (VArr []) = VArr items ->
            FindingsPage.findings st' = VArr items /\
            FindingsPage.render venueId st' items
            = match items with
              | [] => Message (lit "No Guardian findings for the selected venue and week.")
              | _ :: _ => Content
              end)).
Proof.
  intros server tenantId venueId weekStartDate Hv. repeat apply conj.
  - intros Hw st t r req Hr.
    eexists. split.
    { exact (loadBrief_run server tenantId venueId weekStartDate st t _ _ Hv Hw
               (getMondayBrief_answer server tenantId venueId weekStartDate
                  t r Hr)). }
    split; [destruct (if negb (ok r) then _ else _); reflexivity|].
    repeat apply conj.
    + intros H404.
      assert (Hok : ok r = false) by (unfold ok; rewrite H404; reflexivity).
      rewrite Hok, H404. unfold BriefPage.render. rewrite Hv. reflexivity.
    + intros Hok Hne. apply Z.eqb_neq in Hne. rewrite Hok, Hne.
      unfold BriefPage.render. rewrite Hv. repeat split.
    + intros Hok fields Hb. rewrite Hok, Hb. cbn [negb get].
      unfold BriefPage.render. rewrite Hv. cbn [negb]. unfold or_else.
      destruct (truthy (lookup (lit "brief") fields)) eqn:E;
        cbn -[truthy lookup lit]; rewrite ?E; reflexivity.
  - intros st t r req Hr.
    eexists. split.
    { exact (loadVariances_run server tenantId venueId st t _ _ Hv
               (getVariances_answer server tenantId venueId t r Hr)). }
    split; [destruct (if negb (ok r) then _ else _); reflexivity|].
    split.
    + intros Hok. rewrite Hok. repeat split.
      intros items. unfold VariancePage.render. rewrite Hv. reflexivity.
    + intros Hok fields items Hb Hitems. rewrite Hok, Hb. cbn [negb get].
      rewrite Hitems. split; [reflexivity|].
      unfold VariancePage.render. rewrite Hv. destruct items; reflexivity.
  - intros st t r req Hr.
    eexists. split.
    { exact (loadFindings_run server tenantId venueId weekStartDate st t _ _ Hv
               (getGuardianFindings_answer server tenantId venueId weekStartDate
                  t r Hr)). }
    split; [destruct (if negb (ok r) then _ else _); reflexivity|].
    split.
    + intros Hok. rewrite Hok. repeat split.
      intros items. unfold FindingsPage.render. rewrite Hv. reflexivity.
    + intros Hok fields items Hb Hitems. rewrite Hok, Hb. cbn [negb get].
      rewrite Hitems. split; [reflexivity|].
      unfold FindingsPage.render. rewrite Hv. destruct items; reflexivity.
Qed.

End Statements.

Section Labels.

Ltac ascii_cases :=
  repeat (cbn [andb orb negb];
          match goal with
          | |- context [N.leb ?a ?b] => destruct (N.leb_spec a b)
          | |- context [N.eqb ?a ?b] => destruct (N.eqb_spec a b)
          end);
  cbn [andb orb negb] in *; first [reflexivity | lia].

Lemma is_word_upper (c : N) : is_word (toUpperCase_word c) = is_word c.
Proof. unfold toUpperCase_word, is_word. ascii_cases. Qed.

Lemma upper_upper (c : N) :
  toUpperCase_word (toUpperCase_word c) = toUpperCase_word c.
Proof. unfold toUpperCase_word. ascii_cases. Qed.

Lemma fold_char_upper (c : N) : fold_char (toUpperCase_word c) = fold_char c.
Proof. unfold fold_char, toUpperCase_word. ascii_cases. Qed.

Lemma capitalize_words_length (inside : bool) (s : jsstring) :
  List.length (capitalize_words inside s) = List.length s.
Proof.
  revert inside. induction s as [|c r IH]; intros inside; [reflexivity|].
  cbn [capitalize_words List.length]. now rewrite IH.
Qed.

Lemma capitalize_words_fold (inside : bool) (s : jsstring) :
  map fold_char (capitalize_words inside s) = map fold_char s.
Proof.
  revert inside. induction s as [|c r IH]; intros inside; [reflexivity|].
  cbn [capitalize_words map]. rewrite IH.
  destruct (is_word c && negb inside); [now rewrite fold_char_upper | reflexivity].
Qed.

Lemma capitalize_words_twice (inside : bool) (s : jsstring) :
  capitalize_words inside (capitalize_words inside s) = capitalize_words inside s.
Proof.
  revert inside. induction s as [|c r IH]; intros inside; [reflexivity|].
  cbn [capitalize_words].
  destruct (is_word c && negb inside) eqn:E.
  - rewrite is_word_upper, E, upper_upper, IH. reflexivity.
  - rewrite E, IH. reflexivity.
Qed.

Lemma capitalize_words_no_underscore (inside : bool) (s : jsstring) :
  forallb (fun c => negb (N.eqb c 95)) s = true ->
  forallb (fun c => negb (N.eqb c 95)) (capitalize_words inside s) = true.
Proof.
  revert inside. induction s as [|c r IH]; intros inside; [reflexivity|].
  cbn [capitalize_words forallb]. intros H.
  apply andb_true_iff in H as [Hc Hr]. rewrite (IH _ Hr), andb_true_r.
  destruct (is_word c && negb inside); [|exact Hc].
  unfold toUpperCase_word.
  destruct (N.leb_spec 97 c), (N.leb_spec c 122); cbn [andb]; try exact Hc.
  destruct (N.eqb_spec (c - 32) 95); [lia | reflexivity].
Qed.

Lemma replace_underscores_none (s : jsstring) :
  forallb (fun c => negb (N.eqb c 95)) (replace_underscores s) = true.
Proof.
  induction s as [|c r IH]; [reflexivity|].
  cbn [replace_underscores map forallb]. fold (replace_underscores r).
  rewrite IH, andb_true_r.
  destruct (N.eqb_spec c 95) as [->|Hc]; [reflexivity|].
  now apply negb_true_iff, N.eqb_neq.
Qed.

Lemma replace_underscores_fixed (s : jsstring) :
  forallb (fun c => negb (N.eqb c 95)) s = true -> replace_underscores s = s.
Proof.
  induction s as [|c r IH]; [reflexivity|].
  cbn [replace_underscores map forallb]. fold (replace_underscores r).
  intros H. apply andb_true_iff in H as [Hc Hr]. rewrite (IH Hr).
  apply negb_true_iff in Hc. now rewrite Hc.
Qed.

Lemma replace_underscores_fold (s : jsstring) :
  map fold_char (replace_underscores s) = map fold_char s.
Proof.
  induction s as [|c r IH]; [reflexivity|].
  cbn [replace_underscores map]. fold (replace_underscores r). rewrite IH.
  destruct (N.eqb_spec c 95) as [->|]; reflexivity.
Qed.

(** X22.  The labels of the read-only views ([formatFindingType] and
    [formatDetailKey] of the findings page, [formatMetricName] of the
    variance page, which have one and the same body).  A label has the
    length of its key and differs from it by case and by spaces for
    underscores only; it holds no underscore; and it is a fixed point:
    formatting a label again changes nothing.  So cost_overrun_2x is shown
    as Cost Overrun 2x. *)
Theorem labels_differ_from_their_key_by_case_and_spaces :
  (forall s : jsstring,
      List.length (formatFindingType s) = List.length s /\
      map fold_char (formatFindingType s) = map fold_char s /\
      forallb (fun c => negb (N.eqb c 95)) (formatFindingType s) = true /\
      formatFindingType (formatFindingType s) = formatFindingType s /\
      formatDetailKey s = formatFindingType s /\
      formatMetricName s = formatFindingType s) /\
  formatFindingType (lit "cost_overrun_2x") = lit "Cost Overrun 2x".
Proof.
  split; [|vm_compute; reflexivity].
  intros s. unfold formatDetailKey, formatMetricName, formatFindingType.
  repeat apply conj; try reflexivity.
  - rewrite capitalize_words_length. unfold replace_underscores. apply length_map.
  - now rewrite capitalize_words_fold, replace_underscores_fold.
  - apply capitalize_words_no_underscore, replace_underscores_none.
  - rewrite (replace_underscores_fixed (capitalize_words false _))
      by apply capitalize_words_no_underscore, replace_underscores_none.
    apply capitalize_words_twice.
Qed.

End Labels.

Section Groups.
Context {Num : Number}.

Lemma filterItems_tagged (key tag : jsstring) (items : list value) :
  Forall Contract.readable items ->
  Layout.filterItems (tagged key tag) items = Ok (filter (has_tag key tag) items).
Proof.
  induction 1 as [|x items [Hn Hu] _ IH]; [reflexivity|].
  cbn [Layout.filterItems filter]. rewrite IH. unfold has_tag, tagged.
  destruct x; try contradiction; reflexivity.
Qed.

Lemma filterItems_unreadable (key tag : jsstring)
    (before : list value) (x : value) (after : list value) :
  Forall Contract.readable before ->
  Layout.filterItems (tagged key tag) (before ++ x :: after)
  = match get x key with
    | Throw e => Throw e
    | Ok _ => Layout.filterItems (tagged key tag) (before ++ x :: after)
    end.
Proof.
  intros Hb. destruct (get x key) as [v|e] eqn:E; [reflexivity|].
  induction Hb as [|y before [Hn Hu] _ IH]; cbn [app Layout.filterItems].
  - unfold tagged. now rewrite E.
  - rewrite IH. destruct y; try contradiction; cbn; reflexivity.
Qed.

Lemma str_eqb_two (s a b : jsstring) :
  a <> b -> str_eqb s a = true -> str_eqb s b = false.
Proof.
  intros Hab Ha. apply StringFacts.str_eqb_eq in Ha. subst s.
  destruct (str_eqb a b) eqn:E; [|reflexivity].
  apply StringFacts.str_eqb_eq in E. contradiction.
Qed.

Lemma has_tag_two (key a b : jsstring) (x : value) :
  a <> b -> has_tag key a x = true -> has_tag key b x = false.
Proof.
  unfold has_tag, tagged, strict_eq_str. intros Hab.
  destruct (get x key) as [v|e]; [|discriminate].
  destruct v; try discriminate. apply str_eqb_two, Hab.
Qed.

Lemma three_groups_length (f g h : value -> bool) (items : list value) :
  (forall x, f x = true -> g x = false /\ h x = false) ->
  (forall x, g x = true -> h x = false) ->
  (List.length (filter f items) + List.length (filter g items)
   + List.length (filter h items) <= List.length items)%nat.
Proof.
  intros Hf Hg. induction items as [|x items IH]; [reflexivity|].
  cbn [filter List.length].
  destruct (f x) eqn:Ef.
  - destruct (Hf x Ef) as [-> ->]. cbn [List.length]. lia.
  - destruct (g x) eqn:Eg.
    + rewrite (Hg x Eg). cbn [List.length]. lia.
    + destruct (h x); cbn [List.length]; lia.
Qed.


End Groups.

(** *** Concrete runs *)

#[local] Existing Instance Z_Number.

(** The findings of a venue fail to load: the page leaves "Loading..." for
    its fixed text. *)
Lemma read_views_witness :
  exists st',
    FindingsPage.loadFindings (Scenario.always Scenario.storeDown)
      Scenario.tenant Scenario.venue (lit "")
      {| FindingsPage.findings := VArr [];
         FindingsPage.loading := true;
         FindingsPage.error := None |} []
    = (Ok tt, st', [Fetch (GET (lit "/api/guardian/tenant-1/venue/venue-1"))]) /\
    FindingsPage.loading st' = false /\
    FindingsPage.render Scenario.venue st' []
    = Message (lit "Unable to load findings data.").
Proof.
  destruct (read_views_answer_a_failure_with_a_fixed_text
              (Scenario.always Scenario.storeDown) Scenario.tenant Scenario.venue
              (lit "") eq_refl) as (_ & _ & HF).
  destruct (HF {| FindingsPage.findings := VArr [];
                  FindingsPage.loading := true;
                  FindingsPage.error := None |} [] Scenario.storeDown eq_refl)
    as (st' & Hrun & Hl & Hfail & _).
  exists st'. split; [exact Hrun|]. split; [exact Hl|].
  exact (proj1 (Hfail eq_refl) []).
Defined.


End ViewProps.
